(** * The "lazy" somersault ECU: session gate, flip operation, idle supervisor

    A shallow embedding of [examples/somersaultlazy.py], class
    [SomersaultLazyServer].  The methods of the class become functions in a
    state-and-exception monad over the fields of the object; every call to a
    collaborator (logger, catalog, transport, idle event) is recorded in a
    trace so that what was written, encoded or logged can be stated.

    The diagnostic catalog ([decode], [encode]) and the process-wide random
    source live outside the file that is verified; they are parameters of
    the development. *)

From Stdlib Require Import ZArith Lia.
From Stdlib.Strings Require Import Byte.
From stdpp Require Import base option list strings gmap.

Local Open Scope Z_scope.

(** ** Data model *)

(** Values handed to the catalog as keyword arguments of [encode]. *)
Inductive pyval :=
| PyInt (z : Z)
| PyStr (s : string).

(** Exceptions that the methods of the server can let escape. *)
Inductive exn :=
| AssertionError
| DecodeError
| EncodeError
| KeyError (key : string)
| IndexError
| StopIteration.

(** A response description of the catalog; [encode] is a method of it. *)
Record Response := {
  response_short_name : string;
  response_type : string
}.

(** A diagnostic service of the catalog. *)
Record DiagService := {
  short_name : string;
  positive_responses : list Response;
  negative_responses : list Response
}.

(** A decoded request. *)
Record Message := {
  service : DiagService;
  coded_message : list byte;
  param_dict : gmap string Z
}.

(** What [diag_layer.decode(data)] does: it raises [DecodeError] or returns a
    list of messages. *)
Inductive decode_result :=
| DecodeRaises
| DecodeReturns (messages : list Message).

(** Entries of the ECU logger, one constructor per logging statement. *)
Inductive log_record :=
| DebugConnectionMade
| DebugConnectionLost
| DebugDataReceived (data : list byte)
| WarningCouldNotDecode
| InfoReceivedMessage (name : string)
| InfoRunning.

(** Interactions of the server with its collaborators, in program order. *)
Inductive event :=
| IdleSignalSet
| IdleSignalCleared
| Logged (r : log_record)
| DecodeCalled (data : list byte)
| EncodeCalled (r : Response) (coded_request : list byte)
               (kwargs : list (string * pyval))
| Written (payload : list byte).

(** The fields of a [SomersaultLazyServer] object, followed by two pieces of
    bookkeeping for its environment: how many numbers were drawn from the
    random source so far, and the trace of interactions. *)
Record Server := {
  _diag_session_open : bool;
  _data_receive_event : bool;
  dizziness_level : Z;
  max_dizziness_level : Z;
  draws_taken : nat;
  trace : list event
}.

Definition set_diag_session_open (b : bool) (s : Server) : Server :=
  {| _diag_session_open := b;
     _data_receive_event := _data_receive_event s;
     dizziness_level := dizziness_level s;
     max_dizziness_level := max_dizziness_level s;
     draws_taken := draws_taken s;
     trace := trace s |}.

Definition set_data_receive_event (b : bool) (s : Server) : Server :=
  {| _diag_session_open := _diag_session_open s;
     _data_receive_event := b;
     dizziness_level := dizziness_level s;
     max_dizziness_level := max_dizziness_level s;
     draws_taken := draws_taken s;
     trace := trace s |}.

Definition set_dizziness_level (d : Z) (s : Server) : Server :=
  {| _diag_session_open := _diag_session_open s;
     _data_receive_event := _data_receive_event s;
     dizziness_level := d;
     max_dizziness_level := max_dizziness_level s;
     draws_taken := draws_taken s;
     trace := trace s |}.

Definition set_draws_taken (n : nat) (s : Server) : Server :=
  {| _diag_session_open := _diag_session_open s;
     _data_receive_event := _data_receive_event s;
     dizziness_level := dizziness_level s;
     max_dizziness_level := max_dizziness_level s;
     draws_taken := n;
     trace := trace s |}.

Definition record_event (e : event) (s : Server) : Server :=
  {| _diag_session_open := _diag_session_open s;
     _data_receive_event := _data_receive_event s;
     dizziness_level := dizziness_level s;
     max_dizziness_level := max_dizziness_level s;
     draws_taken := draws_taken s;
     trace := trace s ++ [e] |}.

(** The session state of the specification: open flag and bounded counter. *)
Definition session_state (s : Server) : bool * Z * Z :=
  (_diag_session_open s, dizziness_level s, max_dizziness_level s).

(** ** State and exception monad

    A method runs on the object and either returns a value or raises; the
    mutations made before an exception stay, as in Python. *)

Inductive result (A : Type) :=
| Ok (a : A)
| Raise (e : exn).
Arguments Ok {A} a.
Arguments Raise {A} e.

Definition M (A : Type) : Type := Server -> result A * Server.

Definition ret {A} (a : A) : M A := fun s => (Ok a, s).

Definition raise {A} (e : exn) : M A := fun s => (Raise e, s).

Definition bind {A B} (c : M A) (k : A -> M B) : M B :=
  fun s =>
    match c s with
    | (Ok a, s') => k a s'
    | (Raise e, s') => (Raise e, s')
    end.

Definition gets {A} (f : Server -> A) : M A := fun s => (Ok (f s), s).

Definition modify (f : Server -> Server) : M unit := fun s => (Ok tt, f s).

Definition emit (e : event) : M unit := modify (record_event e).

(** [try c except DecodeError: h] *)
Definition try_except_DecodeError {A} (c : M A) (h : M A) : M A :=
  fun s =>
    match c s with
    | (Raise DecodeError, s') => h s'
    | r => r
    end.

Notation "x <- c ;; k" := (bind c (fun x => k))
  (at level 100, c at next level, right associativity).
Notation "c ;; k" := (bind c (fun _ => k))
  (at level 100, right associativity).

(** [range(lo, hi)] *)
Definition range (lo hi : Z) : list Z :=
  map (fun k => lo + Z.of_nat k) (seq 0 (Z.to_nat (hi - lo))).

(** [seq[0]] on a list: [IndexError] when it is empty. *)
Definition item0 {A} (l : list A) : M A :=
  match l with
  | x :: _ => ret x
  | [] => raise IndexError
  end.

(** [next(filter(p, seq))]: the first element satisfying [p], or
    [StopIteration]. *)
Definition next_filter {A} (p : A -> bool) (l : list A) : M A :=
  match List.find p l with
  | Some x => ret x
  | None => raise StopIteration
  end.

(** [d[key]] on a dict: [KeyError] when the key is absent. *)
Definition getitem (d : gmap string Z) (key : string) : M Z :=
  match d !! key with
  | Some v => ret v
  | None => raise (KeyError key)
  end.

Section Endpoint.

(** The catalog: [diag_layer.decode] and [response.encode(coded_request=…,
    **kwargs)]; [None] stands for the catalog raising [EncodeError]. *)
Variable decode : list byte -> decode_result.
Variable encode :
  Response -> list byte -> list (string * pyval) -> option (list byte).

(** [draws k] is the result of the [k]-th call of
    [random.randrange(0, 10000)] in the life of the process. *)
Variable draws : nat -> Z.

Definition randrange_0_10000 : M Z :=
  k <- gets draws_taken ;;
  modify (set_draws_taken (S k)) ;;
  ret (draws k).

Definition call_decode (data : list byte) : M (list Message) :=
  emit (DecodeCalled data) ;;
  match decode data with
  | DecodeRaises => raise DecodeError
  | DecodeReturns messages => ret messages
  end.

Definition call_encode (r : Response) (coded_request : list byte)
    (kwargs : list (string * pyval)) : M (list byte) :=
  emit (EncodeCalled r coded_request kwargs) ;;
  match encode r coded_request kwargs with
  | Some payload => ret payload
  | None => raise EncodeError
  end.

Definition transport_write (payload : list byte) : M unit :=
  emit (Written payload).

Definition ecu_logger (r : log_record) : M unit := emit (Logged r).

(** The body of [for i in range(0, num_flips)]: the result says whether the
    loop was left by the [return] of the stumble branch. *)
Fixpoint flip_loop (message : Message) (todo : list Z) : M bool :=
  match todo with
  | [] => ret false
  | i :: rest =>
      r <- randrange_0_10000 ;;
      if r <? 100 then
        response <- next_filter
          (fun x => String.eqb (response_short_name x) "flips_not_done")
          (negative_responses (service message)) ;;
        response_data <- call_encode response (coded_message message)
          [("reason", PyInt 2); ("flips_successfully_done", PyInt i)] ;;
        transport_write response_data ;;
        ret true
      else
        modify (fun s => set_dizziness_level (dizziness_level s + 1) s) ;;
        flip_loop message rest
  end.

Definition handle_forward_flip_request (message : Message) : M unit :=
  let service := service message in
  soberness_check <- getitem (param_dict message) "forward_soberness_check" ;;
  num_flips <- getitem (param_dict message) "num_flips" ;;
  if negb (soberness_check =? 0x12) then
    response <- next_filter
      (fun x => String.eqb (response_short_name x) "flips_not_done")
      (negative_responses service) ;;
    response_data <- call_encode response (coded_message message)
      [("reason", PyInt 0); ("flips_successfully_done", PyInt 0)] ;;
    transport_write response_data
  else
    dizziness <- gets dizziness_level ;;
    max_dizziness <- gets max_dizziness_level ;;
    if dizziness + num_flips >? max_dizziness then
      response <- next_filter
        (fun x => String.eqb (response_short_name x) "flips_not_done")
        (negative_responses service) ;;
      response_data <- call_encode response (coded_message message)
        [("reason", PyInt 1);
         ("flips_successfully_done", PyInt (max_dizziness - dizziness))] ;;
      transport_write response_data ;;
      modify (fun s => set_dizziness_level (max_dizziness_level s) s)
    else
      returned <- flip_loop message (range 0 num_flips) ;;
      if (returned : bool) then ret tt
      else
        response <- next_filter
          (fun x => String.eqb (response_short_name x) "grudging_forward")
          (positive_responses service) ;;
        response_data <- call_encode response (coded_message message) [] ;;
        transport_write response_data.

Definition handle_request (message : Message) : M unit :=
  let service := service message in
  ecu_logger (InfoReceivedMessage (short_name service)) ;;
  if String.eqb (short_name service) "tester_present" then
    is_open <- gets _diag_session_open ;;
    response_payload <-
      (if (is_open : bool) then
         response <- item0 (positive_responses service) ;;
         call_encode response (coded_message message) []
       else
         response <- item0 (negative_responses service) ;;
         call_encode response (coded_message message) []) ;;
    transport_write response_payload
  else if String.eqb (short_name service) "session_start" then
    is_open <- gets _diag_session_open ;;
    response_payload <-
      (if negb is_open then
         response <- item0 (positive_responses service) ;;
         call_encode response (coded_message message)
           [("can_do_backward_flips", PyStr "false")]
       else
         response <- item0 (negative_responses service) ;;
         call_encode response (coded_message message) []) ;;
    modify (set_diag_session_open true) ;;
    transport_write response_payload
  else
    is_open <- gets _diag_session_open ;;
    if negb is_open then
      let rq_id :=
        match coded_message message with
        | [] => Byte.x00
        | b :: _ => b
        end in
      transport_write [Byte.x7f; rq_id; Byte.x7f]
    else if String.eqb (short_name service) "session_stop" then
      is_open <- gets _diag_session_open ;;
      response_payload <-
        (if (is_open : bool) then
           response <- item0 (positive_responses service) ;;
           call_encode response (coded_message message) []
         else
           response <- item0 (negative_responses service) ;;
           call_encode response (coded_message message) []) ;;
      modify (set_diag_session_open false) ;;
      transport_write response_payload
    else if String.eqb (short_name service) "do_forward_flips" then
      handle_forward_flip_request message
    else
      ret tt.

(** [self._data_receive_event.set()] and [.clear()] *)
Definition data_receive_event_set : M unit :=
  modify (set_data_receive_event true) ;; emit IdleSignalSet.

Definition data_receive_event_clear : M unit :=
  modify (set_data_receive_event false) ;; emit IdleSignalCleared.

(** [assert cond], for an interpreter that runs with assertions enabled (the
    default; under [python -O] the statement is dropped). *)
Definition assert (cond : bool) : M unit :=
  if cond then ret tt else raise AssertionError.

Definition data_received (data : list byte) : M unit :=
  data_receive_event_set ;;
  ecu_logger (DebugDataReceived data) ;;
  try_except_DecodeError
    (messages <- call_decode data ;;
     assert (Nat.eqb (length messages) 1) ;;
     message <- item0 messages ;;
     handle_request message)
    (ecu_logger WarningCouldNotDecode).

Definition connection_made : M unit := ecu_logger DebugConnectionMade.

Definition connection_lost : M unit := ecu_logger DebugConnectionLost.

Definition close_diag_session : M unit :=
  is_open <- gets _diag_session_open ;;
  if negb is_open then ret tt
  else modify (set_diag_session_open false).

(** How [await asyncio.wait_for(self._data_receive_event.wait(), timeout)]
    can end. *)
Inductive wait_outcome :=
| WaitReturned
| WaitTimeoutError
| WaitCancelledError.

(** One turn of the [while True] loop of [_run], given how its [await]
    ended.  The result says whether the loop goes on ([continue]) or the
    coroutine has returned. *)
Definition _run_iteration (w : wait_outcome) : M bool :=
  match w with
  | WaitTimeoutError => close_diag_session ;; ret true
  | WaitCancelledError => ret false
  | WaitReturned =>
      is_set <- gets _data_receive_event ;;
      if (is_set : bool) then data_receive_event_clear ;; ret true
      else ret true
  end.

(** What [_run] does before it enters its loop. *)
Definition _run_prologue : M unit := ecu_logger InfoRunning.

(** Which ends of [asyncio.wait_for] on [Event.wait()] the coroutine can
    meet when it is resumed.  The wait returns only once the event is set.
    A timeout is delivered when the timer has fired before the wait
    returned: as a rule the event is unset then, but it can be set, by a
    frame that arrived after the timer had fired and before the coroutine
    was resumed.  Cancellation can arrive at any time. *)
Definition wait_can_end (s : Server) (w : wait_outcome) : bool :=
  match w with
  | WaitReturned => _data_receive_event s
  | WaitTimeoutError => true
  | WaitCancelledError => true
  end.

(** ** The endpoint as a transition system

    The event loop runs one callback at a time and none of the methods
    above suspends, so the endpoint moves by whole method calls. *)
Inductive action :=
| SupervisorStarts
| ConnectionMade
| ConnectionLost
| DataReceived (data : list byte)
| SupervisorResumes (w : wait_outcome).

Definition enabled (a : action) (s : Server) : bool :=
  match a with
  | SupervisorResumes w => wait_can_end s w
  | _ => true
  end.

Definition step (a : action) (s : Server) : Server :=
  match a with
  | SupervisorStarts => snd (_run_prologue s)
  | ConnectionMade => snd (connection_made s)
  | ConnectionLost => snd (connection_lost s)
  | DataReceived data => snd (data_received data s)
  | SupervisorResumes w => snd (_run_iteration w s)
  end.

(** [SomersaultLazyServer.__init__], with the constant of
    [self.max_dizziness_level = …] as a parameter.  The constructor also
    derives the idle timeout from the communication parameters of the
    catalog; durations are not part of this model, which only knows how a
    wait of the supervisor can end. *)
Definition init_with (max_dizziness : Z) : Server :=
  {| _diag_session_open := false;
     _data_receive_event := false;
     dizziness_level := 0;
     max_dizziness_level := max_dizziness;
     draws_taken := 0;
     trace := [] |}.

Definition __init__ : Server := init_with 10.

Inductive reachable_from (s0 : Server) : Server -> Prop :=
| reachable_start : reachable_from s0 s0
| reachable_step a s :
    reachable_from s0 s -> enabled a s = true ->
    reachable_from s0 (step a s).

(** The invariant of the session state. *)
Definition dizziness_in_bounds (s : Server) : Prop :=
  0 <= dizziness_level s <= max_dizziness_level s.

End Endpoint.

Arguments reachable_from decode encode draws s0 s.

(** ** Vocabulary of the properties *)

(** For a relation [R] on servers, [preserves R c] says that running [c]
    relates the server before to the server after, whether [c] returns or
    raises. *)
Definition preserves (R : relation Server) {A} (c : M A) : Prop :=
  forall s, R s (snd (c s)).

(** [grows s s']: the bound is the same, and a counter that was not above the
    bound has not decreased and is still not above it. *)
Definition grows (s s' : Server) : Prop :=
  max_dizziness_level s' = max_dizziness_level s /\
  (dizziness_level s <= max_dizziness_level s ->
   dizziness_level s <= dizziness_level s' <= max_dizziness_level s).

(** [same_counter s s']: neither the counter nor its bound has changed. *)
Definition same_counter (s s' : Server) : Prop :=
  dizziness_level s' = dizziness_level s /\
  max_dizziness_level s' = max_dizziness_level s.

(** [carries_on s s']: the idle signal is as it was and the trace was only
    extended. *)
Definition carries_on (s s' : Server) : Prop :=
  _data_receive_event s' = _data_receive_event s /\
  exists es, trace s' = trace s ++ es.

(** What a method added to the trace. *)
Definition new_events (s s' : Server) : list event :=
  drop (length (trace s)) (trace s').

(** The payloads written to the transport among some events. *)
Definition responses_written (es : list event) : list (list byte) :=
  omap (fun e => match e with Written payload => Some payload | _ => None end) es.

(** The catalog calls among some events. *)
Definition is_encode_call (e : event) : bool :=
  match e with EncodeCalled _ _ _ => true | _ => false end.

(** [wrote n s s']: from [s] to [s'] the trace was extended, with [n]
    writes to the transport. *)
Definition wrote (n : nat) (s s' : Server) : Prop :=
  exists es, trace s' = trace s ++ es /\ length (responses_written es) = n.

(** [answers c]: when [c] returns it has written one response, and when it
    raises it has written none. *)
Definition answers {A} (c : M A) : Prop :=
  forall s,
    match c s with
    | (Ok _, s') => wrote 1 s s'
    | (Raise _, s') => wrote 0 s s'
    end.

(** The server after [steps] flips that did not stumble. *)
Definition after_flips (steps : nat) (s : Server) : Server :=
  {| _diag_session_open := _diag_session_open s;
     _data_receive_event := _data_receive_event s;
     dizziness_level := dizziness_level s + Z.of_nat steps;
     max_dizziness_level := max_dizziness_level s;
     draws_taken := draws_taken s + steps;
     trace := trace s |}.

(** The server when [data_received] is about to look at what [decode] gave:
    the signal is set, the frame is logged, the catalog was called. *)
Definition about_to_dispatch (data : list byte) (s : Server) : Server :=
  record_event (DecodeCalled data)
    (record_event (Logged (DebugDataReceived data))
       (record_event IdleSignalSet (set_data_receive_event true s))).

(** [rq_id] of the generic frame: the first byte of the request, or 0. *)
Definition request_id (message : Message) : byte :=
  match coded_message message with
  | [] => Byte.x00
  | b :: _ => b
  end.

(** The services that the dispatcher has a branch for. *)
Definition handled_by_name (name : string) : bool :=
  String.eqb name "tester_present" || String.eqb name "session_start"
  || String.eqb name "session_stop" || String.eqb name "do_forward_flips".

(** Modelled from the spec: [uds.NegativeResponseId], a constant of the
    library that is not part of the sources at hand; the spec gives the
    negative marker of the generic frame as 0x7F. *)
Definition NegativeResponseId : byte := Byte.x7f.

(** The test by which [tester_await_response] recognises a negative response
    in a frame that the catalog does not decode. *)
Definition is_negative_response (raw_response : list byte) : bool :=
  match raw_response with
  | sid :: rq_sid :: error_id :: _ => Byte.eqb sid NegativeResponseId
  | _ => false
  end.

(** ** Three sentences of the specification, as they are worded *)

(** The claim as the specification words it: one response for every decoded
    message. *)
Definition one_response_per_message : Prop :=
  forall (encode : Response -> list byte -> list (string * pyval)
                   -> option (list byte))
         (draws : nat -> Z) (message : Message) (s : Server),
    length (responses_written
              (new_events s (snd (handle_request encode draws message s))))
    = 1%nat.

(** The claim as the specification words it: a decode that returns any
    number of messages other than one is handled like a decode failure:
    logged, no response, and [data_received] returns. *)
Definition treated_as_decode_failure
    (decode : list byte -> decode_result)
    (encode : Response -> list byte -> list (string * pyval) -> option (list byte))
    (draws : nat -> Z) (data : list byte) (s : Server) : Prop :=
  fst (data_received decode encode draws data s) = Ok tt /\
  In (Logged WarningCouldNotDecode)
     (new_events s (snd (data_received decode encode draws data s))) /\
  responses_written
    (new_events s (snd (data_received decode encode draws data s))) = [].


(** ** A small catalog to run the methods on

    It has the shape of the somersault catalog: the four services that the
    dispatcher knows by name, one further service, and frames told apart by
    their first byte. *)

Definition byte_to_Z (b : byte) : Z := Z.of_N (Byte.to_N b).

Definition byte_of_Z (z : Z) : byte :=
  match Byte.of_N (Z.to_N (z mod 256)) with
  | Some b => b
  | None => Byte.x00
  end.

Definition positive_response : Response :=
  {| response_short_name := "positive_response";
     response_type := "POS-RESPONSE" |}.

Definition negative_response : Response :=
  {| response_short_name := "negative_response";
     response_type := "NEG-RESPONSE" |}.

Definition grudging_forward : Response :=
  {| response_short_name := "grudging_forward";
     response_type := "POS-RESPONSE" |}.

Definition flips_not_done : Response :=
  {| response_short_name := "flips_not_done";
     response_type := "NEG-RESPONSE" |}.

Definition plain_service (name : string) : DiagService :=
  {| short_name := name;
     positive_responses := [positive_response];
     negative_responses := [negative_response] |}.

Definition do_forward_flips : DiagService :=
  {| short_name := "do_forward_flips";
     positive_responses := [grudging_forward];
     negative_responses := [flips_not_done] |}.

Definition plain_request (name : string) (coded : list byte) : Message :=
  {| service := plain_service name;
     coded_message := coded;
     param_dict := ∅ |}.

Definition flip_request (soberness_check num_flips : Z) : Message :=
  {| service := do_forward_flips;
     coded_message :=
       [Byte.xba; byte_of_Z soberness_check; byte_of_Z num_flips];
     param_dict :=
       <["forward_soberness_check" := soberness_check]>
         (<["num_flips" := num_flips]> ∅) |}.

Definition demo_decode (data : list byte) : decode_result :=
  match data with
  | [Byte.x3e; _] => DecodeReturns [plain_request "tester_present" data]
  | [Byte.x10; Byte.x00] => DecodeReturns [plain_request "session_start" data]
  | [Byte.x10; Byte.x01] => DecodeReturns [plain_request "session_stop" data]
  | [Byte.xbd; _] => DecodeReturns [plain_request "set_operation_params" data]
  | [Byte.xba; c; n] => DecodeReturns [flip_request (byte_to_Z c) (byte_to_Z n)]
  | _ => DecodeRaises
  end.

Definition demo_kwarg (kw : string * pyval) : list byte :=
  match snd kw with
  | PyInt z => [byte_of_Z z]
  | PyStr _ => []
  end.

Definition demo_encode (r : Response) (coded_request : list byte)
    (kwargs : list (string * pyval)) : option (list byte) :=
  let rq_id := match coded_request with b :: _ => b | [] => Byte.x00 end in
  if String.eqb (response_type r) "NEG-RESPONSE"
  then Some (Byte.x7f :: rq_id :: concat (map demo_kwarg kwargs))
  else Some (byte_of_Z (byte_to_Z rq_id + 0x40) :: concat (map demo_kwarg kwargs)).

(** A catalog in which every frame matches two services. *)
Definition ambiguous_decode (data : list byte) : decode_result :=
  DecodeReturns [plain_request "tester_present" data;
                 plain_request "session_start" data].

(** A random source that never stumbles, and one that stumbles on its third
    draw. *)
Definition steady_draws (k : nat) : Z := 5000.

Definition third_draw_stumbles (k : nat) : Z :=
  if Nat.eqb k 2 then 42 else 5000.

(** A server with an open session at a given dizziness, bound 10. *)
Definition session_at (dizziness : Z) : Server :=
  {| _diag_session_open := true;
     _data_receive_event := false;
     dizziness_level := dizziness;
     max_dizziness_level := 10;
     draws_taken := 0;
     trace := [] |}.

(** ** Vocabulary of further properties *)

(** [untouched s s']: the session state, the random source and the idle
    signal are as they were; only the trace may differ. *)
Definition untouched (s s' : Server) : Prop :=
  session_state s' = session_state s /\
  draws_taken s' = draws_taken s /\
  _data_receive_event s' = _data_receive_event s.

(** [quiet s s']: the counter, its bound and the random source are as they
    were. *)
Definition quiet (s s' : Server) : Prop :=
  dizziness_level s' = dizziness_level s /\
  max_dizziness_level s' = max_dizziness_level s /\
  draws_taken s' = draws_taken s.

(** [not_opened s s']: a closed session has not been opened. *)
Definition not_opened (s s' : Server) : Prop :=
  _diag_session_open s = false -> _diag_session_open s' = false.

(** A catalog that cannot encode anything. *)
Definition failing_encode (r : Response) (coded_request : list byte)
    (kwargs : list (string * pyval)) : option (list byte) := None.

(** [same_draws s s']: nothing was drawn from the random source. *)
Definition same_draws (s s' : Server) : Prop :=
  draws_taken s' = draws_taken s.

(** A flip request whose step count is missing. *)
Definition flip_request_without_count (soberness_check : Z) : Message :=
  {| service := do_forward_flips;
     coded_message := [Byte.xba; byte_of_Z soberness_check];
     param_dict := <["forward_soberness_check" := soberness_check]> ∅ |}.

(** The calls of the catalog's [decode] among some events: one per frame
    that [data_received] was given. *)
Definition is_decode_call (e : event) : bool :=
  match e with DecodeCalled _ => true | _ => false end.

Definition frames_received (es : list event) : nat :=
  length (List.filter is_decode_call es).

(** [answered_within s s']: the trace was extended, by no more responses
    than frames. *)
Definition answered_within (s s' : Server) : Prop :=
  exists es, trace s' = trace s ++ es /\
             (length (responses_written es) <= frames_received es)%nat.

(** The loop of [_run], over the ways in which its successive waits end.
    The result says whether the coroutine has returned; with the list used
    up it is suspended in its next wait. *)
Fixpoint _run_loop (waits : list wait_outcome) : M bool :=
  match waits with
  | [] => ret false
  | w :: rest =>
      continue <- _run_iteration w ;;
      if (continue : bool) then _run_loop rest else ret true
  end.

Definition _run (waits : list wait_outcome) : M bool :=
  _run_prologue ;; _run_loop waits.

(** Whether a wait of the list ends in a cancellation. *)
Definition is_cancelled (w : wait_outcome) : bool :=
  match w with WaitCancelledError => true | _ => false end.

(** The server after a burst of frames, received one after the other with
    no turn of the supervisor in between. *)
Definition receive_all
    (decode : list byte -> decode_result)
    (encode : Response -> list byte -> list (string * pyval) -> option (list byte))
    (draws : nat -> Z) (frames : list (list byte)) (s : Server) : Server :=
  fold_left (fun s data => step decode encode draws (DataReceived data) s)
            frames s.

(** [supervised s s']: no response was written, the counter, its bound and
    the random source are as they were, and a closed session was not
    opened. *)
Definition supervised (s s' : Server) : Prop :=
  wrote 0 s s' /\ quiet s s' /\ not_opened s s'.

(** [returns c]: the method [c] is never left by an exception. *)
Definition returns {A} (c : M A) : Prop :=
  forall s, exists a s', c s = (Ok a, s').

(** [responses[0].encode(coded_request=coded, **kwargs)] goes through: the
    list has a first response, and the catalog encodes it with these
    arguments. *)
Definition first_response_encodes
    (encode : Response -> list byte -> list (string * pyval) -> option (list byte))
    (responses : list Response) (coded : list byte)
    (kwargs : list (string * pyval)) : Prop :=
  exists r rest, responses = r :: rest /\ encode r coded kwargs <> None.

(** What the dispatcher needs of the catalog for a message, service by
    service: only the responses that it looks up for that service, encoded
    with the keyword arguments that it passes.  For the keepalive probe these
    are the first positive and the first negative response, without
    arguments; for the session start the first positive response with the
    capability flag and the first negative one without arguments; for the
    session stop the first positive response without arguments; for a flip
    request both parameters of the request, the response [flips_not_done]
    with a reason from 0 to 2 and a count from 0 to [limit], and the response
    [grudging_forward] without arguments.  Nothing is asked of [encode] on
    any other response or argument list, so that a catalog which validates
    its arguments can meet the condition. *)
Definition catalog_complete_for
    (encode : Response -> list byte -> list (string * pyval) -> option (list byte))
    (message : Message) (limit : Z) : Prop :=
  (short_name (service message) = "tester_present" ->
   first_response_encodes encode (positive_responses (service message))
     (coded_message message) [] /\
   first_response_encodes encode (negative_responses (service message))
     (coded_message message) []) /\
  (short_name (service message) = "session_start" ->
   first_response_encodes encode (positive_responses (service message))
     (coded_message message) [("can_do_backward_flips", PyStr "false")] /\
   first_response_encodes encode (negative_responses (service message))
     (coded_message message) []) /\
  (short_name (service message) = "session_stop" ->
   first_response_encodes encode (positive_responses (service message))
     (coded_message message) []) /\
  (short_name (service message) = "do_forward_flips" ->
   is_Some (param_dict message !! "forward_soberness_check") /\
   is_Some (param_dict message !! "num_flips") /\
   (exists r,
      find (fun x => String.eqb (response_short_name x) "flips_not_done")
           (negative_responses (service message)) = Some r /\
      forall reason done,
        0 <= reason <= 2 -> 0 <= done <= limit ->
        encode r (coded_message message)
          [("reason", PyInt reason); ("flips_successfully_done", PyInt done)]
          <> None) /\
   (exists r,
      find (fun x => String.eqb (response_short_name x) "grudging_forward")
           (positive_responses (service message)) = Some r /\
      encode r (coded_message message) [] <> None)).

(** A catalog that validates what it is given, as the catalog of the library
    does: a response is encoded only with the parameters that it declares,
    each within its range.  [flips_not_done] takes a reason from 0 to 2 and a
    count that fits a byte; the positive response to the session start takes
    the capability flag; every other response takes no parameter. *)
Definition is_session_start_request (coded_request : list byte) : bool :=
  match coded_request with
  | [b0; b1] => Byte.eqb b0 Byte.x10 && Byte.eqb b1 Byte.x00
  | _ => false
  end.

Definition strict_encode (r : Response) (coded_request : list byte)
    (kwargs : list (string * pyval)) : option (list byte) :=
  let rq_id := match coded_request with b :: _ => b | [] => Byte.x00 end in
  if String.eqb (response_short_name r) "flips_not_done" then
    match kwargs with
    | [(k1, PyInt reason); (k2, PyInt done)] =>
        if String.eqb k1 "reason" && String.eqb k2 "flips_successfully_done"
           && (0 <=? reason) && (reason <=? 2) && (0 <=? done) && (done <=? 255)
        then Some [Byte.x7f; rq_id; byte_of_Z reason; byte_of_Z done]
        else None
    | _ => None
    end
  else if String.eqb (response_short_name r) "positive_response"
          && is_session_start_request coded_request then
    match kwargs with
    | [(k, PyStr v)] =>
        if String.eqb k "can_do_backward_flips"
           && (String.eqb v "true" || String.eqb v "false")
        then Some [byte_of_Z (byte_to_Z rq_id + 0x40);
                   if String.eqb v "true" then Byte.x01 else Byte.x00]
        else None
    | _ => None
    end
  else
    match kwargs with
    | [] =>
        if String.eqb (response_type r) "NEG-RESPONSE"
        then Some [Byte.x7f; rq_id]
        else Some [byte_of_Z (byte_to_Z rq_id + 0x40)]
    | _ => None
    end.

(** ** The tester side *)

(** A decoded reply, with the response description it was matched to. *)
Record Reply := {
  structure : Response;
  reply_coded_message : list byte
}.

(** What [diag_layer.decode_response(raw_response, raw_message)] does. *)
Inductive decode_response_result :=
| DecodeResponseRaises
| DecodeResponseReturns (replies : list Reply).

(** How [await asyncio.wait_for(isotp_reader.read(4095), timeout)] ends. *)
Inductive read_outcome :=
| ReadTimeout
| ReadReturns (raw_response : list byte).

(** Exceptions that leave [tester_await_response]. *)
Inductive tester_exn :=
| TesterTimeoutError
| TesterAssertionError
| TesterValueError.

(** Entries of the tester logger, one constructor per logging statement of
    [tester_await_response]. *)
Inductive tester_log :=
| DebugReceivedResponse
| DebugReceivedTyped (rtype : string)
| DebugNegativeResponseByService (rq_name error_name : string)
| DebugCouldNotDecodeResponse.

(** What [tester_await_response] hands back: the decoded reply, or the raw
    response. *)
Inductive tester_answer :=
| DecodedReply (reply : Reply)
| RawResponse (raw_response : list byte).

Inductive tester_result :=
| TesterReturns (answer : tester_answer)
| TesterRaises (e : tester_exn).

(** One lower-case hexadecimal digit. *)
Definition hex_digit (n : N) : string :=
  match n with
  | 0%N => "0" | 1%N => "1" | 2%N => "2" | 3%N => "3"
  | 4%N => "4" | 5%N => "5" | 6%N => "6" | 7%N => "7"
  | 8%N => "8" | 9%N => "9" | 10%N => "a" | 11%N => "b"
  | 12%N => "c" | 13%N => "d" | 14%N => "e" | _ => "f"
  end.

(** [f"0x{rq_sid:x}"] for a byte: no padding. *)
Definition format_0x (b : byte) : string :=
  let n := Byte.to_N b in
  if (n <? 16)%N then "0x" +:+ hex_digit n
  else "0x" +:+ hex_digit (n / 16) +:+ hex_digit (n mod 16).

Section Tester.

(** The catalog's [decode_response], and the two enumerations that the
    tester looks codes up in: [somersaultecu.SID(…).name] and
    [uds.NegativeResponseCodes(…).name]; [None] stands for the [ValueError]
    of a code that is not a member. *)
Variable decode_response : list byte -> list byte -> decode_response_result.
Variable SID_name : byte -> option string.
Variable NegativeResponseCodes_name : byte -> option string.

Definition tester_await_response (read : read_outcome)
    (raw_message : list byte) : list tester_log * tester_result :=
  match read with
  | ReadTimeout => ([], TesterRaises TesterTimeoutError)
  | ReadReturns raw_response =>
      match decode_response raw_response raw_message with
      | DecodeResponseReturns replies =>
          match replies with
          | [reply] =>
              let rtype :=
                if String.eqb (response_type (structure reply)) "POS-RESPONSE"
                then "positive"
                else if String.eqb (response_type (structure reply))
                          "NEG-RESPONSE"
                then "negative"
                else "unknown" in
              ([DebugReceivedResponse; DebugReceivedTyped rtype],
               TesterReturns (DecodedReply reply))
          | _ => ([DebugReceivedResponse], TesterRaises TesterAssertionError)
          end
      | DecodeResponseRaises =>
          match raw_response with
          | sid :: rq_sid :: error_id :: _ =>
              if Byte.eqb sid NegativeResponseId then
                let rq_name :=
                  match SID_name rq_sid with
                  | Some name => name
                  | None => format_0x rq_sid
                  end in
                match NegativeResponseCodes_name error_id with
                | Some error_name =>
                    ([DebugReceivedResponse;
                      DebugNegativeResponseByService rq_name error_name],
                     TesterReturns (RawResponse raw_response))
                | None => ([DebugReceivedResponse], TesterRaises TesterValueError)
                end
              else
                ([DebugReceivedResponse; DebugCouldNotDecodeResponse],
                 TesterReturns (RawResponse raw_response))
          | _ =>
              ([DebugReceivedResponse; DebugCouldNotDecodeResponse],
               TesterReturns (RawResponse raw_response))
          end
      end
  end.

End Tester.

(** The requests that [tester_main] sends, in the order in which it sends
    them; each is a call of a service of the catalog, which encodes it. *)
Inductive service_call :=
| Call_do_forward_flips (forward_soberness_check num_flips : Z)
| Call_session_start.

Definition tester_main_calls : list service_call :=
  [Call_do_forward_flips 0x12 1;
   Call_session_start;
   Call_do_forward_flips 0x12 1;
   Call_do_forward_flips 0x23 1;
   Call_do_forward_flips 0x12 3;
   Call_do_forward_flips 0x12 50].

(** [same_open s s']: the session is open or closed as it was. *)
Definition same_open (s s' : Server) : Prop :=
  _diag_session_open s' = _diag_session_open s.

(** The request encoder of the sample catalog. *)
Definition demo_request (call : service_call) : list byte :=
  match call with
  | Call_do_forward_flips c n => [Byte.xba; byte_of_Z c; byte_of_Z n]
  | Call_session_start => [Byte.x10; Byte.x00]
  end.

(** Sample enumerations for the tester: no service id has a name, the code
    0x7F has one. *)
Definition no_SID_name (b : byte) : option string := None.

Definition demo_NegativeResponseCodes_name (b : byte) : option string :=
  if Byte.eqb b Byte.x7f then Some "ServiceNotSupportedInActiveSession"
  else None.

(** A catalog that decodes no response. *)
Definition decode_no_response (raw_response raw_message : list byte)
  : decode_response_result := DecodeResponseRaises.

(** A catalog that decodes the requests which it encoded, as far as some
    calls go: the frame of a call of [do_forward_flips] is decoded to one
    message for that service with the parameters of the call, the frame of
    a call of [session_start] to one message for that service; and the
    catalog is complete for these messages, with counts up to [limit]. *)
Definition decodes_its_requests
    (decode : list byte -> decode_result)
    (encode : Response -> list byte -> list (string * pyval) -> option (list byte))
    (request : service_call -> list byte) (limit : Z)
    (calls : list service_call) : Prop :=
  forall call, In call calls ->
    exists message,
      decode (request call) = DecodeReturns [message] /\
      catalog_complete_for encode message limit /\
      match call with
      | Call_do_forward_flips c n =>
          short_name (service message) = "do_forward_flips" /\
          param_dict message !! "forward_soberness_check" = Some c /\
          param_dict message !! "num_flips" = Some n
      | Call_session_start =>
          short_name (service message) = "session_start"
      end.

(** ** Running the primitive steps *)

Lemma run_bind_ret {A B} (a : A) (k : A -> M B) (s : Server) :
  bind (ret a) k s = k a s.
Proof. reflexivity. Qed.

Lemma run_bind_raise {A B} (e : exn) (k : A -> M B) (s : Server) :
  bind (raise e) k s = (Raise e, s).
Proof. reflexivity. Qed.

Lemma run_bind_gets {A B} (f : Server -> A) (k : A -> M B) (s : Server) :
  bind (gets f) k s = k (f s) s.
Proof. reflexivity. Qed.

Lemma run_bind_modify {B} (f : Server -> Server) (k : unit -> M B) (s : Server) :
  bind (modify f) k s = k tt (f s).
Proof. reflexivity. Qed.

Lemma run_bind_assoc {A B C} (c : M A) (k : A -> M B) (h : B -> M C) (s : Server) :
  bind (bind c k) h s = bind c (fun a => bind (k a) h) s.
Proof. unfold bind. destruct (c s) as [[a|e] s1]; reflexivity. Qed.

(** Runs a method as far as its steps are known. *)
Ltac run_steps :=
  repeat first
    [ rewrite run_bind_assoc | rewrite run_bind_ret | rewrite run_bind_raise
    | rewrite run_bind_gets | rewrite run_bind_modify ].

(** ** Relations that every step of a method respects

    For a reflexive and transitive relation the judgement [preserves] goes
    through the steps of a method one by one. *)

Section Preserves.

Context (R : relation Server) `{!PreOrder R}.

Lemma preserves_ret {A} (a : A) : preserves R (ret a).
Proof. intros s. simpl. reflexivity. Qed.

Lemma preserves_raise {A} (e : exn) : preserves R (@raise A e).
Proof. intros s. simpl. reflexivity. Qed.

Lemma preserves_gets {A} (f : Server -> A) : preserves R (gets f).
Proof. intros s. simpl. reflexivity. Qed.

Lemma preserves_modify (f : Server -> Server) :
  (forall s, R s (f s)) -> preserves R (modify f).
Proof. intros Hf s. apply Hf. Qed.

Lemma preserves_bind {A B} (c : M A) (k : A -> M B) :
  preserves R c -> (forall a, preserves R (k a)) -> preserves R (bind c k).
Proof.
  intros Hc Hk s. unfold bind.
  specialize (Hc s). destruct (c s) as [[a|e] s1]; simpl in *.
  - transitivity s1; [exact Hc | apply Hk].
  - exact Hc.
Qed.

Lemma related_bind {A B} (c : M A) (k : A -> M B) (s : Server) :
  R s (snd (c s)) -> (forall a, preserves R (k a)) -> R s (snd (bind c k s)).
Proof.
  intros Hc Hk. unfold bind.
  destruct (c s) as [[a|e] s1]; simpl in *.
  - transitivity s1; [exact Hc | apply Hk].
  - exact Hc.
Qed.

Lemma preserves_try {A} (c h : M A) :
  preserves R c -> preserves R h -> preserves R (try_except_DecodeError c h).
Proof.
  intros Hc Hh s. unfold try_except_DecodeError.
  specialize (Hc s). destruct (c s) as [[a|e] s1]; simpl in *.
  - exact Hc.
  - destruct e; simpl; try exact Hc.
    transitivity s1; [exact Hc | apply Hh].
Qed.

End Preserves.

(** Breaks a [preserves] goal down along the structure of the method; what
    is left are the goals about the assignments ([modify]). *)
Ltac preserves_step :=
  lazymatch goal with
  | |- PreOrder _ => typeclasses eauto
  | |- forall _, _ => intro
  | |- preserves _ (bind _ _) => apply preserves_bind
  | |- preserves _ (ret _) => apply preserves_ret
  | |- preserves _ (raise _) => apply preserves_raise
  | |- preserves _ (gets _) => apply preserves_gets
  | |- preserves _ (modify _) => apply preserves_modify
  | |- preserves _ (try_except_DecodeError _ _) => apply preserves_try
  | |- preserves _ (if ?b then _ else _) => destruct b eqn:?
  | |- preserves _ (match ?x with _ => _ end) => destruct x eqn:?
  end.

Ltac unfold_calls :=
  unfold data_receive_event_set, data_receive_event_clear, connection_made,
    connection_lost, _run_prologue, transport_write, ecu_logger, call_encode,
    call_decode, emit, item0, next_filter, getitem, assert, randrange_0_10000.

Ltac preserves_all := unfold_calls; repeat preserves_step.

(** ** The dizziness counter never leaves its bounds and never decreases *)

#[export] Instance grows_preorder : PreOrder grows.
Proof.
  split.
  - intros s. unfold grows. lia.
  - intros s1 s2 s3 [Hm12 H12] [Hm23 H23]. unfold grows. split; [lia|].
    intros H. specialize (H12 H). rewrite Hm12 in H23. lia.
Qed.

Lemma grows_same_counter (s s' : Server) :
  dizziness_level s' = dizziness_level s ->
  max_dizziness_level s' = max_dizziness_level s ->
  grows s s'.
Proof. intros Hd Hm. unfold grows. lia. Qed.

Lemma length_range (lo hi : Z) : length (range lo hi) = Z.to_nat (hi - lo).
Proof. unfold range. rewrite length_map. apply length_seq. Qed.

#[export] Instance same_counter_preorder : PreOrder same_counter.
Proof.
  split.
  - intros s. split; reflexivity.
  - intros s1 s2 s3 [Hd12 Hm12] [Hd23 Hm23]. split; congruence.
Qed.

Lemma same_counter_grows (s s' : Server) : same_counter s s' -> grows s s'.
Proof. intros [Hd Hm]. apply grows_same_counter; assumption. Qed.

Section Bounds.

Variable decode : list byte -> decode_result.
Variable encode :
  Response -> list byte -> list (string * pyval) -> option (list byte).
Variable draws : nat -> Z.

(** One turn of the loop: a draw, then either the stumble branch or the
    increment and the rest of the range. *)
Lemma flip_loop_cons (message : Message) (i : Z) (rest : list Z) (s : Server) :
  flip_loop encode draws message (i :: rest) s =
  (if draws (draws_taken s) <? 100 then
     response <- next_filter
       (fun x => String.eqb (response_short_name x) "flips_not_done")
       (negative_responses (service message)) ;;
     response_data <- call_encode encode response (coded_message message)
       [("reason", PyInt 2); ("flips_successfully_done", PyInt i)] ;;
     transport_write response_data ;;
     ret true
   else
     modify (fun s => set_dizziness_level (dizziness_level s + 1) s) ;;
     flip_loop encode draws message rest)
    (set_draws_taken (S (draws_taken s)) s).
Proof. reflexivity. Qed.

(** Looking a response up, encoding it and writing the result leaves the
    counter alone, whatever follows it without touching the counter. *)
Lemma respond_same_counter {B} (p : Response -> bool) (l : list Response)
    (coded : list byte) (kwargs : list (string * pyval)) (k : M B) :
  preserves same_counter k ->
  preserves same_counter
    (response <- next_filter p l ;;
     response_data <- call_encode encode response coded kwargs ;;
     transport_write response_data ;;
     k).
Proof.
  intros Hk. preserves_all; try (split; reflexivity). apply Hk.
Qed.

(** The loop adds at most one per element of the range. *)
Lemma flip_loop_counter (message : Message) (todo : list Z) (s : Server) :
  max_dizziness_level (snd (flip_loop encode draws message todo s))
    = max_dizziness_level s /\
  dizziness_level s
    <= dizziness_level (snd (flip_loop encode draws message todo s))
    <= dizziness_level s + Z.of_nat (length todo).
Proof.
  revert s. induction todo as [|i rest IH]; intros s.
  - cbn. lia.
  - rewrite flip_loop_cons.
    destruct (draws (draws_taken s) <? 100).
    + destruct (respond_same_counter
        (fun x => String.eqb (response_short_name x) "flips_not_done")
        (negative_responses (service message)) (coded_message message)
        [("reason", PyInt 2); ("flips_successfully_done", PyInt i)]
        (ret true) (preserves_ret same_counter true)
        (set_draws_taken (S (draws_taken s)) s)) as [Hd Hm].
      cbn [set_draws_taken dizziness_level max_dizziness_level] in Hd, Hm.
      rewrite Hd, Hm. rewrite length_cons. lia.
    + rewrite run_bind_modify.
      match goal with
      | |- context [flip_loop _ _ _ _ ?t] => destruct (IH t) as [Hm Hd]
      end.
      cbn [set_draws_taken set_dizziness_level dizziness_level
           max_dizziness_level] in Hd, Hm |- *.
      rewrite length_cons. lia.
Qed.

Lemma flip_request_grows (message : Message) :
  preserves grows (handle_forward_flip_request encode draws message).
Proof.
  unfold handle_forward_flip_request.
  apply preserves_bind; [typeclasses eauto | preserves_all |].
  intros soberness_check.
  apply preserves_bind; [typeclasses eauto | preserves_all |].
  intros num_flips.
  destruct (negb _).
  { preserves_all; apply grows_same_counter; reflexivity. }
  intros s. unfold bind at 1 2. cbn [gets].
  destruct (dizziness_level s + num_flips >? max_dizziness_level s) eqn:Hgate.
  - clear Hgate.
    generalize (PyInt (max_dizziness_level s - dizziness_level s)).
    intros reported. revert s.
    change (preserves grows
      (response <- next_filter
         (fun x => String.eqb (response_short_name x) "flips_not_done")
         (negative_responses (service message)) ;;
       response_data <- call_encode encode response (coded_message message)
         [("reason", PyInt 1); ("flips_successfully_done", reported)] ;;
       transport_write response_data ;;
       modify (fun s => set_dizziness_level (max_dizziness_level s) s))).
    preserves_all; try (apply grows_same_counter; reflexivity).
    unfold grows. cbn. lia.
  - apply related_bind; [typeclasses eauto | |].
    + destruct (flip_loop_counter message (range 0 num_flips) s) as [Hm Hd].
      rewrite length_range in Hd. split; [exact Hm|]. lia.
    + intros returned.
      preserves_all; apply grows_same_counter; reflexivity.
Qed.

Lemma handle_request_grows (message : Message) :
  preserves grows (handle_request encode draws message).
Proof.
  unfold handle_request. preserves_all;
    first [ apply flip_request_grows | apply grows_same_counter; reflexivity ].
Qed.

(** Every service but the flip leaves the counter as it is. *)
Lemma handle_request_same_counter (message : Message) :
  short_name (service message) <> "do_forward_flips" ->
  preserves same_counter (handle_request encode draws message).
Proof.
  intros Hname. unfold handle_request. preserves_all;
    try (split; reflexivity).
  exfalso. apply Hname. apply String.eqb_eq. assumption.
Qed.

Lemma close_diag_session_run (s : Server) :
  close_diag_session s = (Ok tt, set_diag_session_open false s).
Proof.
  unfold close_diag_session. rewrite run_bind_gets.
  destruct s as [is_open ev d m k t]. destruct is_open; reflexivity.
Qed.

Lemma data_received_grows (data : list byte) :
  preserves grows (data_received decode encode draws data).
Proof.
  unfold data_received. preserves_all;
    first [ apply handle_request_grows | apply grows_same_counter; reflexivity ].
Qed.

Lemma step_grows (a : action) (s : Server) :
  grows s (step decode encode draws a s).
Proof.
  destruct a as [| | |data|w]; cbn [step].
  - apply grows_same_counter; reflexivity.
  - apply grows_same_counter; reflexivity.
  - apply grows_same_counter; reflexivity.
  - apply data_received_grows.
  - destruct w; cbn [_run_iteration].
    + rewrite run_bind_gets. destruct (_data_receive_event s);
        apply grows_same_counter; reflexivity.
    + unfold bind. rewrite close_diag_session_run.
      apply grows_same_counter; reflexivity.
    + apply grows_same_counter; reflexivity.
Qed.

Lemma grows_in_bounds (s s' : Server) :
  grows s s' -> dizziness_in_bounds s -> dizziness_in_bounds s'.
Proof. unfold grows, dizziness_in_bounds. intros [Hm Hd] Hs. lia. Qed.

Lemma reachable_in_bounds (s0 s : Server) :
  dizziness_in_bounds s0 ->
  reachable_from decode encode draws s0 s -> dizziness_in_bounds s.
Proof.
  intros H0 Hreach. induction Hreach as [|a s Hreach IH Hen].
  - exact H0.
  - apply (grows_in_bounds s); [apply step_grows | exact IH].
Qed.

End Bounds.

(** ** C1: the counter stays within its bounds *)

(** C1.  From the state [{is_open=false, dizziness=0, max_dizziness=const}]
    with [const >= 0], every reachable state of the endpoint satisfies
    [0 <= dizziness <= max_dizziness], whatever the catalog decodes and
    whatever the random source draws; and each operation that changes the
    state (the dispatcher, the flip operation, the close of the supervisor,
    any whole step of the endpoint) takes a state within the bounds to a
    state within the bounds. *)
Theorem dizziness_stays_in_bounds
    (decode : list byte -> decode_result)
    (encode : Response -> list byte -> list (string * pyval) -> option (list byte))
    (draws : nat -> Z) (const : Z) :
  0 <= const ->
  (forall s, reachable_from decode encode draws (init_with const) s ->
             dizziness_in_bounds s) /\
  (forall s, dizziness_in_bounds s ->
     (forall message,
        dizziness_in_bounds (snd (handle_request encode draws message s))) /\
     (forall message,
        dizziness_in_bounds
          (snd (handle_forward_flip_request encode draws message s))) /\
     dizziness_in_bounds (snd (close_diag_session s)) /\
     (forall a, dizziness_in_bounds (step decode encode draws a s))).
Proof.
  intros Hconst. split.
  - intros s Hreach. eapply reachable_in_bounds; [|exact Hreach].
    unfold dizziness_in_bounds, init_with. cbn. lia.
  - intros s Hs. split; [|split; [|split]].
    + intros message.
      eapply grows_in_bounds; [apply handle_request_grows | exact Hs].
    + intros message.
      eapply grows_in_bounds; [apply flip_request_grows | exact Hs].
    + rewrite close_diag_session_run. exact Hs.
    + intros a. eapply grows_in_bounds; [apply step_grows | exact Hs].
Qed.

(** The endpoint as constructed, after a session start and a request for
    three flips with a random source that stumbles on the third draw. *)
Lemma dizziness_stays_in_bounds_witness :
  0 <= 10 /\
  dizziness_in_bounds
    (step demo_decode demo_encode third_draw_stumbles
       (DataReceived [Byte.xba; Byte.x12; Byte.x03])
       (step demo_decode demo_encode third_draw_stumbles
          (DataReceived [Byte.x10; Byte.x00]) __init__)).
Proof.
  split; [lia|].
  apply (proj1 (dizziness_stays_in_bounds demo_decode demo_encode
                  third_draw_stumbles 10 ltac:(lia))).
  apply reachable_step; [apply reachable_step; [apply reachable_start|]|];
    reflexivity.
Defined.

(** ** C9: the counter never decreases *)

(** C9.  In every state that the endpoint can reach, no operation decreases
    the dizziness counter: not a whole step of the endpoint (a received
    frame, a turn of the supervisor), not the dispatcher, not the flip
    operation.  Closing the session, by the supervisor or by a stop-session
    request, changes the open flag and nothing else of the session state, and
    a session started after the close finds the counter where it was. *)
Theorem dizziness_never_decreases
    (decode : list byte -> decode_result)
    (encode : Response -> list byte -> list (string * pyval) -> option (list byte))
    (draws : nat -> Z) (const : Z) (s : Server) :
  0 <= const ->
  reachable_from decode encode draws (init_with const) s ->
  (forall a, dizziness_level s <= dizziness_level (step decode encode draws a s)) /\
  (forall message,
     dizziness_level s
       <= dizziness_level (snd (handle_request encode draws message s))) /\
  (forall message,
     dizziness_level s
       <= dizziness_level
            (snd (handle_forward_flip_request encode draws message s))) /\
  close_diag_session s = (Ok tt, set_diag_session_open false s) /\
  (forall message,
     short_name (service message) = "session_stop" ->
     dizziness_level (snd (handle_request encode draws message s))
       = dizziness_level s) /\
  (forall message,
     short_name (service message) = "session_start" ->
     dizziness_level
       (snd (handle_request encode draws message (snd (close_diag_session s))))
       = dizziness_level s).
Proof.
  intros Hconst Hreach.
  assert (Hs : dizziness_in_bounds s).
  { eapply reachable_in_bounds; [|exact Hreach].
    unfold dizziness_in_bounds, init_with. cbn. lia. }
  destruct Hs as [_ Hle].
  split; [|split; [|split; [|split; [|split]]]].
  - intros a. destruct (step_grows decode encode draws a s) as [_ Hd].
    specialize (Hd Hle). lia.
  - intros message.
    destruct (handle_request_grows encode draws message s) as [_ Hd].
    specialize (Hd Hle). lia.
  - intros message.
    destruct (flip_request_grows encode draws message s) as [_ Hd].
    specialize (Hd Hle). lia.
  - apply close_diag_session_run.
  - intros message Hname.
    apply (handle_request_same_counter encode draws message).
    rewrite Hname. discriminate.
  - intros message Hname. rewrite close_diag_session_run.
    destruct (handle_request_same_counter encode draws message) with
      (s := set_diag_session_open false s) as [Hd _].
    + rewrite Hname. discriminate.
    + exact Hd.
Qed.

(** The endpoint after a session start, a request for fifty flips and a
    session stop: the counter is full, and a turn of the supervisor does not
    lower it. *)
Lemma dizziness_never_decreases_witness :
  0 <= 10 /\
  dizziness_level
    (step demo_decode demo_encode steady_draws
       (DataReceived [Byte.x10; Byte.x01])
       (step demo_decode demo_encode steady_draws
          (DataReceived [Byte.xba; Byte.x12; Byte.x32])
          (step demo_decode demo_encode steady_draws
             (DataReceived [Byte.x10; Byte.x00]) __init__)))
  <= dizziness_level
       (step demo_decode demo_encode steady_draws
          (SupervisorResumes WaitReturned)
          (step demo_decode demo_encode steady_draws
             (DataReceived [Byte.x10; Byte.x01])
             (step demo_decode demo_encode steady_draws
                (DataReceived [Byte.xba; Byte.x12; Byte.x32])
                (step demo_decode demo_encode steady_draws
                   (DataReceived [Byte.x10; Byte.x00]) __init__)))).
Proof.
  assert (H0 : 0 <= 10) by lia.
  split; [exact H0|].
  refine (proj1 (dizziness_never_decreases demo_decode demo_encode
                   steady_draws 10 _ H0 _) (SupervisorResumes WaitReturned)).
  apply reachable_step; [|vm_compute; reflexivity].
  apply reachable_step; [|vm_compute; reflexivity].
  apply reachable_step; [|vm_compute; reflexivity].
  apply reachable_start.
Defined.

(** ** The flip operation, path by path *)

Section FlipPaths.

Variable encode :
  Response -> list byte -> list (string * pyval) -> option (list byte).
Variable draws : nat -> Z.

Lemma run_getitem {B} (d : gmap string Z) (key : string) (v : Z)
    (k : Z -> M B) (s : Server) :
  d !! key = Some v -> bind (getitem d key) k s = k v s.
Proof. intros H. unfold getitem. rewrite H. reflexivity. Qed.

(** A response that the catalog has and encodes: the continuation runs on
    the payload, after the call was recorded. *)
Lemma run_lookup_encode {B} (p : Response -> bool) (l : list Response)
    (coded : list byte) (kwargs : list (string * pyval))
    (k : list byte -> M B) (s : Server) (r : Response) (payload : list byte) :
  find p l = Some r ->
  encode r coded kwargs = Some payload ->
  (response <- next_filter p l ;;
   response_data <- call_encode encode response coded kwargs ;;
   k response_data) s
  = k payload (record_event (EncodeCalled r coded kwargs) s).
Proof.
  intros Hfind Henc. unfold next_filter. rewrite Hfind, run_bind_ret.
  unfold call_encode, emit. rewrite run_bind_assoc, run_bind_modify.
  rewrite Henc, run_bind_ret. reflexivity.
Qed.

Lemma after_flips_0 (s : Server) : after_flips 0 s = s.
Proof.
  destruct s as [o e d m k t]. unfold after_flips. cbn.
  f_equal; [lia | apply Nat.add_0_r].
Qed.

Lemma after_flips_step (steps : nat) (s : Server) :
  after_flips steps
    (set_dizziness_level
       (dizziness_level (set_draws_taken (S (draws_taken s)) s) + 1)
       (set_draws_taken (S (draws_taken s)) s))
  = after_flips (S steps) s.
Proof. unfold after_flips. cbn. f_equal; lia. Qed.

(** As long as no draw is below the threshold the loop goes through its
    range; it arrives at the element [skipped] places in with that many
    flips done. *)
Lemma flip_loop_skip (message : Message) (f : nat -> Z) (skipped : nat) :
  forall (start len : nat) (s : Server),
    (forall j, (j < skipped)%nat -> 100 <= draws (draws_taken s + j)) ->
    flip_loop encode draws message (map f (seq start (skipped + len))) s
    = flip_loop encode draws message (map f (seq (start + skipped) len))
        (after_flips skipped s).
Proof.
  induction skipped as [|skipped IH]; intros start len s Hsteady.
  - rewrite after_flips_0, Nat.add_0_r. reflexivity.
  - cbn [Nat.add seq map]. rewrite flip_loop_cons.
    pose proof (Hsteady 0%nat ltac:(lia)) as H0.
    rewrite Nat.add_0_r in H0.
    destruct (draws (draws_taken s) <? 100) eqn:Hdraw; [lia|].
    rewrite run_bind_modify. rewrite IH.
    + rewrite after_flips_step. f_equal. f_equal. f_equal. lia.
    + intros j Hj. cbn [set_dizziness_level set_draws_taken draws_taken].
      specialize (Hsteady (S j) ltac:(lia)).
      replace (S (draws_taken s) + j)%nat with (draws_taken s + S j)%nat by lia.
      exact Hsteady.
Qed.

End FlipPaths.

Section FlipClaims.

Variable encode :
  Response -> list byte -> list (string * pyval) -> option (list byte).
Variable draws : nat -> Z.

(** C8.  A flip request whose soberness-check code is not [0x12] fails at
    once, whatever the random source would draw: the catalog is asked to
    encode [flips_not_done] with reason 0 (not sober) and 0 flips done,
    that response is written, and neither the session state (open flag,
    dizziness, bound) nor the random source is touched. *)
Theorem not_sober_fails_at_once (message : Message) (s : Server)
    (soberness_check num_flips : Z) (r : Response) (payload : list byte) :
  param_dict message !! "forward_soberness_check" = Some soberness_check ->
  param_dict message !! "num_flips" = Some num_flips ->
  soberness_check <> 0x12 ->
  find (fun x => String.eqb (response_short_name x) "flips_not_done")
       (negative_responses (service message)) = Some r ->
  encode r (coded_message message)
    [("reason", PyInt 0); ("flips_successfully_done", PyInt 0)]
    = Some payload ->
  exists s',
    handle_forward_flip_request encode draws message s = (Ok tt, s') /\
    trace s' = trace s ++
      [EncodeCalled r (coded_message message)
         [("reason", PyInt 0); ("flips_successfully_done", PyInt 0)];
       Written payload] /\
    session_state s' = session_state s /\
    draws_taken s' = draws_taken s.
Proof.
  intros Hcheck Hnum Hne Hfind Henc.
  eexists. split.
  - unfold handle_forward_flip_request.
    rewrite (run_getitem _ _ _ _ _ Hcheck), (run_getitem _ _ _ _ _ Hnum).
    destruct (soberness_check =? 0x12) eqn:Heq; [lia|]. cbn [negb].
    apply (run_lookup_encode encode _ _ _ _ transport_write s r payload Hfind Henc).
  - cbn. rewrite <- app_assoc. repeat split; reflexivity.
Qed.

(** C3.  A flip request that passes the soberness gate and asks for more
    than fits ([dizziness + steps > max_dizziness]) fails: the catalog is
    asked to encode [flips_not_done] with reason 1 (too dizzy) and
    [max_dizziness - dizziness] flips done, that response is written, no
    step is executed (nothing is drawn), and the counter is set to the
    bound. *)
Theorem too_dizzy_saturates (message : Message) (s : Server)
    (num_flips : Z) (r : Response) (payload : list byte) :
  param_dict message !! "forward_soberness_check" = Some 0x12 ->
  param_dict message !! "num_flips" = Some num_flips ->
  dizziness_level s + num_flips > max_dizziness_level s ->
  find (fun x => String.eqb (response_short_name x) "flips_not_done")
       (negative_responses (service message)) = Some r ->
  encode r (coded_message message)
    [("reason", PyInt 1);
     ("flips_successfully_done",
      PyInt (max_dizziness_level s - dizziness_level s))]
    = Some payload ->
  exists s',
    handle_forward_flip_request encode draws message s = (Ok tt, s') /\
    trace s' = trace s ++
      [EncodeCalled r (coded_message message)
         [("reason", PyInt 1);
          ("flips_successfully_done",
           PyInt (max_dizziness_level s - dizziness_level s))];
       Written payload] /\
    dizziness_level s' = max_dizziness_level s /\
    max_dizziness_level s' = max_dizziness_level s /\
    _diag_session_open s' = _diag_session_open s /\
    draws_taken s' = draws_taken s.
Proof.
  intros Hcheck Hnum Hgate Hfind Henc.
  eexists. split.
  - unfold handle_forward_flip_request.
    rewrite (run_getitem _ _ _ _ _ Hcheck), (run_getitem _ _ _ _ _ Hnum).
    cbn [Z.eqb Pos.eqb negb]. rewrite !run_bind_gets.
    destruct (dizziness_level s + num_flips >? max_dizziness_level s)
      eqn:Hgt; [|lia].
    rewrite (run_lookup_encode encode _ _ _ _ _ s r payload Hfind Henc).
    unfold transport_write, emit. rewrite run_bind_modify. reflexivity.
  - cbn. rewrite <- app_assoc. repeat split; reflexivity.
Qed.

End FlipClaims.

(** [flip(check=0x23, steps=1)] is answered "not sober, 0 done". *)
Lemma not_sober_fails_at_once_witness :
  exists s',
    handle_forward_flip_request demo_encode third_draw_stumbles
      (flip_request 0x23 1) (session_at 4) = (Ok tt, s') /\
    trace s' = trace (session_at 4) ++
      [EncodeCalled flips_not_done (coded_message (flip_request 0x23 1))
         [("reason", PyInt 0); ("flips_successfully_done", PyInt 0)];
       Written [Byte.x7f; Byte.xba; Byte.x00; Byte.x00]] /\
    session_state s' = session_state (session_at 4) /\
    draws_taken s' = draws_taken (session_at 4).
Proof.
  apply (not_sober_fails_at_once demo_encode third_draw_stumbles
           (flip_request 0x23 1) (session_at 4) 0x23 1 flips_not_done
           [Byte.x7f; Byte.xba; Byte.x00; Byte.x00]).
  - vm_compute; reflexivity.
  - vm_compute; reflexivity.
  - discriminate.
  - vm_compute; reflexivity.
  - vm_compute; reflexivity.
Defined.

(** From [dizziness=9, max=10], [flip(check=0x12, steps=5)] is answered
    "too dizzy, 1 done" and leaves [dizziness=10]. *)
Lemma too_dizzy_saturates_witness :
  exists s',
    handle_forward_flip_request demo_encode steady_draws
      (flip_request 0x12 5) (session_at 9) = (Ok tt, s') /\
    trace s' = trace (session_at 9) ++
      [EncodeCalled flips_not_done (coded_message (flip_request 0x12 5))
         [("reason", PyInt 1); ("flips_successfully_done", PyInt 1)];
       Written [Byte.x7f; Byte.xba; Byte.x01; Byte.x01]] /\
    dizziness_level s' = 10 /\
    max_dizziness_level s' = 10 /\
    _diag_session_open s' = true /\
    draws_taken s' = 0%nat.
Proof.
  apply (too_dizzy_saturates demo_encode steady_draws
           (flip_request 0x12 5) (session_at 9) 5 flips_not_done
           [Byte.x7f; Byte.xba; Byte.x01; Byte.x01]).
  - vm_compute; reflexivity.
  - vm_compute; reflexivity.
  - vm_compute; reflexivity.
  - vm_compute; reflexivity.
  - vm_compute; reflexivity.
Defined.

Section FlipSteps.

Variable encode :
  Response -> list byte -> list (string * pyval) -> option (list byte).
Variable draws : nat -> Z.

(** C2.  A flip request that passes the soberness gate (check code [0x12])
    and the capacity gate ([dizziness + steps <= max_dizziness]) runs its
    steps in order, one draw per step.

    - If the draw of step [i] is the first one below 100, the call fails
      with reason 2 (stumbled) and reports [i] flips done; the counter has
      grown by exactly [i], it is not set to the bound, and no step after
      the stumble runs: [i + 1] numbers were drawn.
    - If no draw is below 100, the call answers with the positive response
      [grudging_forward] and the counter has grown by exactly the number
      of steps asked for. *)
Theorem flips_run_until_stumble (message : Message) (s : Server)
    (num_flips : Z) :
  param_dict message !! "forward_soberness_check" = Some 0x12 ->
  param_dict message !! "num_flips" = Some num_flips ->
  0 <= num_flips ->
  dizziness_level s + num_flips <= max_dizziness_level s ->
  (forall (i : nat) (r : Response) (payload : list byte),
     (i < Z.to_nat num_flips)%nat ->
     draws (draws_taken s + i) < 100 ->
     (forall j, (j < i)%nat -> 100 <= draws (draws_taken s + j)) ->
     find (fun x => String.eqb (response_short_name x) "flips_not_done")
          (negative_responses (service message)) = Some r ->
     encode r (coded_message message)
       [("reason", PyInt 2); ("flips_successfully_done", PyInt (Z.of_nat i))]
       = Some payload ->
     exists s',
       handle_forward_flip_request encode draws message s = (Ok tt, s') /\
       trace s' = trace s ++
         [EncodeCalled r (coded_message message)
            [("reason", PyInt 2);
             ("flips_successfully_done", PyInt (Z.of_nat i))];
          Written payload] /\
       dizziness_level s' = dizziness_level s + Z.of_nat i /\
       draws_taken s' = (draws_taken s + S i)%nat /\
       max_dizziness_level s' = max_dizziness_level s /\
       _diag_session_open s' = _diag_session_open s) /\
  (forall (r : Response) (payload : list byte),
     (forall j, (j < Z.to_nat num_flips)%nat ->
                100 <= draws (draws_taken s + j)) ->
     find (fun x => String.eqb (response_short_name x) "grudging_forward")
          (positive_responses (service message)) = Some r ->
     encode r (coded_message message) [] = Some payload ->
     exists s',
       handle_forward_flip_request encode draws message s = (Ok tt, s') /\
       trace s' = trace s ++
         [EncodeCalled r (coded_message message) []; Written payload] /\
       dizziness_level s' = dizziness_level s + num_flips /\
       draws_taken s' = (draws_taken s + Z.to_nat num_flips)%nat /\
       max_dizziness_level s' = max_dizziness_level s /\
       _diag_session_open s' = _diag_session_open s).
Proof.
  intros Hcheck Hnum Hnonneg Hgate.
  assert (Hrun : handle_forward_flip_request encode draws message s =
    (returned <- flip_loop encode draws message (range 0 num_flips) ;;
     if (returned : bool) then ret tt
     else
       response <- next_filter
         (fun x => String.eqb (response_short_name x) "grudging_forward")
         (positive_responses (service message)) ;;
       response_data <- call_encode encode response (coded_message message) [] ;;
       transport_write response_data) s).
  { unfold handle_forward_flip_request.
    rewrite (run_getitem _ _ _ _ _ Hcheck), (run_getitem _ _ _ _ _ Hnum).
    cbn [Z.eqb Pos.eqb negb]. rewrite !run_bind_gets.
    destruct (dizziness_level s + num_flips >? max_dizziness_level s)
      eqn:Hgt; [lia|]. reflexivity. }
  rewrite Hrun. clear Hrun. unfold range. rewrite Z.sub_0_r.
  split.
  - intros i r payload Hi Hdraw Hsteady Hfind Henc.
    replace (Z.to_nat num_flips) with (i + S (Z.to_nat num_flips - S i))%nat
      by lia.
    eexists. split.
    + unfold bind at 1.
      rewrite (flip_loop_skip encode draws message _ i 0 _ s Hsteady).
      cbn [seq map]. rewrite flip_loop_cons.
      cbn [after_flips draws_taken].
      destruct (draws (draws_taken s + i) <? 100) eqn:Hlt; [|lia].
      rewrite (run_lookup_encode encode _ _ _ _ _ _ r payload Hfind).
      * unfold transport_write, emit. rewrite run_bind_modify.
        cbn [ret]. reflexivity.
      * exact Henc.
    + cbn. rewrite <- app_assoc.
      repeat split; try reflexivity. lia.
  - intros r payload Hsteady Hfind Henc.
    eexists. split.
    + unfold bind at 1.
      replace (Z.to_nat num_flips) with (Z.to_nat num_flips + 0)%nat at 1
        by lia.
      rewrite (flip_loop_skip encode draws message _ _ 0 0 s Hsteady).
      cbn [seq map flip_loop ret].
      apply (run_lookup_encode encode _ _ _ _ transport_write _ r payload
               Hfind Henc).
    + cbn. rewrite <- app_assoc. repeat split; try reflexivity. lia.
Qed.

End FlipSteps.

(** From [dizziness=0, max=10]: five flips with a stumble on the third draw
    are answered "stumbled, 2 done" and leave [dizziness=2]; three flips
    without a stumble are answered [grudging_forward] and leave
    [dizziness=3]. *)
Lemma flips_run_until_stumble_witness :
  (exists s',
     handle_forward_flip_request demo_encode third_draw_stumbles
       (flip_request 0x12 5) (session_at 0) = (Ok tt, s') /\
     trace s' = trace (session_at 0) ++
       [EncodeCalled flips_not_done (coded_message (flip_request 0x12 5))
          [("reason", PyInt 2); ("flips_successfully_done", PyInt 2)];
        Written [Byte.x7f; Byte.xba; Byte.x02; Byte.x02]] /\
     dizziness_level s' = 2 /\
     draws_taken s' = 3%nat /\
     max_dizziness_level s' = 10 /\
     _diag_session_open s' = true) /\
  (exists s',
     handle_forward_flip_request demo_encode steady_draws
       (flip_request 0x12 3) (session_at 0) = (Ok tt, s') /\
     trace s' = trace (session_at 0) ++
       [EncodeCalled grudging_forward (coded_message (flip_request 0x12 3)) [];
        Written [Byte.xfa]] /\
     dizziness_level s' = 3 /\
     draws_taken s' = 3%nat /\
     max_dizziness_level s' = 10 /\
     _diag_session_open s' = true).
Proof.
  split.
  - refine (proj1 (flips_run_until_stumble demo_encode third_draw_stumbles
                     (flip_request 0x12 5) (session_at 0) 5 _ _ _ _)
              2%nat flips_not_done [Byte.x7f; Byte.xba; Byte.x02; Byte.x02]
              _ _ _ _ _).
    + vm_compute; reflexivity.
    + vm_compute; reflexivity.
    + lia.
    + vm_compute; discriminate.
    + vm_compute; lia.
    + vm_compute; reflexivity.
    + intros j Hj. destruct j as [|[|j]]; [vm_compute; discriminate ..|lia].
    + vm_compute; reflexivity.
    + vm_compute; reflexivity.
  - refine (proj2 (flips_run_until_stumble demo_encode steady_draws
                     (flip_request 0x12 3) (session_at 0) 3 _ _ _ _)
              grudging_forward [Byte.xfa] _ _ _).
    + vm_compute; reflexivity.
    + vm_compute; reflexivity.
    + lia.
    + vm_compute; discriminate.
    + intros j Hj. vm_compute; discriminate.
    + vm_compute; reflexivity.
    + vm_compute; reflexivity.
Defined.

(** ** The dispatcher while the session is closed *)

Lemma new_events_app (s s' : Server) (es : list event) :
  trace s' = trace s ++ es -> new_events s s' = es.
Proof. intros H. unfold new_events. rewrite H. apply drop_app_length. Qed.

Section ClosedSession.

Variable encode :
  Response -> list byte -> list (string * pyval) -> option (list byte).
Variable draws : nat -> Z.

(** Past the keepalive and the start-session branches, a closed session
    answers with the generic frame. *)
Lemma handle_request_closed (message : Message) (s : Server) :
  short_name (service message) <> "tester_present" ->
  short_name (service message) <> "session_start" ->
  _diag_session_open s = false ->
  handle_request encode draws message s =
  (Ok tt,
   record_event (Written [Byte.x7f; request_id message; Byte.x7f])
     (record_event
        (Logged (InfoReceivedMessage (short_name (service message)))) s)).
Proof.
  intros Hkeep Hstart Hclosed. unfold handle_request.
  unfold ecu_logger, emit. rewrite run_bind_modify.
  destruct (String.eqb (short_name (service message)) "tester_present")
    eqn:E1; [apply String.eqb_eq in E1; contradiction|].
  destruct (String.eqb (short_name (service message)) "session_start")
    eqn:E2; [apply String.eqb_eq in E2; contradiction|].
  rewrite run_bind_gets. cbn [record_event _diag_session_open].
  rewrite Hclosed. reflexivity.
Qed.

(** C7.  A decoded request for a service that is neither the keepalive
    probe nor start-session, received while the session is closed, is
    answered with exactly the frame [[0x7F, b, 0x7F]], where [b] is the
    first byte of the raw request, or 0 for an empty one.  The catalog's
    [encode] is not called, and the session state stays as it is. *)
Theorem closed_session_generic_frame (message : Message) (s : Server) :
  short_name (service message) <> "tester_present" ->
  short_name (service message) <> "session_start" ->
  _diag_session_open s = false ->
  exists s',
    handle_request encode draws message s = (Ok tt, s') /\
    responses_written (new_events s s')
      = [[Byte.x7f; hd Byte.x00 (coded_message message); Byte.x7f]] /\
    List.filter is_encode_call (new_events s s') = [] /\
    session_state s' = session_state s.
Proof.
  intros Hkeep Hstart Hclosed. eexists. split.
  - apply handle_request_closed; assumption.
  - rewrite (new_events_app _ _
      [Logged (InfoReceivedMessage (short_name (service message)));
       Written [Byte.x7f; request_id message; Byte.x7f]]).
    + unfold request_id. destruct (coded_message message);
        repeat split; reflexivity.
    + cbn. rewrite <- app_assoc. reflexivity.
Qed.

End ClosedSession.

(** The request [0x31 …] while the session is closed is answered
    [[0x7F, 0x31, 0x7F]]. *)
Lemma closed_session_generic_frame_witness :
  exists s',
    handle_request demo_encode steady_draws
      (plain_request "routine_control" [Byte.x31; Byte.x01]) __init__
      = (Ok tt, s') /\
    responses_written (new_events __init__ s')
      = [[Byte.x7f; Byte.x31; Byte.x7f]] /\
    List.filter is_encode_call (new_events __init__ s') = [] /\
    session_state s' = session_state __init__.
Proof.
  apply (closed_session_generic_frame demo_encode steady_draws
           (plain_request "routine_control" [Byte.x31; Byte.x01]) __init__).
  - discriminate.
  - discriminate.
  - reflexivity.
Defined.

Section StopSession.

Variable encode :
  Response -> list byte -> list (string * pyval) -> option (list byte).
Variable draws : nat -> Z.

(** A stop-session request that the dispatcher handled to the end leaves
    the session closed. *)
Lemma session_stop_closes (message : Message) (s s' : Server) :
  short_name (service message) = "session_stop" ->
  handle_request encode draws message s = (Ok tt, s') ->
  _diag_session_open s' = false.
Proof.
  intros Hname Hrun.
  destruct (_diag_session_open s) eqn:Hopen.
  - revert Hrun. unfold handle_request.
    unfold ecu_logger, emit. rewrite run_bind_modify.
    rewrite Hname. cbn [String.eqb Ascii.eqb Bool.eqb].
    rewrite run_bind_gets. cbn [record_event _diag_session_open].
    rewrite Hopen. cbn [negb].
    rewrite run_bind_gets. cbn [record_event _diag_session_open].
    rewrite Hopen.
    unfold item0, call_encode, transport_write, emit.
    destruct (positive_responses (service message)) as [|r rs].
    + run_steps. discriminate.
    + run_steps.
      destruct (encode r (coded_message message) []) as [payload|].
      * run_steps. cbn [modify].
        intros Hrun. injection Hrun as <-. reflexivity.
      * run_steps. discriminate.
  - rewrite handle_request_closed in Hrun;
      [|rewrite Hname; discriminate ..|exact Hopen].
    injection Hrun as <-. exact Hopen.
Qed.

(** C5.  A stop-session request received while the session is closed is
    answered with a negative response, the generic frame
    [[0x7F, b, 0x7F]], and leaves the session state as it is: closed, with
    the same dizziness.  Of two stop-session requests handled one after the
    other, the second therefore finds the session closed, is answered with
    that negative response, and leaves the session closed. *)
Theorem stop_while_closed_is_refused (first second : Message) (s : Server) :
  short_name (service first) = "session_stop" ->
  short_name (service second) = "session_stop" ->
  (_diag_session_open s = false ->
   exists s',
     handle_request encode draws first s = (Ok tt, s') /\
     responses_written (new_events s s')
       = [[Byte.x7f; request_id first; Byte.x7f]] /\
     is_negative_response [Byte.x7f; request_id first; Byte.x7f] = true /\
     session_state s' = session_state s) /\
  (forall s1,
     handle_request encode draws first s = (Ok tt, s1) ->
     exists s2,
       handle_request encode draws second s1 = (Ok tt, s2) /\
       responses_written (new_events s1 s2)
         = [[Byte.x7f; request_id second; Byte.x7f]] /\
       is_negative_response [Byte.x7f; request_id second; Byte.x7f] = true /\
       _diag_session_open s2 = false /\
       session_state s2 = session_state s1).
Proof.
  intros Hfirst Hsecond.
  assert (Hclosed : forall message s0,
    short_name (service message) = "session_stop" ->
    _diag_session_open s0 = false ->
    exists s',
      handle_request encode draws message s0 = (Ok tt, s') /\
      responses_written (new_events s0 s')
        = [[Byte.x7f; request_id message; Byte.x7f]] /\
      is_negative_response [Byte.x7f; request_id message; Byte.x7f] = true /\
      session_state s' = session_state s0).
  { intros message s0 Hname Hs0. eexists. split.
    - apply handle_request_closed;
        [rewrite Hname; discriminate ..|exact Hs0].
    - rewrite (new_events_app _ _
        [Logged (InfoReceivedMessage (short_name (service message)));
         Written [Byte.x7f; request_id message; Byte.x7f]]).
      + repeat split; reflexivity.
      + cbn. rewrite <- app_assoc. reflexivity. }
  split.
  - intros Hs. apply Hclosed; assumption.
  - intros s1 Hrun.
    pose proof (session_stop_closes first s s1 Hfirst Hrun) as Hs1.
    destruct (Hclosed second s1 Hsecond Hs1) as (s2 & Hrun2 & Hw & Hneg & Hst).
    exists s2. repeat split; try assumption.
    unfold session_state in Hst. injection Hst as Ho _ _. congruence.
Qed.

End StopSession.

(** Two stop-session frames after a session start: the first closes the
    session, the second is refused with [[0x7F, 0x10, 0x7F]]. *)
Lemma stop_while_closed_is_refused_witness :
  exists s2,
    handle_request demo_encode steady_draws
      (plain_request "session_stop" [Byte.x10; Byte.x01])
      (snd (handle_request demo_encode steady_draws
              (plain_request "session_stop" [Byte.x10; Byte.x01])
              (session_at 3)))
    = (Ok tt, s2) /\
    responses_written
      (new_events
         (snd (handle_request demo_encode steady_draws
                 (plain_request "session_stop" [Byte.x10; Byte.x01])
                 (session_at 3))) s2)
      = [[Byte.x7f; Byte.x10; Byte.x7f]] /\
    is_negative_response [Byte.x7f; Byte.x10; Byte.x7f] = true /\
    _diag_session_open s2 = false /\
    session_state s2 = (false, 3, 10).
Proof.
  apply (proj2 (stop_while_closed_is_refused demo_encode steady_draws
                  (plain_request "session_stop" [Byte.x10; Byte.x01])
                  (plain_request "session_stop" [Byte.x10; Byte.x01])
                  (session_at 3) eq_refl eq_refl)).
  vm_compute; reflexivity.
Defined.

(** ** How many responses a request gets *)

Lemma responses_written_app (es1 es2 : list event) :
  responses_written (es1 ++ es2)
    = responses_written es1 ++ responses_written es2.
Proof. unfold responses_written. apply omap_app. Qed.

Lemma wrote_trans (n1 n2 : nat) (s1 s2 s3 : Server) :
  wrote n1 s1 s2 -> wrote n2 s2 s3 -> wrote (n1 + n2) s1 s3.
Proof.
  intros (es1 & H1 & L1) (es2 & H2 & L2). exists (es1 ++ es2). split.
  - rewrite H2, H1. symmetry. apply app_assoc.
  - rewrite responses_written_app, length_app. lia.
Qed.

Lemma wrote_same_trace (s s' : Server) : trace s' = trace s -> wrote 0 s s'.
Proof. intros H. exists []. rewrite app_nil_r. split; [exact H|reflexivity]. Qed.

Lemma wrote_event (e : event) (s : Server) :
  wrote (length (responses_written [e])) s (record_event e s).
Proof. exists [e]. split; reflexivity. Qed.

#[export] Instance wrote_nothing_preorder : PreOrder (wrote 0).
Proof.
  split.
  - intros s. apply wrote_same_trace. reflexivity.
  - intros s1 s2 s3 H12 H23. apply (wrote_trans 0 0 s1 s2 s3 H12 H23).
Qed.

Lemma wrote_new_events (n : nat) (s s' : Server) :
  wrote n s s' -> length (responses_written (new_events s s')) = n.
Proof. intros (es & H & L). rewrite (new_events_app s s' es H). exact L. Qed.

(** The goals that [preserves_all] leaves for the relation [wrote 0]. *)
Ltac silent_leaf :=
  first [ apply wrote_same_trace; reflexivity
        | apply (wrote_event (Logged _))
        | apply (wrote_event (EncodeCalled _ _ _))
        | apply (wrote_event (DecodeCalled _))
        | apply (wrote_event IdleSignalSet)
        | apply (wrote_event IdleSignalCleared) ].

Section Answers.

Variable encode :
  Response -> list byte -> list (string * pyval) -> option (list byte).
Variable draws : nat -> Z.

Lemma answers_bind_silent {A B} (c : M A) (k : A -> M B) :
  preserves (wrote 0) c -> (forall a, answers (k a)) -> answers (bind c k).
Proof.
  intros Hc Hk s. unfold bind. specialize (Hc s).
  destruct (c s) as [[a|e] s1]; cbn [snd] in Hc.
  - specialize (Hk a s1). destruct (k a s1) as [[b|e] s2].
    + apply (wrote_trans 0 1 s s1 s2 Hc Hk).
    + apply (wrote_trans 0 0 s s1 s2 Hc Hk).
  - exact Hc.
Qed.

Lemma answers_write (payload : list byte) : answers (transport_write payload).
Proof. intros s. apply (wrote_event (Written payload)). Qed.

Lemma answers_write_then_modify (payload : list byte) (f : Server -> Server) :
  (forall s, trace (f s) = trace s) ->
  answers (transport_write payload ;; modify f).
Proof.
  intros Hf s. unfold transport_write, emit. run_steps. cbn [modify].
  apply (wrote_trans 1 0 s (record_event (Written payload) s)).
  - apply (wrote_event (Written payload)).
  - apply wrote_same_trace. apply Hf.
Qed.

(** The loop writes once when it is left by the stumble branch, and not at
    all otherwise. *)
Lemma flip_loop_writes (message : Message) (todo : list Z) (s : Server) :
  match flip_loop encode draws message todo s with
  | (Ok true, s') => wrote 1 s s'
  | (_, s') => wrote 0 s s'
  end.
Proof.
  revert s. induction todo as [|i rest IH]; intros s.
  - cbn. reflexivity.
  - rewrite flip_loop_cons.
    destruct (draws (draws_taken s) <? 100).
    + unfold next_filter.
      destruct (find _ (negative_responses (service message))) as [r|];
        run_steps; [|apply wrote_same_trace; reflexivity].
      unfold call_encode, emit. run_steps.
      destruct (encode r _ _) as [payload|]; run_steps.
      * unfold transport_write, emit. run_steps. cbn [ret].
        eexists [_; _]. split.
        -- cbn. rewrite <- app_assoc. reflexivity.
        -- reflexivity.
      * eexists [_]. split; reflexivity.
    + run_steps.
      match goal with
      | |- context [flip_loop _ _ _ _ ?t] => specialize (IH t)
      end.
      exact IH.
Qed.

Lemma answers_after_loop (message : Message) (todo : list Z) (c : M unit) :
  answers c ->
  answers (returned <- flip_loop encode draws message todo ;;
           if (returned : bool) then ret tt else c).
Proof.
  intros Hc s. unfold bind.
  pose proof (flip_loop_writes message todo s) as Hloop.
  destruct (flip_loop encode draws message todo s) as [[[|]|e] s1].
  - exact Hloop.
  - specialize (Hc s1). destruct (c s1) as [[u|e] s2].
    + apply (wrote_trans 0 1 s s1 s2 Hloop Hc).
    + apply (wrote_trans 0 0 s s1 s2 Hloop Hc).
  - exact Hloop.
Qed.

End Answers.

(** Breaks an [answers] goal down along the structure of the method. *)
Ltac answers_step :=
  lazymatch goal with
  | |- forall _, _ => intro
  | |- answers (transport_write _) => apply answers_write
  | |- answers (bind (transport_write _) _) =>
      apply answers_write_then_modify; intro; reflexivity
  | |- answers (bind (flip_loop _ _ _ _) _) => apply answers_after_loop
  | |- answers (bind _ _) =>
      apply answers_bind_silent; [solve [preserves_all; silent_leaf]|]
  | |- answers (if ?b then _ else _) => destruct b eqn:?
  end.

Section Responses.

Variable encode :
  Response -> list byte -> list (string * pyval) -> option (list byte).
Variable draws : nat -> Z.

Lemma flip_request_answers (message : Message) :
  answers (handle_forward_flip_request encode draws message).
Proof. unfold handle_forward_flip_request. repeat answers_step. Qed.

Lemma handle_request_answers (message : Message) :
  handled_by_name (short_name (service message)) = true ->
  answers (handle_request encode draws message).
Proof.
  intros Hname. unfold handle_request. repeat answers_step;
    try apply flip_request_answers.
  unfold handled_by_name in Hname. exfalso.
  repeat match goal with
         | H : String.eqb _ _ = false |- _ => rewrite H in Hname; clear H
         end.
  discriminate.
Qed.

(** A service without a branch, in an open session: the request is logged
    and nothing else happens. *)
Lemma handle_request_unhandled (message : Message) (s : Server) :
  _diag_session_open s = true ->
  handled_by_name (short_name (service message)) = false ->
  handle_request encode draws message s =
  (Ok tt,
   record_event
     (Logged (InfoReceivedMessage (short_name (service message)))) s).
Proof.
  intros Hopen Hname. unfold handled_by_name in Hname.
  apply orb_false_elim in Hname as [Hname Hflip].
  apply orb_false_elim in Hname as [Hname Hstop].
  apply orb_false_elim in Hname as [Hkeep Hstart].
  unfold handle_request, ecu_logger, emit. run_steps.
  rewrite Hkeep, Hstart. run_steps.
  cbn [record_event _diag_session_open]. rewrite Hopen. cbn [negb].
  rewrite Hstop, Hflip. reflexivity.
Qed.

(** C4, as the code has it.  The dispatcher writes at most one response
    per decoded message.  It writes exactly one when it returns and either
    the session is closed or the service is one of [tester_present],
    [session_start], [session_stop], [do_forward_flips].  It writes none
    when it is left by an exception.  A decoded message for any other
    service in an open session is logged, and that is all: the log entry is
    the only event, no response is written, and the session state stays as
    it is. *)
Theorem at_most_one_response (message : Message) (s : Server) :
  (length (responses_written
             (new_events s (snd (handle_request encode draws message s))))
   <= 1)%nat /\
  (fst (handle_request encode draws message s) = Ok tt ->
   _diag_session_open s = false \/
     handled_by_name (short_name (service message)) = true ->
   length (responses_written
             (new_events s (snd (handle_request encode draws message s))))
   = 1%nat) /\
  (forall e,
     fst (handle_request encode draws message s) = Raise e ->
     responses_written
       (new_events s (snd (handle_request encode draws message s))) = []) /\
  (_diag_session_open s = true ->
   handled_by_name (short_name (service message)) = false ->
   fst (handle_request encode draws message s) = Ok tt /\
   new_events s (snd (handle_request encode draws message s))
     = [Logged (InfoReceivedMessage (short_name (service message)))] /\
   responses_written
     (new_events s (snd (handle_request encode draws message s))) = [] /\
   session_state (snd (handle_request encode draws message s))
     = session_state s).
Proof.
  assert (Hcases :
    (_diag_session_open s = true /\
     handled_by_name (short_name (service message)) = false) \/
    match handle_request encode draws message s with
    | (Ok _, s') => wrote 1 s s'
    | (Raise _, s') => wrote 0 s s'
    end).
  { destruct (handled_by_name (short_name (service message))) eqn:Hname.
    - right. apply handle_request_answers. exact Hname.
    - destruct (_diag_session_open s) eqn:Hopen; [left; split; reflexivity|].
      right. unfold handled_by_name in Hname.
      apply orb_false_elim in Hname as [Hname _].
      apply orb_false_elim in Hname as [Hname _].
      apply orb_false_elim in Hname as [Hkeep Hstart].
      rewrite handle_request_closed.
      + eexists [_; _]. split.
        * cbn. rewrite <- app_assoc. reflexivity.
        * reflexivity.
      + intros E. apply String.eqb_eq in E. congruence.
      + intros E. apply String.eqb_eq in E. congruence.
      + exact Hopen. }
  assert (Hskip : _diag_session_open s = true ->
    handled_by_name (short_name (service message)) = false ->
    fst (handle_request encode draws message s) = Ok tt /\
    new_events s (snd (handle_request encode draws message s))
      = [Logged (InfoReceivedMessage (short_name (service message)))] /\
    responses_written
      (new_events s (snd (handle_request encode draws message s))) = [] /\
    session_state (snd (handle_request encode draws message s))
      = session_state s).
  { intros Hopen Hname. rewrite (handle_request_unhandled _ _ Hopen Hname).
    cbn [fst snd].
    rewrite (new_events_app _ _
      [Logged (InfoReceivedMessage (short_name (service message)))]);
      repeat split; reflexivity. }
  split; [|split; [|split]].
  - destruct Hcases as [[Hopen Hname]|Hrun].
    + destruct (Hskip Hopen Hname) as (_ & _ & Hnone & _). rewrite Hnone.
      cbn. lia.
    + destruct (handle_request encode draws message s) as [[u|e] s'];
        cbn [snd]; rewrite (wrote_new_events _ _ _ Hrun); lia.
  - intros Hok Hhandled. destruct Hcases as [[Hopen Hname]|Hrun].
    + destruct Hhandled; congruence.
    + destruct (handle_request encode draws message s) as [[u|e] s'];
        cbn [fst snd] in *; [|discriminate].
      apply (wrote_new_events _ _ _ Hrun).
  - intros e Hraise. destruct Hcases as [[Hopen Hname]|Hrun].
    + destruct (Hskip Hopen Hname) as (Hok & _). congruence.
    + destruct (handle_request encode draws message s) as [[u|e0] s'];
        cbn [fst snd] in *; [discriminate|].
      apply nil_length_inv. apply (wrote_new_events _ _ _ Hrun).
  - exact Hskip.
Qed.

End Responses.

(** In an open session, a decoded request for [set_operation_params], a
    service without a branch in the dispatcher, gets no response: "exactly
    one response per decoded message" fails there. *)
Lemma unhandled_service_gets_no_response :
  demo_decode [Byte.xbd; Byte.x00]
    = DecodeReturns [plain_request "set_operation_params" [Byte.xbd; Byte.x00]] /\
  handle_request demo_encode steady_draws
    (plain_request "set_operation_params" [Byte.xbd; Byte.x00]) (session_at 0)
    = (Ok tt,
       record_event (Logged (InfoReceivedMessage "set_operation_params"))
         (session_at 0)) /\
  responses_written
    (new_events (session_at 0)
       (snd (handle_request demo_encode steady_draws
               (plain_request "set_operation_params" [Byte.xbd; Byte.x00])
               (session_at 0)))) = [] /\
  ~ one_response_per_message.
Proof.
  split; [reflexivity|]. split; [reflexivity|]. split; [reflexivity|].
  intros Hclaim.
  specialize (Hclaim demo_encode steady_draws
                (plain_request "set_operation_params" [Byte.xbd; Byte.x00])
                (session_at 0)).
  vm_compute in Hclaim. discriminate.
Qed.

(** A session start in a closed session is answered once; a request for
    [set_operation_params] in an open session is logged and not answered. *)
Lemma at_most_one_response_witness :
  length (responses_written
            (new_events __init__
               (snd (handle_request demo_encode steady_draws
                       (plain_request "session_start" [Byte.x10; Byte.x00])
                       __init__)))) = 1%nat /\
  new_events (session_at 0)
    (snd (handle_request demo_encode steady_draws
            (plain_request "set_operation_params" [Byte.xbd; Byte.x00])
            (session_at 0)))
  = [Logged (InfoReceivedMessage "set_operation_params")].
Proof.
  split.
  - apply (proj1 (proj2 (at_most_one_response demo_encode steady_draws
                           (plain_request "session_start" [Byte.x10; Byte.x00])
                           __init__))).
    + vm_compute; reflexivity.
    + left. vm_compute; reflexivity.
  - apply (proj2 (proj2 (proj2 (at_most_one_response demo_encode steady_draws
                                  (plain_request "set_operation_params"
                                     [Byte.xbd; Byte.x00])
                                  (session_at 0))))).
    + vm_compute; reflexivity.
    + vm_compute; reflexivity.
Defined.

(** ** The receive path *)

#[export] Instance carries_on_preorder : PreOrder carries_on.
Proof.
  split.
  - intros s. split; [reflexivity|]. exists []. symmetry. apply app_nil_r.
  - intros s1 s2 s3 [He12 [es1 H1]] [He23 [es2 H2]]. split; [congruence|].
    exists (es1 ++ es2). rewrite H2, H1. symmetry. apply app_assoc.
Qed.

Lemma carries_on_event (e : event) (s : Server) : carries_on s (record_event e s).
Proof. split; [reflexivity|]. exists [e]. reflexivity. Qed.

Lemma carries_on_same (s s' : Server) :
  _data_receive_event s' = _data_receive_event s -> trace s' = trace s ->
  carries_on s s'.
Proof.
  intros He Ht. split; [exact He|]. exists []. rewrite Ht. symmetry.
  apply app_nil_r.
Qed.

Ltac carries_on_leaf :=
  first [ apply carries_on_event | apply carries_on_same; reflexivity ].

Section Receive.

Variable decode : list byte -> decode_result.
Variable encode :
  Response -> list byte -> list (string * pyval) -> option (list byte).
Variable draws : nat -> Z.

Lemma flip_loop_carries_on (message : Message) (todo : list Z) :
  preserves carries_on (flip_loop encode draws message todo).
Proof.
  induction todo as [|i rest IH]; cbn [flip_loop].
  - apply preserves_ret. typeclasses eauto.
  - preserves_all; first [ exact IH | carries_on_leaf ].
Qed.

Lemma handle_request_carries_on (message : Message) :
  preserves carries_on (handle_request encode draws message).
Proof.
  unfold handle_request, handle_forward_flip_request.
  preserves_all; first [ apply flip_loop_carries_on | carries_on_leaf ].
Qed.

(** What [data_received] does up to the call of the catalog, and the three
    ways it can go on from there. *)
Lemma data_received_run (data : list byte) (s : Server) :
  data_received decode encode draws data s =
  match decode data with
  | DecodeRaises =>
      (Ok tt,
       record_event (Logged WarningCouldNotDecode) (about_to_dispatch data s))
  | DecodeReturns [message] =>
      try_except_DecodeError (handle_request encode draws message)
        (ecu_logger WarningCouldNotDecode) (about_to_dispatch data s)
  | DecodeReturns _ => (Raise AssertionError, about_to_dispatch data s)
  end.
Proof.
  unfold data_received, data_receive_event_set, ecu_logger, emit.
  run_steps. unfold try_except_DecodeError, call_decode, emit. run_steps.
  fold (about_to_dispatch data s).
  destruct (decode data) as [|[|message [|message' rest]]];
    run_steps; reflexivity.
Qed.

End Receive.

Section ReceiveClaims.

Variable decode : list byte -> decode_result.
Variable encode :
  Response -> list byte -> list (string * pyval) -> option (list byte).
Variable draws : nat -> Z.

Lemma trace_about_to_dispatch (data : list byte) (s : Server) :
  trace (about_to_dispatch data s) =
  trace s ++
    [IdleSignalSet; Logged (DebugDataReceived data); DecodeCalled data].
Proof. cbn. rewrite <- !app_assoc. reflexivity. Qed.


(** C6, as the code has it.  When the catalog raises [DecodeError] on a
    frame, [data_received] logs the warning, writes no response and
    returns; the session state is unchanged.  When the catalog returns a
    number of messages other than one, the assertion fails:
    [AssertionError] leaves [data_received], which logs no warning for it;
    no response is written and the session state is unchanged. *)
Theorem decode_error_logged_assertion_escapes (data : list byte) (s : Server) :
  (decode data = DecodeRaises ->
   exists s',
     data_received decode encode draws data s = (Ok tt, s') /\
     new_events s s' =
       [IdleSignalSet; Logged (DebugDataReceived data); DecodeCalled data;
        Logged WarningCouldNotDecode] /\
     session_state s' = session_state s) /\
  (forall messages,
     decode data = DecodeReturns messages ->
     length messages <> 1%nat ->
     exists s',
       data_received decode encode draws data s = (Raise AssertionError, s') /\
       new_events s s' =
         [IdleSignalSet; Logged (DebugDataReceived data); DecodeCalled data] /\
       session_state s' = session_state s).
Proof.
  split.
  - intros Hdec. rewrite data_received_run, Hdec. eexists. split; [reflexivity|].
    split; [|reflexivity].
    apply new_events_app. cbn [record_event trace].
    rewrite trace_about_to_dispatch, <- app_assoc. reflexivity.
  - intros messages Hdec Hlen. rewrite data_received_run, Hdec.
    assert (Hrun :
      match messages with
      | [message] =>
          try_except_DecodeError (handle_request encode draws message)
            (ecu_logger WarningCouldNotDecode) (about_to_dispatch data s)
      | _ => (Raise AssertionError, about_to_dispatch data s)
      end = (Raise AssertionError, about_to_dispatch data s)).
    { destruct messages as [|message [|message' rest]];
        [reflexivity | contradiction Hlen; reflexivity | reflexivity]. }
    rewrite Hrun. eexists. split; [reflexivity|]. split; [|reflexivity].
    apply new_events_app. apply trace_about_to_dispatch.
Qed.


End ReceiveClaims.

(** A frame on which the catalog returns two messages: [data_received] is
    left by [AssertionError], no warning is logged: the frame is not treated
    as a decode failure. *)
Lemma ambiguous_frame_fails_assertion :
  ambiguous_decode [Byte.x3e; Byte.x00]
    = DecodeReturns [plain_request "tester_present" [Byte.x3e; Byte.x00];
                     plain_request "session_start" [Byte.x3e; Byte.x00]] /\
  data_received ambiguous_decode demo_encode steady_draws
    [Byte.x3e; Byte.x00] __init__
    = (Raise AssertionError, about_to_dispatch [Byte.x3e; Byte.x00] __init__) /\
  new_events __init__ (about_to_dispatch [Byte.x3e; Byte.x00] __init__)
    = [IdleSignalSet; Logged (DebugDataReceived [Byte.x3e; Byte.x00]);
       DecodeCalled [Byte.x3e; Byte.x00]] /\
  ~ treated_as_decode_failure ambiguous_decode demo_encode steady_draws
      [Byte.x3e; Byte.x00] __init__.
Proof.
  split; [reflexivity|]. split; [reflexivity|]. split; [reflexivity|].
  intros [Hok _]. vm_compute in Hok. discriminate.
Qed.

(** An undecodable frame is logged and left; a frame with two decodings ends
    in [AssertionError]. *)
Lemma decode_error_logged_assertion_escapes_witness :
  (exists s',
     data_received demo_decode demo_encode steady_draws [Byte.xff] __init__
       = (Ok tt, s') /\
     new_events __init__ s' =
       [IdleSignalSet; Logged (DebugDataReceived [Byte.xff]);
        DecodeCalled [Byte.xff]; Logged WarningCouldNotDecode] /\
     session_state s' = session_state __init__) /\
  (exists s',
     data_received ambiguous_decode demo_encode steady_draws
       [Byte.x3e; Byte.x00] __init__ = (Raise AssertionError, s') /\
     new_events __init__ s' =
       [IdleSignalSet; Logged (DebugDataReceived [Byte.x3e; Byte.x00]);
        DecodeCalled [Byte.x3e; Byte.x00]] /\
     session_state s' = session_state __init__).
Proof.
  split.
  - apply (proj1 (decode_error_logged_assertion_escapes demo_decode demo_encode
                    steady_draws [Byte.xff] __init__)).
    reflexivity.
  - apply (proj2 (decode_error_logged_assertion_escapes ambiguous_decode
                    demo_encode steady_draws [Byte.x3e; Byte.x00] __init__)
             [plain_request "tester_present" [Byte.x3e; Byte.x00];
              plain_request "session_start" [Byte.x3e; Byte.x00]]).
    + reflexivity.
    + cbn. lia.
Defined.



(** ** The dispatcher, service by service *)

Section Services.

Variable encode :
  Response -> list byte -> list (string * pyval) -> option (list byte).
Variable draws : nat -> Z.

(** The first response of a list, encoded: the continuation runs on the
    payload, after the call was recorded. *)
Lemma run_item0_encode {B} (l : list Response) (coded : list byte)
    (kwargs : list (string * pyval)) (k : list byte -> M B) (s : Server)
    (r : Response) (payload : list byte) :
  hd_error l = Some r ->
  encode r coded kwargs = Some payload ->
  bind (response <- item0 l ;; call_encode encode response coded kwargs) k s
  = k payload (record_event (EncodeCalled r coded kwargs) s).
Proof.
  intros Hhd Henc. destruct l as [|r0 l]; [discriminate|].
  injection Hhd as ->. unfold item0, call_encode, emit. run_steps.
  rewrite Henc. run_steps. reflexivity.
Qed.

(** The keepalive branch, run. *)
Lemma keepalive_run (message : Message) (s : Server)
    (r : Response) (payload : list byte) :
  short_name (service message) = "tester_present" ->
  hd_error (if _diag_session_open s
            then positive_responses (service message)
            else negative_responses (service message)) = Some r ->
  encode r (coded_message message) [] = Some payload ->
  handle_request encode draws message s =
  (Ok tt,
   record_event (Written payload)
     (record_event (EncodeCalled r (coded_message message) [])
        (record_event (Logged (InfoReceivedMessage "tester_present")) s))).
Proof.
  intros Hname Hhd Henc.
  unfold handle_request, ecu_logger, emit. run_steps. rewrite Hname.
  cbn [String.eqb Ascii.eqb Bool.eqb]. run_steps.
  cbn [record_event _diag_session_open].
  destruct (_diag_session_open s);
    rewrite (run_item0_encode _ _ _ _ _ r payload Hhd Henc); reflexivity.
Qed.

(** X1.  The keepalive probe is answered from the session state: with an
    open session the catalog encodes the first positive response of the
    service, with a closed one its first negative response, in both cases
    without parameters; the payload is written, and neither the session
    state nor the random source nor the idle signal changes. *)
Theorem keepalive_reports_session (message : Message) (s : Server)
    (r : Response) (payload : list byte) :
  short_name (service message) = "tester_present" ->
  hd_error (if _diag_session_open s
            then positive_responses (service message)
            else negative_responses (service message)) = Some r ->
  encode r (coded_message message) [] = Some payload ->
  exists s',
    handle_request encode draws message s = (Ok tt, s') /\
    new_events s s' =
      [Logged (InfoReceivedMessage "tester_present");
       EncodeCalled r (coded_message message) []; Written payload] /\
    untouched s s'.
Proof.
  intros Hname Hhd Henc. eexists. split.
  - apply (keepalive_run message s r payload Hname Hhd Henc).
  - split.
    + apply new_events_app. cbn. rewrite <- !app_assoc. reflexivity.
    + repeat split; reflexivity.
Qed.

(** X2.  Start-session.  In a closed session the catalog encodes the first
    positive response with [can_do_backward_flips = "false"], the session is
    opened and the payload is written.  In a session that is already open
    the first negative response is encoded and written, and the session
    stays open.  In both cases dizziness, its bound, the random source and
    the idle signal are as before. *)
Theorem start_request_opens_session (message : Message) (s : Server)
    (r : Response) (payload : list byte) :
  short_name (service message) = "session_start" ->
  (_diag_session_open s = false ->
   hd_error (positive_responses (service message)) = Some r ->
   encode r (coded_message message)
     [("can_do_backward_flips", PyStr "false")] = Some payload ->
   exists s',
     handle_request encode draws message s = (Ok tt, s') /\
     new_events s s' =
       [Logged (InfoReceivedMessage "session_start");
        EncodeCalled r (coded_message message)
          [("can_do_backward_flips", PyStr "false")];
        Written payload] /\
     _diag_session_open s' = true /\
     quiet s s' /\
     _data_receive_event s' = _data_receive_event s) /\
  (_diag_session_open s = true ->
   hd_error (negative_responses (service message)) = Some r ->
   encode r (coded_message message) [] = Some payload ->
   exists s',
     handle_request encode draws message s = (Ok tt, s') /\
     new_events s s' =
       [Logged (InfoReceivedMessage "session_start");
        EncodeCalled r (coded_message message) []; Written payload] /\
     untouched s s').
Proof.
  intros Hname.
  assert (Hrun : handle_request encode draws message s =
    (response_payload <-
       (if negb (_diag_session_open s) then
          response <- item0 (positive_responses (service message)) ;;
          call_encode encode response (coded_message message)
            [("can_do_backward_flips", PyStr "false")]
        else
          response <- item0 (negative_responses (service message)) ;;
          call_encode encode response (coded_message message) []) ;;
     modify (set_diag_session_open true) ;;
     transport_write response_payload)
      (record_event (Logged (InfoReceivedMessage "session_start")) s)).
  { unfold handle_request, ecu_logger, emit. run_steps. rewrite Hname.
    cbn [String.eqb Ascii.eqb Bool.eqb]. run_steps. reflexivity. }
  rewrite Hrun. clear Hrun. split.
  - intros Hclosed Hhd Henc. rewrite Hclosed. cbn [negb].
    rewrite (run_item0_encode _ _ _ _ _ r payload Hhd Henc).
    unfold transport_write, emit. run_steps. eexists. split; [reflexivity|].
    split; [apply new_events_app; cbn; rewrite <- !app_assoc; reflexivity|].
    repeat split; reflexivity.
  - intros Hopen Hhd Henc. rewrite Hopen. cbn [negb].
    rewrite (run_item0_encode _ _ _ _ _ r payload Hhd Henc).
    unfold transport_write, emit. run_steps. eexists. split; [reflexivity|].
    split; [apply new_events_app; cbn; rewrite <- !app_assoc; reflexivity|].
    unfold untouched, session_state. cbn. rewrite Hopen.
    repeat split; reflexivity.
Qed.

(** X3.  Stop-session in an open session: the catalog encodes the first
    positive response, the session is closed and the payload is written;
    dizziness, its bound, the random source and the idle signal are as
    before. *)
Theorem open_session_is_closed_by_stop (message : Message) (s : Server)
    (r : Response) (payload : list byte) :
  short_name (service message) = "session_stop" ->
  _diag_session_open s = true ->
  hd_error (positive_responses (service message)) = Some r ->
  encode r (coded_message message) [] = Some payload ->
  exists s',
    handle_request encode draws message s = (Ok tt, s') /\
    new_events s s' =
      [Logged (InfoReceivedMessage "session_stop");
       EncodeCalled r (coded_message message) []; Written payload] /\
    _diag_session_open s' = false /\
    quiet s s' /\
    _data_receive_event s' = _data_receive_event s.
Proof.
  intros Hname Hopen Hhd Henc. eexists. split.
  - unfold handle_request, ecu_logger, emit. run_steps. rewrite Hname.
    cbn [String.eqb Ascii.eqb Bool.eqb]. run_steps.
    cbn [record_event _diag_session_open]. rewrite Hopen. cbn [negb].
    run_steps. cbn [record_event _diag_session_open]. rewrite Hopen.
    rewrite (run_item0_encode _ _ _ _ _ r payload Hhd Henc).
    unfold transport_write, emit. run_steps. reflexivity.
  - split; [apply new_events_app; cbn; rewrite <- !app_assoc; reflexivity|].
    repeat split; reflexivity.
Qed.

End Services.

(** A keepalive probe in the session as constructed gets the negative
    response of the sample catalog. *)
Lemma keepalive_reports_session_witness :
  exists s',
    handle_request demo_encode steady_draws
      (plain_request "tester_present" [Byte.x3e; Byte.x00]) __init__
      = (Ok tt, s') /\
    new_events __init__ s' =
      [Logged (InfoReceivedMessage "tester_present");
       EncodeCalled negative_response [Byte.x3e; Byte.x00] [];
       Written [Byte.x7f; Byte.x3e]] /\
    untouched __init__ s'.
Proof.
  apply (keepalive_reports_session demo_encode steady_draws
           (plain_request "tester_present" [Byte.x3e; Byte.x00]) __init__
           negative_response [Byte.x7f; Byte.x3e]);
    vm_compute; reflexivity.
Defined.

(** A session start on the server as constructed opens the session. *)
Lemma start_request_opens_session_witness :
  exists s',
    handle_request demo_encode steady_draws
      (plain_request "session_start" [Byte.x10; Byte.x00]) __init__
      = (Ok tt, s') /\
    new_events __init__ s' =
      [Logged (InfoReceivedMessage "session_start");
       EncodeCalled positive_response [Byte.x10; Byte.x00]
         [("can_do_backward_flips", PyStr "false")];
       Written [Byte.x50]] /\
    _diag_session_open s' = true /\
    quiet __init__ s' /\
    _data_receive_event s' = _data_receive_event __init__.
Proof.
  apply (proj1 (start_request_opens_session demo_encode steady_draws
                  (plain_request "session_start" [Byte.x10; Byte.x00])
                  __init__ positive_response [Byte.x50] eq_refl));
    vm_compute; reflexivity.
Defined.

(** A session stop in an open session at dizziness 3 closes it. *)
Lemma open_session_is_closed_by_stop_witness :
  exists s',
    handle_request demo_encode steady_draws
      (plain_request "session_stop" [Byte.x10; Byte.x01]) (session_at 3)
      = (Ok tt, s') /\
    new_events (session_at 3) s' =
      [Logged (InfoReceivedMessage "session_stop");
       EncodeCalled positive_response [Byte.x10; Byte.x01] [];
       Written [Byte.x50]] /\
    _diag_session_open s' = false /\
    quiet (session_at 3) s' /\
    _data_receive_event s' = _data_receive_event (session_at 3).
Proof.
  apply (open_session_is_closed_by_stop demo_encode steady_draws
           (plain_request "session_stop" [Byte.x10; Byte.x01]) (session_at 3)
           positive_response [Byte.x50]);
    vm_compute; reflexivity.
Defined.

(** ** What the dispatcher leaves alone *)

#[export] Instance quiet_preorder : PreOrder quiet.
Proof.
  split.
  - intros s. repeat split; reflexivity.
  - intros s1 s2 s3 (Hd12 & Hm12 & Hk12) (Hd23 & Hm23 & Hk23).
    repeat split; congruence.
Qed.

(** Runs a method through all of its branches. *)
Ltac crunch :=
  repeat (run_steps;
          cbn [negb record_event set_diag_session_open _diag_session_open];
          match goal with
          | |- context [match ?x with _ => _ end] => destruct x eqn:?
          end).

Section Dispatch.

Variable encode :
  Response -> list byte -> list (string * pyval) -> option (list byte).
Variable draws : nat -> Z.

Lemma handle_request_quiet (message : Message) :
  short_name (service message) <> "do_forward_flips" ->
  preserves quiet (handle_request encode draws message).
Proof.
  intros Hname. unfold handle_request. preserves_all;
    try (repeat split; reflexivity).
  exfalso. apply Hname. apply String.eqb_eq. assumption.
Qed.

(** What a call of the dispatcher has written when it is left: one response
    when it returns, unless the service has no branch and the session is
    open; none when it raises. *)
Lemma handle_request_outcome (message : Message) (s : Server) :
  match handle_request encode draws message s with
  | (Ok _, s') =>
      wrote 1 s s' \/
      (wrote 0 s s' /\ _diag_session_open s = true /\
       handled_by_name (short_name (service message)) = false)
  | (Raise _, s') => wrote 0 s s'
  end.
Proof.
  destruct (handled_by_name (short_name (service message))) eqn:Hname.
  - pose proof (handle_request_answers encode draws message Hname s) as H.
    destruct (handle_request encode draws message s) as [[u|e] s'];
      [left|]; exact H.
  - destruct (_diag_session_open s) eqn:Hopen.
    + rewrite (handle_request_unhandled encode draws message s Hopen Hname).
      right. split; [|split; reflexivity]. apply (wrote_event (Logged _)).
    + unfold handled_by_name in Hname.
      apply orb_false_elim in Hname as [Hname _].
      apply orb_false_elim in Hname as [Hname _].
      apply orb_false_elim in Hname as [Hkeep Hstart].
      rewrite handle_request_closed.
      * left. eexists [_; _]. split.
        -- cbn. rewrite <- app_assoc. reflexivity.
        -- reflexivity.
      * intros E. apply String.eqb_eq in E. congruence.
      * intros E. apply String.eqb_eq in E. congruence.
      * exact Hopen.
Qed.

(** A call for a service other than the flip that is left by an exception
    has changed nothing but the trace. *)
Lemma handle_request_raise_untouched (message : Message) (s s' : Server)
    (e : exn) :
  short_name (service message) <> "do_forward_flips" ->
  handle_request encode draws message s = (Raise e, s') ->
  untouched s s'.
Proof.
  intros Hname. unfold handle_request. unfold_calls. crunch;
    try discriminate;
    try (intros Hrun; injection Hrun as _ <-; repeat split; reflexivity).
  exfalso. apply Hname. apply String.eqb_eq. assumption.
Qed.

(** X4.  The dispatcher leaves the idle signal alone, whatever the service.
    A request for any service other than [do_forward_flips] also leaves
    dizziness, its bound and the random source as they are. *)
Theorem only_flips_touch_the_counter (message : Message) (s : Server) :
  _data_receive_event (snd (handle_request encode draws message s))
    = _data_receive_event s /\
  (short_name (service message) <> "do_forward_flips" ->
   quiet s (snd (handle_request encode draws message s))).
Proof.
  split.
  - apply (handle_request_carries_on encode draws message s).
  - intros Hname. apply handle_request_quiet. exact Hname.
Qed.

(** X5.  A call of the dispatcher that is left by an exception has written
    no response.  If the service is not [do_forward_flips], it has also left
    the session state, the random source and the idle signal as they were:
    a session is neither opened nor closed by a request whose response the
    catalog could not supply. *)
Theorem failed_request_changes_nothing (message : Message) (s s' : Server)
    (e : exn) :
  handle_request encode draws message s = (Raise e, s') ->
  responses_written (new_events s s') = [] /\
  (short_name (service message) <> "do_forward_flips" -> untouched s s').
Proof.
  intros Hrun. split.
  - pose proof (handle_request_outcome message s) as H. rewrite Hrun in H.
    apply nil_length_inv. apply (wrote_new_events 0 s s' H).
  - intros Hname. apply (handle_request_raise_untouched message s s' e Hname Hrun).
Qed.

(** X6.  Start-session and stop-session undo each other: from a closed
    session, a start-session request followed by a stop-session request,
    both handled to the end, leave the session state as it was (closed, same
    dizziness, same bound), and two responses were written. *)
Theorem start_then_stop_restores (start stop : Message) (s s1 s2 : Server) :
  short_name (service start) = "session_start" ->
  short_name (service stop) = "session_stop" ->
  _diag_session_open s = false ->
  handle_request encode draws start s = (Ok tt, s1) ->
  handle_request encode draws stop s1 = (Ok tt, s2) ->
  session_state s2 = session_state s /\
  length (responses_written (new_events s s2)) = 2%nat.
Proof.
  intros Hstart Hstop Hclosed Hrun1 Hrun2. split.
  - pose proof (session_stop_closes encode draws stop s1 s2 Hstop Hrun2) as Hc.
    destruct (handle_request_same_counter encode draws start) with (s := s)
      as [Hd1 Hm1]; [rewrite Hstart; discriminate|].
    destruct (handle_request_same_counter encode draws stop) with (s := s1)
      as [Hd2 Hm2]; [rewrite Hstop; discriminate|].
    rewrite Hrun1 in Hd1, Hm1. rewrite Hrun2 in Hd2, Hm2. cbn [snd] in *.
    unfold session_state. rewrite Hc, Hclosed, Hd2, Hd1, Hm2, Hm1. reflexivity.
  - pose proof (handle_request_answers encode draws start) as H1.
    pose proof (handle_request_answers encode draws stop) as H2.
    specialize (H1 ltac:(rewrite Hstart; reflexivity) s).
    specialize (H2 ltac:(rewrite Hstop; reflexivity) s1).
    rewrite Hrun1 in H1. rewrite Hrun2 in H2.
    apply (wrote_new_events 2 s s2). apply (wrote_trans 1 1 s s1 s2 H1 H2).
Qed.

(** X7.  The stop-session branch never asks the catalog for a negative
    response: whatever the state, the only response that a stop-session
    request has encoded is the first positive response of the service,
    without parameters.  (A closed session is answered by the generic frame
    before the branch is reached.) *)
Theorem session_stop_never_encodes_negative (message : Message) (s : Server)
    (r : Response) (coded : list byte) (kwargs : list (string * pyval)) :
  short_name (service message) = "session_stop" ->
  In (EncodeCalled r coded kwargs)
     (new_events s (snd (handle_request encode draws message s))) ->
  hd_error (positive_responses (service message)) = Some r /\
  coded = coded_message message /\ kwargs = [].
Proof.
  intros Hname.
  destruct (_diag_session_open s) eqn:Hopen.
  - unfold handle_request, ecu_logger, emit. run_steps. rewrite Hname.
    cbn [String.eqb Ascii.eqb Bool.eqb]. run_steps.
    cbn [record_event _diag_session_open]. rewrite Hopen. cbn [negb].
    run_steps. cbn [record_event _diag_session_open]. rewrite Hopen.
    unfold item0, call_encode, transport_write, emit.
    destruct (positive_responses (service message)) as [|r0 rs]; run_steps.
    + rewrite (new_events_app s _ [Logged (InfoReceivedMessage "session_stop")])
        by reflexivity.
      cbn. intros [H|[]]. discriminate.
    + destruct (encode r0 (coded_message message) []) as [payload|]; run_steps;
        cbn [snd modify].
      * rewrite (new_events_app s _
          [Logged (InfoReceivedMessage "session_stop");
           EncodeCalled r0 (coded_message message) []; Written payload])
          by (cbn; rewrite <- !app_assoc; reflexivity).
        cbn. intros [H|[H|[H|[]]]]; try discriminate.
        injection H as -> -> ->. repeat split; reflexivity.
      * rewrite (new_events_app s _
          [Logged (InfoReceivedMessage "session_stop");
           EncodeCalled r0 (coded_message message) []])
          by (cbn; rewrite <- !app_assoc; reflexivity).
        cbn. intros [H|[H|[]]]; try discriminate.
        injection H as -> -> ->. repeat split; reflexivity.
  - rewrite handle_request_closed;
      [|rewrite Hname; discriminate ..|exact Hopen].
    cbn [snd].
    rewrite (new_events_app s _
      [Logged (InfoReceivedMessage (short_name (service message)));
       Written [Byte.x7f; request_id message; Byte.x7f]])
      by (cbn; rewrite <- !app_assoc; reflexivity).
    cbn. intros [H|[H|[]]]; discriminate.
Qed.

End Dispatch.

(** A keepalive probe is quiet. *)
Lemma only_flips_touch_the_counter_witness :
  quiet (session_at 3)
    (snd (handle_request demo_encode steady_draws
            (plain_request "tester_present" [Byte.x3e; Byte.x00])
            (session_at 3))).
Proof.
  apply (proj2 (only_flips_touch_the_counter demo_encode steady_draws
                  (plain_request "tester_present" [Byte.x3e; Byte.x00])
                  (session_at 3))).
  discriminate.
Defined.

(** A start-session request that the catalog cannot answer leaves the
    session closed. *)
Lemma failed_request_changes_nothing_witness :
  responses_written
    (new_events __init__
       (snd (handle_request failing_encode steady_draws
               (plain_request "session_start" [Byte.x10; Byte.x00])
               __init__))) = [] /\
  untouched __init__
    (snd (handle_request failing_encode steady_draws
            (plain_request "session_start" [Byte.x10; Byte.x00]) __init__)).
Proof.
  destruct (failed_request_changes_nothing failing_encode steady_draws
              (plain_request "session_start" [Byte.x10; Byte.x00]) __init__
              (snd (handle_request failing_encode steady_draws
                      (plain_request "session_start" [Byte.x10; Byte.x00])
                      __init__))
              EncodeError eq_refl) as [Hnone Hsame].
  split; [exact Hnone|]. apply Hsame. discriminate.
Defined.

(** Start and stop on the server as constructed. *)
Lemma start_then_stop_restores_witness :
  session_state
    (snd (handle_request demo_encode steady_draws
            (plain_request "session_stop" [Byte.x10; Byte.x01])
            (snd (handle_request demo_encode steady_draws
                    (plain_request "session_start" [Byte.x10; Byte.x00])
                    __init__))))
  = session_state __init__ /\
  length
    (responses_written
       (new_events __init__
          (snd (handle_request demo_encode steady_draws
                  (plain_request "session_stop" [Byte.x10; Byte.x01])
                  (snd (handle_request demo_encode steady_draws
                          (plain_request "session_start" [Byte.x10; Byte.x00])
                          __init__)))))) = 2%nat.
Proof.
  apply (start_then_stop_restores demo_encode steady_draws
           (plain_request "session_start" [Byte.x10; Byte.x00])
           (plain_request "session_stop" [Byte.x10; Byte.x01])
           __init__ _ _ eq_refl eq_refl eq_refl eq_refl eq_refl).
Defined.

(** The response encoded for a stop-session request in an open session is
    the positive one. *)
Lemma session_stop_never_encodes_negative_witness :
  hd_error
    (positive_responses
       (service (plain_request "session_stop" [Byte.x10; Byte.x01])))
    = Some positive_response /\
  [Byte.x10; Byte.x01]
    = coded_message (plain_request "session_stop" [Byte.x10; Byte.x01]) /\
  @nil (string * pyval) = [].
Proof.
  apply (session_stop_never_encodes_negative demo_encode steady_draws
           (plain_request "session_stop" [Byte.x10; Byte.x01]) (session_at 3)
           positive_response [Byte.x10; Byte.x01] [] eq_refl).
  vm_compute. right. left. reflexivity.
Defined.

(** ** More on the flip operation *)

#[export] Instance same_draws_preorder : PreOrder same_draws.
Proof.
  split.
  - intros s. reflexivity.
  - intros s1 s2 s3 H12 H23. unfold same_draws in *. congruence.
Qed.

Section FlipEdges.

Variable encode :
  Response -> list byte -> list (string * pyval) -> option (list byte).
Variable draws : nat -> Z.

(** With both parameters in the request, the call is one of three paths,
    chosen by the two gates. *)
Lemma flip_request_run (message : Message) (s : Server) (c n : Z) :
  param_dict message !! "forward_soberness_check" = Some c ->
  param_dict message !! "num_flips" = Some n ->
  handle_forward_flip_request encode draws message s =
  (if negb (c =? 0x12) then
     response <- next_filter
       (fun x => String.eqb (response_short_name x) "flips_not_done")
       (negative_responses (service message)) ;;
     response_data <- call_encode encode response (coded_message message)
       [("reason", PyInt 0); ("flips_successfully_done", PyInt 0)] ;;
     transport_write response_data
   else if dizziness_level s + n >? max_dizziness_level s then
     response <- next_filter
       (fun x => String.eqb (response_short_name x) "flips_not_done")
       (negative_responses (service message)) ;;
     response_data <- call_encode encode response (coded_message message)
       [("reason", PyInt 1);
        ("flips_successfully_done",
         PyInt (max_dizziness_level s - dizziness_level s))] ;;
     transport_write response_data ;;
     modify (fun s => set_dizziness_level (max_dizziness_level s) s)
   else
     returned <- flip_loop encode draws message (range 0 n) ;;
     if (returned : bool) then ret tt
     else
       response <- next_filter
         (fun x => String.eqb (response_short_name x) "grudging_forward")
         (positive_responses (service message)) ;;
       response_data <- call_encode encode response (coded_message message) [] ;;
       transport_write response_data) s.
Proof.
  intros Hc Hn. unfold handle_forward_flip_request.
  rewrite (run_getitem _ _ _ _ _ Hc), (run_getitem _ _ _ _ _ Hn).
  destruct (negb (c =? 0x12)); [reflexivity|].
  rewrite !run_bind_gets.
  destruct (dizziness_level s + n >? max_dizziness_level s); reflexivity.
Qed.

(** X8.  A flip request that lacks a parameter is left by [KeyError] before
    anything else happens: nothing is encoded, written, drawn or changed.
    Both parameters are read before the soberness gate, so a request without
    [num_flips] fails this way even when its check code is wrong. *)
Theorem flip_request_needs_both_parameters (message : Message) (s : Server) :
  (param_dict message !! "forward_soberness_check" = None ->
   handle_forward_flip_request encode draws message s
   = (Raise (KeyError "forward_soberness_check"), s)) /\
  (forall c,
     param_dict message !! "forward_soberness_check" = Some c ->
     param_dict message !! "num_flips" = None ->
     handle_forward_flip_request encode draws message s
     = (Raise (KeyError "num_flips"), s)).
Proof.
  split.
  - intros Hc. unfold handle_forward_flip_request, getitem. rewrite Hc.
    reflexivity.
  - intros c Hc Hn. unfold handle_forward_flip_request.
    rewrite (run_getitem _ _ _ _ _ Hc). unfold getitem. rewrite Hn.
    reflexivity.
Qed.

(** X9.  In the capacity gate the response is produced before the counter is
    set to its bound: when the catalog has no [flips_not_done] response or
    cannot encode it, the call is left by the exception with the counter
    where it was, and nothing is written. *)
Theorem capacity_gate_failure_keeps_counter (message : Message) (s : Server)
    (n : Z) :
  param_dict message !! "forward_soberness_check" = Some 0x12 ->
  param_dict message !! "num_flips" = Some n ->
  dizziness_level s + n > max_dizziness_level s ->
  (find (fun x => String.eqb (response_short_name x) "flips_not_done")
        (negative_responses (service message)) = None ->
   handle_forward_flip_request encode draws message s
   = (Raise StopIteration, s)) /\
  (forall r,
     find (fun x => String.eqb (response_short_name x) "flips_not_done")
          (negative_responses (service message)) = Some r ->
     encode r (coded_message message)
       [("reason", PyInt 1);
        ("flips_successfully_done",
         PyInt (max_dizziness_level s - dizziness_level s))] = None ->
     exists s',
       handle_forward_flip_request encode draws message s
       = (Raise EncodeError, s') /\
       new_events s s' =
         [EncodeCalled r (coded_message message)
            [("reason", PyInt 1);
             ("flips_successfully_done",
              PyInt (max_dizziness_level s - dizziness_level s))]] /\
       untouched s s').
Proof.
  intros Hc Hn Hgate.
  rewrite (flip_request_run message s _ _ Hc Hn). cbn [Z.eqb Pos.eqb negb].
  destruct (dizziness_level s + n >? max_dizziness_level s) eqn:Hgt; [|lia].
  split.
  - intros Hfind. unfold next_filter. rewrite Hfind. reflexivity.
  - intros r Hfind Henc. unfold next_filter. rewrite Hfind. run_steps.
    unfold call_encode, emit. run_steps. rewrite Henc. run_steps.
    eexists. split; [reflexivity|]. split.
    + apply new_events_app. reflexivity.
    + repeat split; reflexivity.
Qed.

(** X10.  A request for no steps (or for a negative number of them) that
    meets a counter within its bound runs no step: nothing is drawn, the
    positive response [grudging_forward] is encoded and written, and the
    state is as before.  This also holds when the counter is at its
    bound. *)
Theorem no_steps_no_draw (message : Message) (s : Server) (n : Z)
    (r : Response) (payload : list byte) :
  param_dict message !! "forward_soberness_check" = Some 0x12 ->
  param_dict message !! "num_flips" = Some n ->
  n <= 0 ->
  dizziness_level s <= max_dizziness_level s ->
  find (fun x => String.eqb (response_short_name x) "grudging_forward")
       (positive_responses (service message)) = Some r ->
  encode r (coded_message message) [] = Some payload ->
  exists s',
    handle_forward_flip_request encode draws message s = (Ok tt, s') /\
    new_events s s' =
      [EncodeCalled r (coded_message message) []; Written payload] /\
    untouched s s'.
Proof.
  intros Hc Hn Hle Hbound Hfind Henc.
  rewrite (flip_request_run message s _ _ Hc Hn). cbn [Z.eqb Pos.eqb negb].
  destruct (dizziness_level s + n >? max_dizziness_level s) eqn:Hgt; [lia|].
  unfold range. replace (Z.to_nat (n - 0)) with 0%nat by lia.
  cbn [seq map flip_loop]. run_steps.
  rewrite (run_lookup_encode encode _ _ _ _ transport_write s r payload
             Hfind Henc).
  eexists. split; [reflexivity|]. split.
  - apply new_events_app. cbn. rewrite <- app_assoc. reflexivity.
  - repeat split; reflexivity.
Qed.

(** The loop, counted: it either goes through its whole range, one draw and
    one increment per element and no draw below 100, or it is left at the
    first draw below 100, after one draw more than increments. *)
Lemma flip_loop_accounting (message : Message) (todo : list Z) (s : Server) :
  max_dizziness_level (snd (flip_loop encode draws message todo s))
    = max_dizziness_level s /\
  match fst (flip_loop encode draws message todo s) with
  | Ok false =>
      draws_taken (snd (flip_loop encode draws message todo s))
        = (draws_taken s + length todo)%nat /\
      dizziness_level (snd (flip_loop encode draws message todo s))
        = dizziness_level s + Z.of_nat (length todo) /\
      (forall j, (j < length todo)%nat -> 100 <= draws (draws_taken s + j))
  | _ =>
      exists i, (i < length todo)%nat /\
        draws_taken (snd (flip_loop encode draws message todo s))
          = (draws_taken s + S i)%nat /\
        dizziness_level (snd (flip_loop encode draws message todo s))
          = dizziness_level s + Z.of_nat i /\
        draws (draws_taken s + i) < 100 /\
        (forall j, (j < i)%nat -> 100 <= draws (draws_taken s + j))
  end.
Proof.
  revert s. induction todo as [|x rest IH]; intros s.
  - cbn. split; [reflexivity|]. split; [lia|]. split; [lia|]. intros j Hj. lia.
  - rewrite flip_loop_cons.
    destruct (draws (draws_taken s) <? 100) eqn:Hdraw.
    + assert (Hstay : forall r0 s0,
        (response <- next_filter
           (fun x => String.eqb (response_short_name x) "flips_not_done")
           (negative_responses (service message)) ;;
         response_data <- call_encode encode response (coded_message message)
           [("reason", PyInt 2); ("flips_successfully_done", PyInt x)] ;;
         transport_write response_data ;;
         ret true) (set_draws_taken (S (draws_taken s)) s) = (r0, s0) ->
        r0 <> Ok false /\ quiet (set_draws_taken (S (draws_taken s)) s) s0).
      { intros r0 s0. unfold next_filter, call_encode, transport_write, emit.
        destruct (find _ _) as [r|]; run_steps.
        - destruct (encode r _ _) as [payload|]; run_steps; unfold ret;
            intros H; injection H as <- <-;
            (split; [discriminate | repeat split; reflexivity]).
        - intros H; injection H as <- <-.
          split; [discriminate | repeat split; reflexivity]. }
      destruct ((response <- next_filter _ _ ;; _)
                  (set_draws_taken (S (draws_taken s)) s)) as [r0 s0] eqn:Hrun.
      destruct (Hstay r0 s0 eq_refl) as [Hne (Hd & Hm & Hk)].
      cbn [set_draws_taken dizziness_level max_dizziness_level draws_taken]
        in Hd, Hm, Hk.
      cbn [fst snd]. split; [exact Hm|].
      assert (Hex : exists i, (i < length (x :: rest))%nat /\
                draws_taken s0 = (draws_taken s + S i)%nat /\
                dizziness_level s0 = dizziness_level s + Z.of_nat i /\
                draws (draws_taken s + i) < 100 /\
                (forall j, (j < i)%nat -> 100 <= draws (draws_taken s + j))).
      { exists 0%nat. cbn [length]. rewrite Nat.add_0_r.
        split; [lia|]. split; [lia|]. split; [lia|]. split; [lia|].
        intros j Hj. lia. }
      destruct r0 as [[|]|e]; [exact Hex | contradiction Hne; reflexivity
                               | exact Hex].
    + rewrite run_bind_modify.
      assert (Hshift : forall i (P : Z -> Prop),
        (forall j, (j < i)%nat -> P (draws (S (draws_taken s) + j))) ->
        P (draws (draws_taken s)) ->
        forall j, (j < S i)%nat -> P (draws (draws_taken s + j))).
      { intros i P Hrest H0 j Hj. destruct j as [|j].
        - rewrite Nat.add_0_r. exact H0.
        - replace (draws_taken s + S j)%nat with (S (draws_taken s) + j)%nat
            by lia.
          apply Hrest. lia. }
      match goal with
      | |- context [flip_loop _ _ _ _ ?t] =>
          destruct (IH t) as [Hm Hrest]; revert Hm Hrest;
          destruct (flip_loop encode draws message rest t) as [[[|]|e] s1]
      end;
        cbn [fst snd set_draws_taken set_dizziness_level dizziness_level
             max_dizziness_level draws_taken];
        intros Hm Hrest; (split; [exact Hm|]).
      * destruct Hrest as (i & Hi & Hk & Hd & Hlast & Hbefore).
        exists (S i). cbn [length].
        split; [lia|]. split; [lia|]. split; [lia|]. split.
        -- replace (draws_taken s + S i)%nat with (S (draws_taken s) + i)%nat
             by lia.
           exact Hlast.
        -- apply (Hshift i (fun z => 100 <= z) Hbefore). lia.
      * destruct Hrest as (Hk & Hd & Hall). cbn [length].
        split; [lia|]. split; [lia|].
        apply (Hshift (length rest) (fun z => 100 <= z) Hall). lia.
      * destruct Hrest as (i & Hi & Hk & Hd & Hlast & Hbefore).
        exists (S i). cbn [length].
        split; [lia|]. split; [lia|]. split; [lia|]. split.
        -- replace (draws_taken s + S i)%nat with (S (draws_taken s) + i)%nat
             by lia.
           exact Hlast.
        -- apply (Hshift i (fun z => 100 <= z) Hbefore). lia.
Qed.

(** X11.  What a flip request costs.  A request stopped by one of the two
    gates draws nothing.  A request that passes them draws at most once per
    requested step, and then one of two things has happened.  Either no
    draw was below 100: there were as many draws as steps asked for, and the
    counter has grown by that number.  Or the last draw, and no draw before
    it, was below 100 (the stumble): the counter has grown by one less than
    the number of draws.  This holds on every path, also when the catalog
    fails. *)
Theorem each_flip_costs_one_draw (message : Message) (s : Server) (c n : Z) :
  param_dict message !! "forward_soberness_check" = Some c ->
  param_dict message !! "num_flips" = Some n ->
  (c <> 0x12 \/ dizziness_level s + n > max_dizziness_level s ->
   draws_taken (snd (handle_forward_flip_request encode draws message s))
     = draws_taken s) /\
  (c = 0x12 ->
   dizziness_level s + n <= max_dizziness_level s ->
   exists spent : nat,
     draws_taken (snd (handle_forward_flip_request encode draws message s))
       = (draws_taken s + spent)%nat /\
     (spent <= Z.to_nat n)%nat /\
     ((spent = Z.to_nat n /\
       (forall j, (j < spent)%nat -> 100 <= draws (draws_taken s + j)) /\
       dizziness_level (snd (handle_forward_flip_request encode draws message s))
         = dizziness_level s + Z.of_nat spent) \/
      (exists i,
         spent = S i /\
         draws (draws_taken s + i) < 100 /\
         (forall j, (j < i)%nat -> 100 <= draws (draws_taken s + j)) /\
         dizziness_level
           (snd (handle_forward_flip_request encode draws message s))
           = dizziness_level s + Z.of_nat i))).
Proof.
  intros Hc Hn. rewrite (flip_request_run message s _ _ Hc Hn). split.
  - intros Hstopped.
    assert (Hq : forall reason done (k : M unit),
      preserves same_draws k ->
      preserves same_draws
        (response <- next_filter
           (fun x => String.eqb (response_short_name x) "flips_not_done")
           (negative_responses (service message)) ;;
         response_data <- call_encode encode response (coded_message message)
           [("reason", reason); ("flips_successfully_done", done)] ;;
         transport_write response_data ;; k)).
    { intros reason done k Hk. preserves_all; try reflexivity. apply Hk. }
    destruct (c =? 0x12) eqn:Heq; cbn [negb].
    + destruct (dizziness_level s + n >? max_dizziness_level s) eqn:Hgt.
      * apply (Hq (PyInt 1) _
                 (modify (fun s => set_dizziness_level (max_dizziness_level s) s))).
        preserves_all. reflexivity.
      * lia.
    + assert (Hns : preserves same_draws
        (response <- next_filter
           (fun x => String.eqb (response_short_name x) "flips_not_done")
           (negative_responses (service message)) ;;
         response_data <- call_encode encode response (coded_message message)
           [("reason", PyInt 0); ("flips_successfully_done", PyInt 0)] ;;
         transport_write response_data)).
      { preserves_all; reflexivity. }
      apply Hns.
  - intros -> Hgate. cbn [Z.eqb Pos.eqb negb].
    destruct (dizziness_level s + n >? max_dizziness_level s) eqn:Hgt; [lia|].
    destruct (flip_loop_accounting message (range 0 n) s) as [Hm Hloop].
    rewrite length_range, Z.sub_0_r in Hloop.
    unfold bind.
    destruct (flip_loop encode draws message (range 0 n) s)
      as [[[|]|e] s1]; cbn [fst snd] in *.
    + destruct Hloop as (i & Hi & Hk & Hd & Hlast & Hbefore). exists (S i).
      unfold ret. cbn [snd]. split; [exact Hk|]. split; [lia|]. right.
      exists i. repeat split; assumption.
    + assert (Hq : preserves quiet
        (response <- next_filter
           (fun x => String.eqb (response_short_name x) "grudging_forward")
           (positive_responses (service message)) ;;
         response_data <- call_encode encode response (coded_message message) [] ;;
         transport_write response_data)).
      { preserves_all; repeat split; reflexivity. }
      destruct (Hq s1) as (Hd' & _ & Hk'). destruct Hloop as (Hk & Hd & Hall).
      exists (Z.to_nat n). split; [rewrite <- Hk; exact Hk'|].
      split; [lia|]. left. split; [reflexivity|]. split; [exact Hall|].
      rewrite <- Hd. exact Hd'.
    + destruct Hloop as (i & Hi & Hk & Hd & Hlast & Hbefore). exists (S i).
      split; [exact Hk|]. split; [lia|]. right.
      exists i. repeat split; assumption.
Qed.

End FlipEdges.

(** A flip request without step count fails with [KeyError] although its
    check code is wrong. *)
Lemma flip_request_needs_both_parameters_witness :
  handle_forward_flip_request demo_encode steady_draws
    (flip_request_without_count 0x23) (session_at 4)
  = (Raise (KeyError "num_flips"), session_at 4).
Proof.
  apply (proj2 (flip_request_needs_both_parameters demo_encode steady_draws
                  (flip_request_without_count 0x23) (session_at 4)) 0x23);
    vm_compute; reflexivity.
Defined.

(** Five flips at dizziness 9 with a catalog that cannot encode: the counter
    stays at 9. *)
Lemma capacity_gate_failure_keeps_counter_witness :
  exists s',
    handle_forward_flip_request failing_encode steady_draws
      (flip_request 0x12 5) (session_at 9) = (Raise EncodeError, s') /\
    new_events (session_at 9) s' =
      [EncodeCalled flips_not_done (coded_message (flip_request 0x12 5))
         [("reason", PyInt 1); ("flips_successfully_done", PyInt 1)]] /\
    untouched (session_at 9) s'.
Proof.
  refine (proj2 (capacity_gate_failure_keeps_counter failing_encode
                   steady_draws (flip_request 0x12 5) (session_at 9) 5 _ _ _)
            flips_not_done _ _);
    vm_compute; reflexivity.
Defined.

(** No flips at a full counter: the grudging positive response. *)
Lemma no_steps_no_draw_witness :
  exists s',
    handle_forward_flip_request demo_encode third_draw_stumbles
      (flip_request 0x12 0) (session_at 10) = (Ok tt, s') /\
    new_events (session_at 10) s' =
      [EncodeCalled grudging_forward (coded_message (flip_request 0x12 0)) [];
       Written [Byte.xfa]] /\
    untouched (session_at 10) s'.
Proof.
  apply (no_steps_no_draw demo_encode third_draw_stumbles
           (flip_request 0x12 0) (session_at 10) 0 grudging_forward
           [Byte.xfa]);
    try (vm_compute; reflexivity); vm_compute; discriminate.
Defined.

(** Five flips with a stumble on the third draw: three draws, two
    increments. *)
Lemma each_flip_costs_one_draw_witness :
  exists spent : nat,
    draws_taken
      (snd (handle_forward_flip_request demo_encode third_draw_stumbles
              (flip_request 0x12 5) (session_at 0)))
      = (draws_taken (session_at 0) + spent)%nat /\
    (spent <= Z.to_nat 5)%nat /\
    ((spent = Z.to_nat 5 /\
      (forall j, (j < spent)%nat ->
         100 <= third_draw_stumbles (draws_taken (session_at 0) + j)) /\
      dizziness_level
        (snd (handle_forward_flip_request demo_encode third_draw_stumbles
                (flip_request 0x12 5) (session_at 0)))
        = dizziness_level (session_at 0) + Z.of_nat spent) \/
     (exists i,
        spent = S i /\
        third_draw_stumbles (draws_taken (session_at 0) + i) < 100 /\
        (forall j, (j < i)%nat ->
           100 <= third_draw_stumbles (draws_taken (session_at 0) + j)) /\
        dizziness_level
          (snd (handle_forward_flip_request demo_encode third_draw_stumbles
                  (flip_request 0x12 5) (session_at 0)))
          = dizziness_level (session_at 0) + Z.of_nat i)).
Proof.
  refine (proj2 (each_flip_costs_one_draw demo_encode third_draw_stumbles
                   (flip_request 0x12 5) (session_at 0) 0x12 5 _ _) _ _).
  - vm_compute; reflexivity.
  - vm_compute; reflexivity.
  - reflexivity.
  - vm_compute; discriminate.
Defined.

(** ** The endpoint step by step *)

#[export] Instance not_opened_preorder : PreOrder not_opened.
Proof.
  split.
  - intros s H. exact H.
  - intros s1 s2 s3 H12 H23 H. apply H23, H12, H.
Qed.

Lemma related_try (R : relation Server) `{!PreOrder R} {A} (c h : M A)
    (s : Server) :
  R s (snd (c s)) -> preserves R h ->
  R s (snd (try_except_DecodeError c h s)).
Proof.
  intros Hc Hh. unfold try_except_DecodeError.
  destruct (c s) as [[a|e] s1]; cbn [snd] in *; [exact Hc|].
  destruct e; cbn [snd]; try exact Hc.
  transitivity s1; [exact Hc | apply Hh].
Qed.

Section Steps.

Variable decode : list byte -> decode_result.
Variable encode :
  Response -> list byte -> list (string * pyval) -> option (list byte).
Variable draws : nat -> Z.

Lemma flip_loop_not_opened (message : Message) (todo : list Z) :
  preserves not_opened (flip_loop encode draws message todo).
Proof.
  induction todo as [|i rest IH]; cbn [flip_loop].
  - apply preserves_ret. typeclasses eauto.
  - preserves_all; first [ exact IH | intros H; exact H ].
Qed.

Lemma handle_request_not_opened (message : Message) :
  short_name (service message) <> "session_start" ->
  preserves not_opened (handle_request encode draws message).
Proof.
  intros Hname. unfold handle_request, handle_forward_flip_request.
  preserves_all;
    first [ apply flip_loop_not_opened
          | intros H; exact H
          | intros H; reflexivity
          | exfalso; apply Hname; apply String.eqb_eq; assumption ].
Qed.

(** What a step leaves of the server when the frame is not dispatched (the
    catalog raised or returned another number of messages than one). *)
Lemma data_received_cases (R : relation Server) `{!PreOrder R}
    (data : list byte) (s : Server) :
  (forall e s0, R s0 (record_event e s0)) ->
  R s (set_data_receive_event true s) ->
  (forall message,
     decode data = DecodeReturns [message] ->
     R (about_to_dispatch data s)
       (snd (handle_request encode draws message (about_to_dispatch data s)))) ->
  R s (snd (data_received decode encode draws data s)).
Proof.
  intros Hev Hset Hdispatch.
  assert (Habout : R s (about_to_dispatch data s)).
  { unfold about_to_dispatch.
    transitivity (set_data_receive_event true s); [exact Hset|].
    transitivity (record_event IdleSignalSet (set_data_receive_event true s));
      [apply Hev|].
    etransitivity; apply Hev. }
  rewrite data_received_run.
  destruct (decode data) as [|[|message [|message' rest]]] eqn:Hdec;
    cbn [snd].
  - transitivity (about_to_dispatch data s); [exact Habout | apply Hev].
  - exact Habout.
  - transitivity (about_to_dispatch data s); [exact Habout|].
    apply related_try; [typeclasses eauto | |].
    + apply Hdispatch. reflexivity.
    + unfold ecu_logger, emit. apply preserves_modify. intros s0. apply Hev.
  - exact Habout.
Qed.

(** X12.  A session is opened by a start-session request and by nothing
    else: if a step of the endpoint takes a closed session to an open one,
    the step was the reception of a frame that the catalog decoded to
    exactly one message, for the service [session_start]. *)
Theorem session_opens_only_by_start (a : action) (s : Server) :
  _diag_session_open s = false ->
  _diag_session_open (step decode encode draws a s) = true ->
  exists data message,
    a = DataReceived data /\
    decode data = DecodeReturns [message] /\
    short_name (service message) = "session_start".
Proof.
  intros Hclosed Hopen.
  destruct a as [| | |data|w].
  - cbn in Hopen. congruence.
  - cbn in Hopen. congruence.
  - cbn in Hopen. congruence.
  - destruct (decode data) as [|[|message [|message' rest]]] eqn:Hdec;
      try (cbn [step] in Hopen; rewrite data_received_run, Hdec in Hopen;
           cbn in Hopen; congruence).
    destruct (String.eqb (short_name (service message)) "session_start")
      eqn:Hname.
    + exists data, message. apply String.eqb_eq in Hname. repeat split;
        assumption.
    + exfalso.
      assert (Hkeep : not_opened s (snd (data_received decode encode draws data s))).
      { apply data_received_cases.
        - typeclasses eauto.
        - intros e s0 H. exact H.
        - intros H. exact H.
        - intros message0 Hdec0. rewrite Hdec in Hdec0.
          injection Hdec0 as <-. apply handle_request_not_opened.
          intros E. apply String.eqb_eq in E. congruence. }
      cbn [step] in Hopen. rewrite (Hkeep Hclosed) in Hopen. discriminate.
  - destruct w; cbn [step _run_iteration] in Hopen.
    + revert Hopen. run_steps.
      destruct (_data_receive_event s); cbn; congruence.
    + revert Hopen. unfold bind. rewrite close_diag_session_run. cbn.
      congruence.
    + cbn in Hopen. congruence.
Qed.

(** In an open session a flip request goes to the flip operation. *)
Lemma handle_request_flips_run (message : Message) (s : Server) :
  short_name (service message) = "do_forward_flips" ->
  _diag_session_open s = true ->
  handle_request encode draws message s =
  handle_forward_flip_request encode draws message
    (record_event (Logged (InfoReceivedMessage "do_forward_flips")) s).
Proof.
  intros Hname Hopen. unfold handle_request, ecu_logger, emit. run_steps.
  rewrite Hname. cbn [String.eqb Ascii.eqb Bool.eqb]. run_steps.
  cbn [record_event _diag_session_open]. rewrite Hopen. reflexivity.
Qed.

(** A flip request that does not pass the soberness gate, or lacks a
    parameter, leaves the counter alone. *)
Lemma flip_request_same_counter_unless_sober (message : Message) (s : Server) :
  ~ (param_dict message !! "forward_soberness_check" = Some 0x12 /\
     exists n, param_dict message !! "num_flips" = Some n) ->
  same_counter s (snd (handle_forward_flip_request encode draws message s)).
Proof.
  intros Hnot.
  destruct (param_dict message !! "forward_soberness_check") as [c|] eqn:Hc.
  - destruct (param_dict message !! "num_flips") as [n|] eqn:Hn.
    + rewrite (flip_request_run encode draws message s c n Hc Hn).
      destruct (c =? 0x12) eqn:Heq.
      * exfalso. apply Hnot. apply Z.eqb_eq in Heq. subst c.
        split; [reflexivity | exists n; reflexivity].
      * cbn [negb].
        assert (Hp : preserves same_counter
          (response <- next_filter
             (fun x => String.eqb (response_short_name x) "flips_not_done")
             (negative_responses (service message)) ;;
           response_data <- call_encode encode response (coded_message message)
             [("reason", PyInt 0); ("flips_successfully_done", PyInt 0)] ;;
           transport_write response_data)).
        { preserves_all; split; reflexivity. }
        apply Hp.
    + unfold handle_forward_flip_request.
      rewrite (run_getitem _ _ _ _ _ Hc). unfold getitem. rewrite Hn.
      split; reflexivity.
  - unfold handle_forward_flip_request, getitem. rewrite Hc.
    split; reflexivity.
Qed.

(** X13.  The counter moves through sober flip requests in an open session
    and through nothing else: if a step of the endpoint changes dizziness,
    the step was the reception of a frame that the catalog decoded to
    exactly one message, for the service [do_forward_flips], carrying the
    check code [0x12] and a step count, and the session was open. *)
Theorem counter_moves_only_by_sober_flips (a : action) (s : Server) :
  dizziness_level (step decode encode draws a s) <> dizziness_level s ->
  exists data message n,
    a = DataReceived data /\
    decode data = DecodeReturns [message] /\
    short_name (service message) = "do_forward_flips" /\
    _diag_session_open s = true /\
    param_dict message !! "forward_soberness_check" = Some 0x12 /\
    param_dict message !! "num_flips" = Some n.
Proof.
  intros Hmoved.
  destruct a as [| | |data|w].
  - contradiction Hmoved. reflexivity.
  - contradiction Hmoved. reflexivity.
  - contradiction Hmoved. reflexivity.
  - destruct (decode data) as [|[|message [|message' rest]]] eqn:Hdec;
      try (contradiction Hmoved; cbn [step];
           rewrite data_received_run, Hdec; reflexivity).
    (* the counter moved, so the dispatcher moved it *)
    assert (Hdispatch :
      ~ same_counter (about_to_dispatch data s)
          (snd (handle_request encode draws message (about_to_dispatch data s)))).
    { intros Hsame. apply Hmoved.
      apply (data_received_cases same_counter data s).
      - intros e s0. split; reflexivity.
      - split; reflexivity.
      - intros message0 Hdec0. rewrite Hdec in Hdec0. injection Hdec0 as <-.
        exact Hsame. }
    destruct (String.eqb (short_name (service message)) "do_forward_flips")
      eqn:Hname.
    + apply String.eqb_eq in Hname.
      destruct (_diag_session_open s) eqn:Hopen.
      * assert (Hflip :
          ~ same_counter
              (record_event (Logged (InfoReceivedMessage "do_forward_flips"))
                 (about_to_dispatch data s))
              (snd (handle_forward_flip_request encode draws message
                      (record_event
                         (Logged (InfoReceivedMessage "do_forward_flips"))
                         (about_to_dispatch data s))))).
        { intros Hsame. apply Hdispatch.
          rewrite handle_request_flips_run; [|exact Hname|exact Hopen].
          transitivity (record_event
            (Logged (InfoReceivedMessage "do_forward_flips"))
            (about_to_dispatch data s)); [split; reflexivity | exact Hsame]. }
        destruct (param_dict message !! "forward_soberness_check")
          as [c|] eqn:Hc.
        -- destruct (param_dict message !! "num_flips") as [n|] eqn:Hn.
           ++ destruct (c =? 0x12) eqn:Heq.
              ** apply Z.eqb_eq in Heq. subst c.
                 exists data, message, n.
                 repeat split; first [assumption | reflexivity].
              ** exfalso. apply Hflip.
                 apply flip_request_same_counter_unless_sober.
                 intros [Hc' _]. rewrite Hc in Hc'.
                 injection Hc' as ->. discriminate.
           ++ exfalso. apply Hflip.
              apply flip_request_same_counter_unless_sober.
              intros [_ [n Hn']]. congruence.
        -- exfalso. apply Hflip.
           apply flip_request_same_counter_unless_sober.
           intros [Hc' _]. congruence.
      * exfalso. apply Hdispatch.
        rewrite handle_request_closed;
          [split; reflexivity | rewrite Hname; discriminate ..
           | exact Hopen].
    + exfalso. apply Hdispatch.
      apply handle_request_same_counter.
      intros E. apply String.eqb_eq in E. congruence.
  - contradiction Hmoved.
    destruct w; cbn [step _run_iteration].
    + run_steps. destruct (_data_receive_event s); reflexivity.
    + unfold bind. rewrite close_diag_session_run. reflexivity.
    + reflexivity.
Qed.

(** X14.  Dizziness is never reset.  Once the counter has reached its
    bound, it is at the bound in every state that the endpoint reaches from
    there, whatever is received and however often the session is closed and
    opened again; and in each of these states a sober flip request for at
    least one step is refused: [flips_not_done] with reason 1 (too dizzy)
    and 0 flips done. *)
Theorem saturation_is_permanent (s0 s : Server) :
  dizziness_level s0 = max_dizziness_level s0 ->
  reachable_from decode encode draws s0 s ->
  dizziness_level s = max_dizziness_level s0 /\
  max_dizziness_level s = max_dizziness_level s0 /\
  (forall message n r payload,
     param_dict message !! "forward_soberness_check" = Some 0x12 ->
     param_dict message !! "num_flips" = Some n ->
     1 <= n ->
     find (fun x => String.eqb (response_short_name x) "flips_not_done")
          (negative_responses (service message)) = Some r ->
     encode r (coded_message message)
       [("reason", PyInt 1); ("flips_successfully_done", PyInt 0)]
       = Some payload ->
     exists s',
       handle_forward_flip_request encode draws message s = (Ok tt, s') /\
       new_events s s' =
         [EncodeCalled r (coded_message message)
            [("reason", PyInt 1); ("flips_successfully_done", PyInt 0)];
          Written payload] /\
       dizziness_level s' = max_dizziness_level s0).
Proof.
  intros Hfull Hreach.
  assert (Hstay : dizziness_level s = max_dizziness_level s0 /\
                  max_dizziness_level s = max_dizziness_level s0).
  { induction Hreach as [|a s Hreach [IHd IHm] Hen].
    - split; [exact Hfull | reflexivity].
    - destruct (step_grows decode encode draws a s) as [Hm Hd].
      specialize (Hd ltac:(lia)). split; lia. }
  destruct Hstay as [Hd Hm]. split; [exact Hd|]. split; [exact Hm|].
  intros message n r payload Hc Hn Hone Hfind Henc.
  rewrite (flip_request_run encode draws message s _ _ Hc Hn).
  cbn [Z.eqb Pos.eqb negb].
  destruct (dizziness_level s + n >? max_dizziness_level s) eqn:Hgt; [|lia].
  replace (max_dizziness_level s - dizziness_level s) with 0 by lia.
  rewrite (run_lookup_encode encode _ _ _ _ _ s r payload Hfind Henc).
  unfold transport_write, emit. run_steps. eexists. split; [reflexivity|].
  split.
  - apply new_events_app. cbn. rewrite <- app_assoc. reflexivity.
  - cbn. exact Hm.
Qed.

Lemma frames_received_app (es1 es2 : list event) :
  frames_received (es1 ++ es2)
    = (frames_received es1 + frames_received es2)%nat.
Proof. unfold frames_received. rewrite List.filter_app. apply length_app. Qed.

Lemma answered_within_wrote_nothing (s s' : Server) :
  wrote 0 s s' -> answered_within s s'.
Proof. intros (es & H & L). exists es. split; [exact H | lia]. Qed.

Lemma step_answered_within (a : action) (s : Server) :
  answered_within s (step decode encode draws a s).
Proof.
  destruct a as [| | |data|w]; cbn [step].
  - apply answered_within_wrote_nothing. apply (wrote_event (Logged _)).
  - apply answered_within_wrote_nothing. apply (wrote_event (Logged _)).
  - apply answered_within_wrote_nothing. apply (wrote_event (Logged _)).
  - assert (Hrest : exists es,
      trace (snd (data_received decode encode draws data s))
        = trace (about_to_dispatch data s) ++ es /\
      (length (responses_written es) <= 1)%nat).
    { rewrite data_received_run.
      destruct (decode data) as [|[|message [|message' rest]]]; cbn [snd].
      - exists [Logged WarningCouldNotDecode]. split; [reflexivity | cbn; lia].
      - exists []. rewrite app_nil_r. split; [reflexivity | cbn; lia].
      - unfold try_except_DecodeError.
        pose proof (handle_request_outcome encode draws message
                      (about_to_dispatch data s)) as Hout.
        destruct (handle_request encode draws message
                    (about_to_dispatch data s)) as [[u|e] s1].
        + destruct Hout as [(es & H & L)|[(es & H & L) _]];
            exists es; (split; [exact H | lia]).
        + destruct Hout as (es & H & L).
          destruct e; cbn [snd];
            try (exists es; split; [exact H | lia]).
          exists (es ++ [Logged WarningCouldNotDecode]). split.
          * cbn. rewrite H. symmetry. apply app_assoc.
          * rewrite responses_written_app, length_app. cbn. lia.
      - exists []. rewrite app_nil_r. split; [reflexivity | cbn; lia]. }
    destruct Hrest as (es & H & L).
    exists ([IdleSignalSet; Logged (DebugDataReceived data); DecodeCalled data]
            ++ es). split.
    + rewrite H, trace_about_to_dispatch. symmetry. apply app_assoc.
    + rewrite responses_written_app, frames_received_app, length_app. cbn. lia.
  - apply answered_within_wrote_nothing.
    destruct w; cbn [_run_iteration].
    + run_steps. destruct (_data_receive_event s).
      * unfold data_receive_event_clear, emit. run_steps.
        exists [IdleSignalCleared]. split; reflexivity.
      * apply wrote_same_trace. reflexivity.
    + unfold bind. rewrite close_diag_session_run.
      apply wrote_same_trace. reflexivity.
    + apply wrote_same_trace. reflexivity.
Qed.

(** X15.  The endpoint never writes more responses than it has received
    frames: along every run, the responses written since a state are at most
    as many as the frames handed to [data_received] since then.  No turn of
    the supervisor and no connection event writes a response. *)
Theorem no_more_responses_than_frames (s0 s : Server) :
  reachable_from decode encode draws s0 s ->
  (length (responses_written (new_events s0 s))
   <= frames_received (new_events s0 s))%nat.
Proof.
  intros Hreach.
  assert (Hin : answered_within s0 s).
  { induction Hreach as [|a s Hreach IH Hen].
    - exists []. rewrite app_nil_r. split; [reflexivity | cbn; lia].
    - destruct IH as (es1 & H1 & L1).
      destruct (step_answered_within a s) as (es2 & H2 & L2).
      exists (es1 ++ es2). split.
      + rewrite H2, H1. symmetry. apply app_assoc.
      + rewrite responses_written_app, frames_received_app, length_app. lia. }
  destruct Hin as (es & H & L). rewrite (new_events_app s0 s es H). exact L.
Qed.

End Steps.

(** ** The supervisor *)

Section Supervisor.

Variable decode : list byte -> decode_result.
Variable encode :
  Response -> list byte -> list (string * pyval) -> option (list byte).
Variable draws : nat -> Z.

(** One turn of the loop, run. *)
Lemma _run_iteration_run (w : wait_outcome) (s : Server) :
  _run_iteration w s =
  (Ok (negb (is_cancelled w)),
   match w with
   | WaitReturned =>
       if _data_receive_event s
       then record_event IdleSignalCleared (set_data_receive_event false s)
       else s
   | WaitTimeoutError => set_diag_session_open false s
   | WaitCancelledError => s
   end).
Proof.
  destruct w; cbn [_run_iteration is_cancelled negb].
  - run_steps. destruct (_data_receive_event s); reflexivity.
  - unfold bind. rewrite close_diag_session_run. reflexivity.
  - reflexivity.
Qed.



(** X17.  When the wait of the supervisor times out, the session is closed
    and nothing else happens: no response, no log entry, the counter stays.
    A keepalive probe that arrives afterwards is answered with the first
    negative response of its service. *)
Theorem idle_timeout_closes_session (s : Server) :
  session_state (step decode encode draws (SupervisorResumes WaitTimeoutError) s)
    = (false, dizziness_level s, max_dizziness_level s) /\
  trace (step decode encode draws (SupervisorResumes WaitTimeoutError) s)
    = trace s /\
  (forall message r payload,
     short_name (service message) = "tester_present" ->
     hd_error (negative_responses (service message)) = Some r ->
     encode r (coded_message message) [] = Some payload ->
     exists s',
       handle_request encode draws message
         (step decode encode draws (SupervisorResumes WaitTimeoutError) s)
       = (Ok tt, s') /\
       new_events
         (step decode encode draws (SupervisorResumes WaitTimeoutError) s) s'
       = [Logged (InfoReceivedMessage "tester_present");
          EncodeCalled r (coded_message message) []; Written payload] /\
       _diag_session_open s' = false).
Proof.
  cbn [step]. rewrite _run_iteration_run. cbn [snd].
  split; [reflexivity|]. split; [reflexivity|].
  intros message r payload Hname Hhd Henc.
  rewrite (keepalive_run encode draws message _ r payload Hname);
    [|exact Hhd|exact Henc].
  eexists. split; [reflexivity|]. split.
  - apply new_events_app. cbn. rewrite <- !app_assoc. reflexivity.
  - reflexivity.
Qed.

#[export] Instance supervised_preorder : PreOrder supervised.
Proof.
  split.
  - intros s. repeat split; reflexivity.
  - intros s1 s2 s3 (Hw12 & Hq12 & Ho12) (Hw23 & Hq23 & Ho23).
    split; [|split].
    + transitivity s2; assumption.
    + transitivity s2; assumption.
    + transitivity s2; assumption.
Qed.

Lemma _run_iteration_harmless (w : wait_outcome) (s : Server) :
  supervised s (snd (_run_iteration w s)).
Proof.
  unfold supervised.
  rewrite _run_iteration_run. cbn [snd].
  destruct w; [destruct (_data_receive_event s)| |];
    (split; [|split; [repeat split; reflexivity|]]);
    try (apply wrote_same_trace; reflexivity);
    try (intros H; exact H); try (intros H; reflexivity).
  exists [IdleSignalCleared]. split; reflexivity.
Qed.

Lemma _run_loop_run (waits : list wait_outcome) (s : Server) :
  fst (_run_loop waits s) = Ok (existsb is_cancelled waits) /\
  supervised s (snd (_run_loop waits s)).
Proof.
  revert s. induction waits as [|w rest IH]; intros s.
  - cbn. split; [reflexivity|]. reflexivity.
  - cbn [_run_loop existsb]. unfold bind.
    pose proof (_run_iteration_harmless w s) as Hturn.
    rewrite _run_iteration_run in *. cbn [snd] in Hturn.
    destruct (is_cancelled w); cbn [negb orb].
    + cbn [ret fst snd]. split; [reflexivity | exact Hturn].
    + match goal with
      | |- context [_run_loop rest ?t] => destruct (IH t) as (Hr & Hrest)
      end.
      split; [exact Hr|].
      etransitivity; [exact Hturn | exact Hrest].
Qed.

Lemma _run_loop_cancelled (before after : list wait_outcome) (s : Server) :
  existsb is_cancelled before = false ->
  _run_loop (before ++ WaitCancelledError :: after) s
  = (Ok true, snd (_run_loop before s)).
Proof.
  revert s. induction before as [|w rest IH]; intros s Hnone.
  - reflexivity.
  - cbn [existsb] in Hnone. apply orb_false_elim in Hnone as [Hw Hrest].
    cbn [app _run_loop]. unfold bind. rewrite _run_iteration_run, Hw.
    cbn [negb]. apply IH. exact Hrest.
Qed.

(** X18.  The supervisor coroutine returns when a wait is cancelled and not
    otherwise; the waits that would follow the cancellation have no effect.
    Apart from the log line at its start and the closing of the session on
    a timeout, it does nothing to the server: it writes no response, leaves
    the counter, its bound and the random source alone, and never opens a
    session. *)
Theorem supervisor_runs_until_cancelled (waits : list wait_outcome)
    (s : Server) :
  fst (_run waits s) = Ok (existsb is_cancelled waits) /\
  responses_written (new_events s (snd (_run waits s))) = [] /\
  quiet s (snd (_run waits s)) /\
  not_opened s (snd (_run waits s)) /\
  (forall before after,
     waits = before ++ WaitCancelledError :: after ->
     existsb is_cancelled before = false ->
     _run waits s = (Ok true, snd (_run before s))).
Proof.
  unfold _run, _run_prologue, ecu_logger, emit. run_steps.
  destruct (_run_loop_run waits (record_event (Logged InfoRunning) s))
    as (Hr & Hw & Hq & Ho).
  split; [exact Hr|]. split; [|split; [|split]].
  - apply nil_length_inv. apply (wrote_new_events 0).
    apply (wrote_trans 0 0 s (record_event (Logged InfoRunning) s));
      [apply (wrote_event (Logged InfoRunning)) | exact Hw].
  - exact Hq.
  - exact Ho.
  - intros before after -> Hnone. run_steps.
    apply _run_loop_cancelled. exact Hnone.
Qed.

End Supervisor.

(** ** The step properties on the sample catalog *)

(** The frame [10 00] opens the session of the server as constructed. *)
Lemma session_opens_only_by_start_witness :
  exists data message,
    DataReceived [Byte.x10; Byte.x00] = DataReceived data /\
    demo_decode data = DecodeReturns [message] /\
    short_name (service message) = "session_start".
Proof.
  apply (session_opens_only_by_start demo_decode demo_encode steady_draws
           (DataReceived [Byte.x10; Byte.x00]) __init__);
    vm_compute; reflexivity.
Defined.

(** Three flips in an open session move the counter. *)
Lemma counter_moves_only_by_sober_flips_witness :
  exists data message n,
    DataReceived [Byte.xba; Byte.x12; Byte.x03] = DataReceived data /\
    demo_decode data = DecodeReturns [message] /\
    short_name (service message) = "do_forward_flips" /\
    _diag_session_open (session_at 0) = true /\
    param_dict message !! "forward_soberness_check" = Some 0x12 /\
    param_dict message !! "num_flips" = Some n.
Proof.
  apply (counter_moves_only_by_sober_flips demo_decode demo_encode
           steady_draws (DataReceived [Byte.xba; Byte.x12; Byte.x03])
           (session_at 0)).
  vm_compute. discriminate.
Defined.

(** A full counter survives a session stop and a session start, and one more
    flip is refused with 0 done. *)
Lemma saturation_is_permanent_witness :
  exists s',
    handle_forward_flip_request demo_encode steady_draws (flip_request 0x12 1)
      (step demo_decode demo_encode steady_draws
         (DataReceived [Byte.x10; Byte.x00])
         (step demo_decode demo_encode steady_draws
            (DataReceived [Byte.x10; Byte.x01]) (session_at 10)))
    = (Ok tt, s') /\
    new_events
      (step demo_decode demo_encode steady_draws
         (DataReceived [Byte.x10; Byte.x00])
         (step demo_decode demo_encode steady_draws
            (DataReceived [Byte.x10; Byte.x01]) (session_at 10))) s'
    = [EncodeCalled flips_not_done (coded_message (flip_request 0x12 1))
         [("reason", PyInt 1); ("flips_successfully_done", PyInt 0)];
       Written [Byte.x7f; Byte.xba; Byte.x01; Byte.x00]] /\
    dizziness_level s' = max_dizziness_level (session_at 10).
Proof.
  refine (proj2 (proj2 (saturation_is_permanent demo_decode demo_encode
                          steady_draws (session_at 10) _ eq_refl _))
            (flip_request 0x12 1) 1 flips_not_done
            [Byte.x7f; Byte.xba; Byte.x01; Byte.x00] _ _ _ _ _).
  - apply reachable_step; [|reflexivity].
    apply reachable_step; [|reflexivity].
    apply reachable_start.
  - vm_compute; reflexivity.
  - vm_compute; reflexivity.
  - lia.
  - vm_compute; reflexivity.
  - vm_compute; reflexivity.
Defined.

(** Two frames, one of them undecodable: one response. *)
Lemma no_more_responses_than_frames_witness :
  (length
     (responses_written
        (new_events __init__
           (step demo_decode demo_encode steady_draws
              (DataReceived [Byte.x10; Byte.x00])
              (step demo_decode demo_encode steady_draws
                 (DataReceived [Byte.xff]) __init__))))
   <= frames_received
        (new_events __init__
           (step demo_decode demo_encode steady_draws
              (DataReceived [Byte.x10; Byte.x00])
              (step demo_decode demo_encode steady_draws
                 (DataReceived [Byte.xff]) __init__))))%nat.
Proof.
  apply (no_more_responses_than_frames demo_decode demo_encode steady_draws).
  apply reachable_step; [|reflexivity].
  apply reachable_step; [|reflexivity].
  apply reachable_start.
Defined.


(** After a timeout in an open session the keepalive probe gets the negative
    response. *)
Lemma idle_timeout_closes_session_witness :
  exists s',
    handle_request demo_encode steady_draws
      (plain_request "tester_present" [Byte.x3e; Byte.x00])
      (step demo_decode demo_encode steady_draws
         (SupervisorResumes WaitTimeoutError) (session_at 3))
    = (Ok tt, s') /\
    new_events
      (step demo_decode demo_encode steady_draws
         (SupervisorResumes WaitTimeoutError) (session_at 3)) s'
    = [Logged (InfoReceivedMessage "tester_present");
       EncodeCalled negative_response [Byte.x3e; Byte.x00] [];
       Written [Byte.x7f; Byte.x3e]] /\
    _diag_session_open s' = false.
Proof.
  apply (proj2 (proj2 (idle_timeout_closes_session demo_decode demo_encode
                         steady_draws (session_at 3)))
           (plain_request "tester_present" [Byte.x3e; Byte.x00])
           negative_response [Byte.x7f; Byte.x3e]);
    vm_compute; reflexivity.
Defined.

(** A cancellation after a wake-up and a timeout ends the coroutine; the
    timeout that would follow does not happen. *)
Lemma supervisor_runs_until_cancelled_witness :
  _run [WaitReturned; WaitTimeoutError; WaitCancelledError; WaitTimeoutError]
    (session_at 3)
  = (Ok true, snd (_run [WaitReturned; WaitTimeoutError] (session_at 3))).
Proof.
  apply (proj2 (proj2 (proj2 (proj2
           (supervisor_runs_until_cancelled
              [WaitReturned; WaitTimeoutError; WaitCancelledError;
               WaitTimeoutError] (session_at 3)))))
           [WaitReturned; WaitTimeoutError] [WaitTimeoutError]);
    reflexivity.
Defined.

(** ** No exception with a complete catalog *)

Lemma returns_ret {A} (a : A) : returns (ret a).
Proof. intros s. exists a, s. reflexivity. Qed.

Lemma returns_gets {A} (f : Server -> A) : returns (gets f).
Proof. intros s. exists (f s), s. reflexivity. Qed.

Lemma returns_modify (f : Server -> Server) : returns (modify f).
Proof. intros s. exists tt, (f s). reflexivity. Qed.

Lemma returns_bind {A B} (c : M A) (k : A -> M B) :
  returns c -> (forall a, returns (k a)) -> returns (bind c k).
Proof.
  intros Hc Hk s. destruct (Hc s) as (a & s1 & H1).
  destruct (Hk a s1) as (b & s2 & H2). exists b, s2.
  unfold bind. rewrite H1. exact H2.
Qed.

Lemma returns_call_encode
    (encode : Response -> list byte -> list (string * pyval) -> option (list byte))
    (r : Response) (coded : list byte) (kwargs : list (string * pyval)) :
  encode r coded kwargs <> None -> returns (call_encode encode r coded kwargs).
Proof.
  intros He. unfold call_encode, emit. apply returns_bind.
  - apply returns_modify.
  - intros _. destruct (encode r coded kwargs); [|contradiction].
    apply returns_ret.
Qed.

(** A method that never raises returns at every state. *)
Lemma returns_at (c : M unit) (s : Server) :
  returns c -> exists s', c s = (Ok tt, s').
Proof.
  intros Hc. destruct (Hc s) as ([] & s' & H). exists s'. exact H.
Qed.

(** [responses[0].encode(…)] with a first response that is encoded. *)
Lemma returns_first_response
    (encode : Response -> list byte -> list (string * pyval) -> option (list byte))
    (responses : list Response) (coded : list byte)
    (kwargs : list (string * pyval)) :
  first_response_encodes encode responses coded kwargs ->
  returns (response <- item0 responses ;;
           call_encode encode response coded kwargs).
Proof.
  intros (r & rest & -> & He) s. cbn [item0]. rewrite run_bind_ret.
  apply returns_call_encode. exact He.
Qed.

(** [next(filter(…)).encode(…)] with a response of that name that is
    encoded. *)
Lemma returns_named_response {B}
    (encode : Response -> list byte -> list (string * pyval) -> option (list byte))
    (p : Response -> bool) (responses : list Response) (r : Response)
    (coded : list byte) (kwargs : list (string * pyval))
    (k : list byte -> M B) :
  find p responses = Some r ->
  encode r coded kwargs <> None ->
  (forall payload, returns (k payload)) ->
  returns (response <- next_filter p responses ;;
           response_data <- call_encode encode response coded kwargs ;;
           k response_data).
Proof.
  intros Hfind He Hk s. unfold next_filter. rewrite Hfind, run_bind_ret.
  apply returns_bind; [apply returns_call_encode; exact He | exact Hk].
Qed.

Lemma in_range (i n : Z) : In i (range 0 n) -> 0 <= i < n.
Proof.
  unfold range. rewrite in_map_iff. intros (k & <- & Hk).
  apply in_seq in Hk. lia.
Qed.

(** The validating sample catalog accepts what the dispatcher passes. *)
Lemma strict_encode_flips_not_done (coded : list byte) (reason done : Z) :
  0 <= reason <= 2 -> 0 <= done <= 255 ->
  strict_encode flips_not_done coded
    [("reason", PyInt reason); ("flips_successfully_done", PyInt done)]
    <> None.
Proof.
  intros Hr Hd. unfold strict_encode.
  cbn [response_short_name flips_not_done].
  change (String.eqb "flips_not_done" "flips_not_done") with true.
  change (String.eqb "reason" "reason") with true.
  change (String.eqb "flips_successfully_done" "flips_successfully_done")
    with true.
  cbn [andb].
  rewrite (proj2 (Z.leb_le 0 reason)) by lia.
  rewrite (proj2 (Z.leb_le reason 2)) by lia.
  rewrite (proj2 (Z.leb_le 0 done)) by lia.
  rewrite (proj2 (Z.leb_le done 255)) by lia.
  discriminate.
Qed.

(** It refuses a parameter that the response does not declare, a reason
    that is not listed, and a count that does not fit a byte. *)
Lemma strict_encode_validates :
  strict_encode flips_not_done [Byte.xba] [] = None /\
  strict_encode flips_not_done [Byte.xba]
    [("reason", PyInt 3); ("flips_successfully_done", PyInt 0)] = None /\
  strict_encode flips_not_done [Byte.xba]
    [("reason", PyInt 1); ("flips_successfully_done", PyInt 256)] = None /\
  strict_encode grudging_forward [Byte.xba] [("reason", PyInt 0)] = None /\
  strict_encode positive_response [Byte.x10; Byte.x00] [] = None.
Proof. repeat split; vm_compute; reflexivity. Qed.

Lemma strict_catalog_complete_for_flips (c n : Z) :
  catalog_complete_for strict_encode (flip_request c n) 255.
Proof.
  split; [intros H; discriminate H|]. split; [intros H; discriminate H|].
  split; [intros H; discriminate H|]. intros _.
  split; [eexists; apply lookup_insert_eq|].
  split; [eexists; cbn [flip_request param_dict];
          rewrite lookup_insert_ne by discriminate; apply lookup_insert_eq|].
  split.
  - exists flips_not_done. split; [reflexivity|].
    intros reason done Hr Hd. apply strict_encode_flips_not_done; assumption.
  - exists grudging_forward. split; [reflexivity|]. vm_compute. discriminate.
Qed.

Section Returns.

Variable decode : list byte -> decode_result.
Variable encode :
  Response -> list byte -> list (string * pyval) -> option (list byte).
Variable draws : nat -> Z.

Lemma flip_loop_returns (message : Message) (todo : list Z) (r : Response) :
  find (fun x => String.eqb (response_short_name x) "flips_not_done")
       (negative_responses (service message)) = Some r ->
  (forall i, In i todo ->
     encode r (coded_message message)
       [("reason", PyInt 2); ("flips_successfully_done", PyInt i)] <> None) ->
  returns (flip_loop encode draws message todo).
Proof.
  intros Hfind. induction todo as [|i rest IH]; intros Henc; cbn [flip_loop].
  - apply returns_ret.
  - apply returns_bind.
    + unfold randrange_0_10000. apply returns_bind; [apply returns_gets|].
      intros k. apply returns_bind; [apply returns_modify|].
      intros _. apply returns_ret.
    + intros r0. destruct (r0 <? 100).
      * apply (returns_named_response encode _ _ r); [exact Hfind | |].
        -- apply Henc. left. reflexivity.
        -- intros payload. apply returns_bind; [apply returns_modify|].
           intros _. apply returns_ret.
      * apply returns_bind; [apply returns_modify|].
        intros _. apply IH. intros j Hj. apply Henc. right. exact Hj.
Qed.

(** The flip operation returns when the counter is within its bounds and
    the bound within the counts that the catalog encodes. *)
Lemma flip_request_returns (message : Message) (limit : Z) (s : Server) :
  short_name (service message) = "do_forward_flips" ->
  catalog_complete_for encode message limit ->
  0 <= dizziness_level s <= max_dizziness_level s ->
  max_dizziness_level s <= limit ->
  exists s', handle_forward_flip_request encode draws message s = (Ok tt, s').
Proof.
  intros Hname (_ & _ & _ & Hflip) Hd Hm.
  destruct (Hflip Hname)
    as ((c & Hc) & (n & Hn) & (r & Hfind & Henc) & (g & Hg & Hgenc)).
  rewrite (flip_request_run encode draws message s c n Hc Hn).
  destruct (negb (c =? 0x12)).
  - apply returns_at.
    apply (returns_named_response encode _ _ r); [exact Hfind | |].
    + apply Henc; lia.
    + intros payload. apply returns_modify.
  - destruct (dizziness_level s + n >? max_dizziness_level s) eqn:Hgt.
    + apply returns_at.
      apply (returns_named_response encode _ _ r); [exact Hfind | |].
      * apply Henc; lia.
      * intros payload. apply returns_bind; [apply returns_modify|].
        intros _. apply returns_modify.
    + apply returns_at. apply returns_bind.
      * apply (flip_loop_returns message _ r Hfind).
        intros i Hi. apply in_range in Hi. apply Henc; lia.
      * intros [|]; [apply returns_ret|].
        apply (returns_named_response encode _ _ g); [exact Hg | exact Hgenc |].
        intros payload. apply returns_modify.
Qed.

Lemma handle_request_returns (message : Message) (limit : Z) (s : Server) :
  catalog_complete_for encode message limit ->
  0 <= dizziness_level s <= max_dizziness_level s ->
  max_dizziness_level s <= limit ->
  exists s', handle_request encode draws message s = (Ok tt, s').
Proof.
  intros Hcomplete Hd Hm.
  pose proof Hcomplete as (Hprobe & Hstart & Hstop & _).
  unfold handle_request, ecu_logger, emit. rewrite run_bind_modify.
  destruct (String.eqb (short_name (service message)) "tester_present")
    eqn:Eprobe.
  { apply String.eqb_eq in Eprobe. destruct (Hprobe Eprobe) as [Hp Hn].
    apply returns_at. apply returns_bind; [apply returns_gets|].
    intros is_open. apply returns_bind; [|intros payload; apply returns_modify].
    destruct is_open; apply returns_first_response; assumption. }
  destruct (String.eqb (short_name (service message)) "session_start")
    eqn:Estart.
  { apply String.eqb_eq in Estart. destruct (Hstart Estart) as [Hp Hn].
    apply returns_at. apply returns_bind; [apply returns_gets|].
    intros is_open. apply returns_bind.
    - destruct is_open; cbn [negb]; apply returns_first_response; assumption.
    - intros payload. apply returns_bind; [apply returns_modify|].
      intros _. apply returns_modify. }
  rewrite run_bind_gets. cbn [record_event _diag_session_open].
  destruct (_diag_session_open s) eqn:Hopen; cbn [negb].
  2:{ eexists. reflexivity. }
  destruct (String.eqb (short_name (service message)) "session_stop")
    eqn:Estop.
  { apply String.eqb_eq in Estop. pose proof (Hstop Estop) as Hp.
    rewrite run_bind_gets. cbn [record_event _diag_session_open].
    rewrite Hopen. apply returns_at. apply returns_bind.
    - apply returns_first_response. exact Hp.
    - intros payload. apply returns_bind; [apply returns_modify|].
      intros _. apply returns_modify. }
  destruct (String.eqb (short_name (service message)) "do_forward_flips")
    eqn:Eflip.
  - apply String.eqb_eq in Eflip.
    apply (flip_request_returns message limit _ Eflip Hcomplete); assumption.
  - eexists. reflexivity.
Qed.

(** When the catalog decodes a frame to one message, [data_received] is the
    dispatcher on that message, as long as the dispatcher returns. *)
Lemma data_received_dispatch (data : list byte) (message : Message)
    (s s' : Server) :
  decode data = DecodeReturns [message] ->
  handle_request encode draws message (about_to_dispatch data s) = (Ok tt, s') ->
  data_received decode encode draws data s = (Ok tt, s').
Proof.
  intros Hdec Hrun. rewrite data_received_run, Hdec.
  unfold try_except_DecodeError. rewrite Hrun. reflexivity.
Qed.

(** X19.  The dispatcher is never left by an exception when the counter is
    within its bounds, the catalog is complete for the message (it encodes
    the responses that the dispatcher looks up for the service of the
    message, with the arguments that the dispatcher passes) and the bound of
    the counter is within the counts that the catalog encodes; this whatever
    the random source draws.  And [data_received] returns on every frame
    that the catalog either does not decode or decodes to one such
    message. *)
Theorem complete_catalog_never_raises (data : list byte) (s : Server)
    (limit : Z) :
  0 <= dizziness_level s <= max_dizziness_level s ->
  max_dizziness_level s <= limit ->
  (forall message,
     catalog_complete_for encode message limit ->
     fst (handle_request encode draws message s) = Ok tt) /\
  (decode data = DecodeRaises \/
   (exists message, decode data = DecodeReturns [message] /\
                    catalog_complete_for encode message limit) ->
   fst (data_received decode encode draws data s) = Ok tt).
Proof.
  intros Hd Hm. split.
  - intros message Hcomplete.
    destruct (handle_request_returns message limit s Hcomplete Hd Hm)
      as (s' & H).
    rewrite H. reflexivity.
  - intros [Hdec|(message & Hdec & Hcomplete)].
    + rewrite data_received_run, Hdec. reflexivity.
    + destruct (handle_request_returns message limit
                  (about_to_dispatch data s) Hcomplete Hd Hm) as (s' & H).
      rewrite (data_received_dispatch data message s s' Hdec H). reflexivity.
Qed.

End Returns.

(** The validating sample catalog is complete for its flip requests: a
    request for three flips that stumbles on the third draw, and the same
    request as a frame. *)
Lemma complete_catalog_never_raises_witness :
  fst (handle_request strict_encode third_draw_stumbles (flip_request 0x12 3)
         (session_at 0)) = Ok tt /\
  fst (data_received demo_decode strict_encode third_draw_stumbles
         [Byte.xba; Byte.x12; Byte.x03] (session_at 0)) = Ok tt.
Proof.
  split.
  - refine (proj1 (complete_catalog_never_raises demo_decode strict_encode
                     third_draw_stumbles [Byte.xba; Byte.x12; Byte.x03]
                     (session_at 0) 255 _ _)
              (flip_request 0x12 3) _).
    + vm_compute. split; discriminate.
    + vm_compute. discriminate.
    + apply strict_catalog_complete_for_flips.
  - refine (proj2 (complete_catalog_never_raises demo_decode strict_encode
                     third_draw_stumbles [Byte.xba; Byte.x12; Byte.x03]
                     (session_at 0) 255 _ _) _).
    + vm_compute. split; discriminate.
    + vm_compute. discriminate.
    + right. exists (flip_request 0x12 3). split; [reflexivity|].
      apply strict_catalog_complete_for_flips.
Defined.

(** ** The tester and the endpoint *)

Section TesterClaims.

Variable encode :
  Response -> list byte -> list (string * pyval) -> option (list byte).
Variable draws : nat -> Z.
Variable decode_response : list byte -> list byte -> decode_response_result.
Variable SID_name : byte -> option string.
Variable NegativeResponseCodes_name : byte -> option string.

(** X20.  A response that the catalog does not decode is handed back as it
    was read.  The one exception: a frame of three or more bytes that
    starts with the negative-response marker and whose third byte is not a
    known response code; there the look-up of the code raises [ValueError],
    which leaves [tester_await_response].  (An unknown service id in the
    second byte is tolerated and printed in hexadecimal.) *)
Theorem undecodable_response_is_returned_raw (raw_response raw_message : list byte) :
  decode_response raw_response raw_message = DecodeResponseRaises ->
  (forall answer,
     snd (tester_await_response decode_response SID_name
            NegativeResponseCodes_name (ReadReturns raw_response) raw_message)
     = TesterReturns answer ->
     answer = RawResponse raw_response) /\
  (forall e,
     snd (tester_await_response decode_response SID_name
            NegativeResponseCodes_name (ReadReturns raw_response) raw_message)
     = TesterRaises e ->
     e = TesterValueError /\
     is_negative_response raw_response = true /\
     exists error_id,
       nth_error raw_response 2 = Some error_id /\
       NegativeResponseCodes_name error_id = None) /\
  (is_negative_response raw_response = false ->
   tester_await_response decode_response SID_name
     NegativeResponseCodes_name (ReadReturns raw_response) raw_message
   = ([DebugReceivedResponse; DebugCouldNotDecodeResponse],
      TesterReturns (RawResponse raw_response))).
Proof.
  intros Hdec. unfold tester_await_response, is_negative_response.
  rewrite Hdec.
  destruct raw_response as [|sid [|rq_sid [|error_id rest]]];
    try (split; [|split]; [intros answer H; injection H as <-; reflexivity
                          | intros e H; discriminate
                          | reflexivity]).
  destruct (Byte.eqb sid NegativeResponseId).
  - destruct (NegativeResponseCodes_name error_id) as [error_name|] eqn:Hcode.
    + split; [|split].
      * intros answer H. injection H as <-. reflexivity.
      * intros e H. discriminate.
      * discriminate.
    + split; [|split].
      * intros answer H. discriminate.
      * intros e H. injection H as <-. split; [reflexivity|].
        split; [reflexivity|]. exists error_id. split; [reflexivity|exact Hcode].
      * discriminate.
  - split; [|split].
    + intros answer H. injection H as <-. reflexivity.
    + intros e H. discriminate.
    + reflexivity.
Qed.

(** X21.  The endpoint and the tester together.  The frame with which a
    closed session refuses a request is, for a tester whose catalog does
    not decode it, a negative response: the tester logs the refusal under
    the name of the service whose id the frame echoes (or under that id in
    hexadecimal), with the name of the code 0x7F, and hands the frame
    back. *)
Theorem refusal_is_understood_by_tester (message : Message) (s : Server)
    (raw_message : list byte) (error_name : string) :
  short_name (service message) <> "tester_present" ->
  short_name (service message) <> "session_start" ->
  _diag_session_open s = false ->
  NegativeResponseCodes_name Byte.x7f = Some error_name ->
  exists frame,
    responses_written
      (new_events s (snd (handle_request encode draws message s))) = [frame] /\
    (decode_response frame raw_message = DecodeResponseRaises ->
     tester_await_response decode_response SID_name
       NegativeResponseCodes_name (ReadReturns frame) raw_message
     = ([DebugReceivedResponse;
         DebugNegativeResponseByService
           (match SID_name (request_id message) with
            | Some name => name
            | None => format_0x (request_id message)
            end) error_name],
        TesterReturns (RawResponse frame))).
Proof.
  intros Hkeep Hstart Hclosed Hcode.
  exists [Byte.x7f; request_id message; Byte.x7f]. split.
  - rewrite (handle_request_closed encode draws message s Hkeep Hstart Hclosed).
    cbn [snd].
    rewrite (new_events_app s _
      [Logged (InfoReceivedMessage (short_name (service message)));
       Written [Byte.x7f; request_id message; Byte.x7f]]);
      [reflexivity | cbn; rewrite <- app_assoc; reflexivity].
  - intros Hdec. unfold tester_await_response. rewrite Hdec.
    cbn [Byte.eqb NegativeResponseId]. rewrite Hcode.
    replace (Byte.eqb Byte.x7f Byte.x7f) with true by reflexivity.
    reflexivity.
Qed.

End TesterClaims.

(** A frame that starts with the marker but carries an unknown code makes
    the tester fail with [ValueError]. *)
Lemma undecodable_response_is_returned_raw_witness :
  TesterValueError = TesterValueError /\
  is_negative_response [Byte.x7f; Byte.xba; Byte.x01] = true /\
  exists error_id,
    nth_error [Byte.x7f; Byte.xba; Byte.x01] 2 = Some error_id /\
    demo_NegativeResponseCodes_name error_id = None.
Proof.
  apply (proj1 (proj2 (undecodable_response_is_returned_raw decode_no_response
                         no_SID_name demo_NegativeResponseCodes_name
                         [Byte.x7f; Byte.xba; Byte.x01] [Byte.xba] eq_refl))
           TesterValueError).
  reflexivity.
Defined.

(** The request [31 01] to the server as constructed: the tester logs a
    negative response by service [0x31]. *)
Lemma refusal_is_understood_by_tester_witness :
  exists frame,
    responses_written
      (new_events __init__
         (snd (handle_request demo_encode steady_draws
                 (plain_request "routine_control" [Byte.x31; Byte.x01])
                 __init__))) = [frame] /\
    (decode_no_response frame [Byte.x31; Byte.x01] = DecodeResponseRaises ->
     tester_await_response decode_no_response no_SID_name
       demo_NegativeResponseCodes_name (ReadReturns frame)
       [Byte.x31; Byte.x01]
     = ([DebugReceivedResponse;
         DebugNegativeResponseByService "0x31"
           "ServiceNotSupportedInActiveSession"],
        TesterReturns (RawResponse frame))).
Proof.
  apply (refusal_is_understood_by_tester demo_encode steady_draws
           decode_no_response no_SID_name demo_NegativeResponseCodes_name
           (plain_request "routine_control" [Byte.x31; Byte.x01]) __init__
           [Byte.x31; Byte.x01] "ServiceNotSupportedInActiveSession").
  - discriminate.
  - discriminate.
  - reflexivity.
  - reflexivity.
Defined.

(** ** The scenario of the tester against the endpoint *)

#[export] Instance same_open_preorder : PreOrder same_open.
Proof.
  split.
  - intros s. reflexivity.
  - intros s1 s2 s3 H12 H23. unfold same_open in *. congruence.
Qed.

Section Scenario.

Variable decode : list byte -> decode_result.
Variable encode :
  Response -> list byte -> list (string * pyval) -> option (list byte).
Variable draws : nat -> Z.

Lemma flip_loop_same_open (message : Message) (todo : list Z) :
  preserves same_open (flip_loop encode draws message todo).
Proof.
  induction todo as [|i rest IH]; cbn [flip_loop].
  - apply preserves_ret. typeclasses eauto.
  - preserves_all; first [ exact IH | reflexivity ].
Qed.

Lemma flip_request_same_open (message : Message) :
  preserves same_open (handle_forward_flip_request encode draws message).
Proof.
  unfold handle_forward_flip_request.
  preserves_all; first [ apply flip_loop_same_open | reflexivity ].
Qed.

(** A start-session request that was handled to the end leaves the session
    open. *)
Lemma start_request_returned_open (message : Message) (s s' : Server) :
  short_name (service message) = "session_start" ->
  handle_request encode draws message s = (Ok tt, s') ->
  _diag_session_open s' = true.
Proof.
  intros Hname. unfold handle_request, ecu_logger, emit. run_steps.
  rewrite Hname. cbn [String.eqb Ascii.eqb Bool.eqb]. run_steps.
  unfold item0, call_encode, transport_write, emit.
  crunch; try discriminate;
    intros H; injection H as <-; reflexivity.
Qed.

(** A sober request for more than fits, handled to the end, leaves the
    counter at its bound. *)
Lemma capacity_gate_on_return (message : Message) (s s' : Server) (n : Z) :
  param_dict message !! "forward_soberness_check" = Some 0x12 ->
  param_dict message !! "num_flips" = Some n ->
  dizziness_level s + n > max_dizziness_level s ->
  handle_forward_flip_request encode draws message s = (Ok tt, s') ->
  dizziness_level s' = max_dizziness_level s.
Proof.
  intros Hc Hn Hgate.
  rewrite (flip_request_run encode draws message s _ _ Hc Hn).
  cbn [Z.eqb Pos.eqb negb].
  destruct (dizziness_level s + n >? max_dizziness_level s) eqn:Hgt; [|lia].
  unfold next_filter, call_encode, transport_write, emit.
  crunch; try discriminate.
  cbn [modify]. intros H. injection H as <-. reflexivity.
Qed.

(** What the reception of a frame does to the server when the catalog
    decodes the frame to one message and is complete for it. *)
Lemma received_and_answered (data : list byte) (message : Message)
    (limit : Z) (s : Server) :
  decode data = DecodeReturns [message] ->
  catalog_complete_for encode message limit ->
  0 <= dizziness_level s <= max_dizziness_level s ->
  max_dizziness_level s <= limit ->
  handled_by_name (short_name (service message)) = true ->
  exists s',
    handle_request encode draws message (about_to_dispatch data s) = (Ok tt, s') /\
    step decode encode draws (DataReceived data) s = s' /\
    wrote 1 s s'.
Proof.
  intros Hdec Hcomplete Hd Hm Hname.
  destruct (handle_request_returns encode draws message limit
              (about_to_dispatch data s) Hcomplete Hd Hm) as (s' & Hrun).
  exists s'. split; [exact Hrun|]. split.
  - cbn [step]. rewrite (data_received_dispatch decode encode draws data message
                           s s' Hdec Hrun). reflexivity.
  - pose proof (handle_request_answers encode draws message Hname
                  (about_to_dispatch data s)) as Hans.
    rewrite Hrun in Hans.
    apply (wrote_trans 0 1 s (about_to_dispatch data s) s'); [|exact Hans].
    exists [IdleSignalSet; Logged (DebugDataReceived data); DecodeCalled data].
    split; [apply trace_about_to_dispatch | reflexivity].
Qed.

(** A flip request received in an open session, with a complete catalog. *)
Lemma open_flip_step (data : list byte) (message : Message) (limit : Z)
    (s : Server) (c n : Z) :
  decode data = DecodeReturns [message] ->
  short_name (service message) = "do_forward_flips" ->
  param_dict message !! "forward_soberness_check" = Some c ->
  param_dict message !! "num_flips" = Some n ->
  catalog_complete_for encode message limit ->
  _diag_session_open s = true ->
  0 <= dizziness_level s <= max_dizziness_level s ->
  max_dizziness_level s <= limit ->
  _diag_session_open (step decode encode draws (DataReceived data) s) = true /\
  max_dizziness_level (step decode encode draws (DataReceived data) s)
    = max_dizziness_level s /\
  dizziness_level s
    <= dizziness_level (step decode encode draws (DataReceived data) s)
    <= max_dizziness_level s /\
  wrote 1 s (step decode encode draws (DataReceived data) s) /\
  (c = 0x12 -> dizziness_level s + n > max_dizziness_level s ->
   dizziness_level (step decode encode draws (DataReceived data) s)
     = max_dizziness_level s).
Proof.
  intros Hdec Hname Hc Hn Hcomplete Hopen Hbound Hlimit.
  destruct (received_and_answered data message limit s Hdec Hcomplete
              Hbound Hlimit)
    as (s' & Hrun & -> & Hwrote); [rewrite Hname; reflexivity|].
  rewrite handle_request_flips_run in Hrun; [|exact Hname|exact Hopen].
  pose proof (flip_request_same_open message
                (record_event (Logged (InfoReceivedMessage "do_forward_flips"))
                   (about_to_dispatch data s))) as Hso.
  pose proof (flip_request_grows encode draws message
                (record_event (Logged (InfoReceivedMessage "do_forward_flips"))
                   (about_to_dispatch data s))) as [Hm Hd].
  rewrite Hrun in Hso, Hm, Hd. unfold same_open in Hso.
  cbn [snd about_to_dispatch record_event set_data_receive_event
       _diag_session_open dizziness_level max_dizziness_level] in Hso, Hm, Hd.
  specialize (Hd (proj2 Hbound)).
  split; [congruence|]. split; [exact Hm|]. split; [exact Hd|].
  split; [exact Hwrote|].
  intros -> Hgate.
  exact (capacity_gate_on_return message
           (record_event (Logged (InfoReceivedMessage "do_forward_flips"))
              (about_to_dispatch data s)) s' n Hc Hn Hgate Hrun).
Qed.

(** X22.  The scenario of [tester_main], run against the endpoint as
    constructed, with no idle timeout between the frames and a catalog that
    decodes the requests it encoded and is complete for them: it encodes the
    responses that the dispatcher looks up for them, with the arguments that
    the dispatcher passes and counts up to a limit that the bound of the
    counter does not exceed.  Whatever the random source draws: each of the
    six requests gets one response, the session is open at the end, and the
    last request, for fifty flips, leaves dizziness at its bound of 10. *)
Theorem tester_scenario_ends_saturated (request : service_call -> list byte)
    (limit : Z) :
  max_dizziness_level __init__ <= limit ->
  decodes_its_requests decode encode request limit tester_main_calls ->
  _diag_session_open
    (receive_all decode encode draws (map request tester_main_calls) __init__)
    = true /\
  dizziness_level
    (receive_all decode encode draws (map request tester_main_calls) __init__)
    = 10 /\
  length
    (responses_written
       (new_events __init__
          (receive_all decode encode draws (map request tester_main_calls)
             __init__))) = 6%nat.
Proof.
  intros Hlimit Hcalls.
  change (max_dizziness_level __init__) with 10 in Hlimit.
  unfold receive_all. cbn [map tester_main_calls fold_left].
  (* the flip without session *)
  destruct (Hcalls (Call_do_forward_flips 0x12 1) ltac:(cbn; tauto))
    as (m1 & Hdec1 & Hcomp1 & Hname1 & Hc1 & Hn1).
  destruct (received_and_answered (request (Call_do_forward_flips 0x12 1))
              m1 limit __init__ Hdec1 Hcomp1)
    as (s1 & Hrun1 & Hstep1 & Hw1);
    [cbn; lia | exact Hlimit | rewrite Hname1; reflexivity|].
  rewrite Hstep1.
  rewrite handle_request_closed in Hrun1;
    [|rewrite Hname1; discriminate ..|reflexivity].
  assert (Hs1 : _diag_session_open s1 = false /\ dizziness_level s1 = 0 /\
                max_dizziness_level s1 = 10).
  { injection Hrun1 as <-. repeat split; reflexivity. }
  clear Hrun1 Hstep1. destruct Hs1 as (Ho1 & Hd1 & Hm1).
  (* the session start *)
  destruct (Hcalls Call_session_start ltac:(cbn; tauto))
    as (m2 & Hdec2 & Hcomp2 & Hname2).
  destruct (received_and_answered (request Call_session_start)
              m2 limit s1 Hdec2 Hcomp2)
    as (s2 & Hrun2 & Hstep2 & Hw2);
    [lia | lia | rewrite Hname2; reflexivity|].
  rewrite Hstep2.
  assert (Hs2 : _diag_session_open s2 = true /\ dizziness_level s2 = 0 /\
                max_dizziness_level s2 = 10).
  { split; [apply (start_request_returned_open m2 _ s2 Hname2 Hrun2)|].
    destruct (handle_request_quiet encode draws m2) with
      (s := about_to_dispatch (request Call_session_start) s1)
      as (Hd & Hm & _); [rewrite Hname2; discriminate|].
    rewrite Hrun2 in Hd, Hm. cbn in Hd, Hm. split; congruence. }
  clear Hrun2 Hstep2. destruct Hs2 as (Ho2 & Hd2 & Hm2).
  (* one flip *)
  destruct (Hcalls (Call_do_forward_flips 0x12 1) ltac:(cbn; tauto))
    as (m3 & Hdec3 & Hcomp3 & Hname3 & Hc3 & Hn3).
  destruct (open_flip_step _ m3 limit s2 _ _ Hdec3 Hname3 Hc3 Hn3 Hcomp3 Ho2
              ltac:(lia) ltac:(lia)) as (Ho3 & Hm3 & Hd3 & Hw3 & _).
  (* one flip, not sober *)
  destruct (Hcalls (Call_do_forward_flips 0x23 1) ltac:(cbn; tauto))
    as (m4 & Hdec4 & Hcomp4 & Hname4 & Hc4 & Hn4).
  destruct (open_flip_step _ m4 limit _ _ _ Hdec4 Hname4 Hc4 Hn4 Hcomp4 Ho3
              ltac:(lia) ltac:(lia)) as (Ho4 & Hm4 & Hd4 & Hw4 & _).
  (* three flips *)
  destruct (Hcalls (Call_do_forward_flips 0x12 3) ltac:(cbn; tauto))
    as (m5 & Hdec5 & Hcomp5 & Hname5 & Hc5 & Hn5).
  destruct (open_flip_step _ m5 limit _ _ _ Hdec5 Hname5 Hc5 Hn5 Hcomp5 Ho4
              ltac:(lia) ltac:(lia)) as (Ho5 & Hm5 & Hd5 & Hw5 & _).
  (* fifty flips *)
  destruct (Hcalls (Call_do_forward_flips 0x12 50) ltac:(cbn; tauto))
    as (m6 & Hdec6 & Hcomp6 & Hname6 & Hc6 & Hn6).
  destruct (open_flip_step _ m6 limit _ _ _ Hdec6 Hname6 Hc6 Hn6 Hcomp6 Ho5
              ltac:(lia) ltac:(lia)) as (Ho6 & Hm6 & Hd6 & Hw6 & Hfull).
  split; [exact Ho6|]. split.
  - rewrite (Hfull eq_refl ltac:(lia)). lia.
  - apply (wrote_new_events 6).
    pose proof (wrote_trans _ _ _ _ _ Hw1 Hw2) as H12.
    pose proof (wrote_trans _ _ _ _ _ H12 Hw3) as H13.
    pose proof (wrote_trans _ _ _ _ _ H13 Hw4) as H14.
    pose proof (wrote_trans _ _ _ _ _ H14 Hw5) as H15.
    exact (wrote_trans _ _ _ _ _ H15 Hw6).
Qed.

End Scenario.


(** The validating sample catalog decodes the requests of the scenario and
    is complete for them. *)
Lemma tester_scenario_ends_saturated_witness :
  _diag_session_open
    (receive_all demo_decode strict_encode third_draw_stumbles
       (map demo_request tester_main_calls) __init__) = true /\
  dizziness_level
    (receive_all demo_decode strict_encode third_draw_stumbles
       (map demo_request tester_main_calls) __init__) = 10 /\
  length
    (responses_written
       (new_events __init__
          (receive_all demo_decode strict_encode third_draw_stumbles
             (map demo_request tester_main_calls) __init__))) = 6%nat.
Proof.
  refine (tester_scenario_ends_saturated demo_decode strict_encode
            third_draw_stumbles demo_request 255 _ _).
  - vm_compute. discriminate.
  - intros call Hin. cbn in Hin.
    destruct Hin as [<-|[<-|[<-|[<-|[<-|[<-|[]]]]]]].
    + exists (flip_request 0x12 1). split; [reflexivity|].
      split; [apply strict_catalog_complete_for_flips|].
      repeat split; vm_compute; reflexivity.
    + exists (plain_request "session_start" [Byte.x10; Byte.x00]).
      split; [reflexivity|]. split; [|reflexivity].
      split; [intros H; discriminate H|]. split.
      * intros _. split.
        -- exists positive_response, []. split; [reflexivity|].
           vm_compute. discriminate.
        -- exists negative_response, []. split; [reflexivity|].
           vm_compute. discriminate.
      * split; intros H; discriminate H.
    + exists (flip_request 0x12 1). split; [reflexivity|].
      split; [apply strict_catalog_complete_for_flips|].
      repeat split; vm_compute; reflexivity.
    + exists (flip_request 0x23 1). split; [reflexivity|].
      split; [apply strict_catalog_complete_for_flips|].
      repeat split; vm_compute; reflexivity.
    + exists (flip_request 0x12 3). split; [reflexivity|].
      split; [apply strict_catalog_complete_for_flips|].
      repeat split; vm_compute; reflexivity.
    + exists (flip_request 0x12 50). split; [reflexivity|].
      split; [apply strict_catalog_complete_for_flips|].
      repeat split; vm_compute; reflexivity.
Defined.
